(** * System report generator: collectors, aggregator and renderers

    A shallow embedding of [SystemReport] (src/проект/код.py).

    - Python values are the inductive [pyval]; a [dict] is an association
      list in insertion order, which is the order [json.dumps] and
      [dict.items()] follow.
    - A Python [str] is its sequence of Unicode code points ([pystr]).
    - A Python [float] is carried by the rational it denotes exactly;
      the quotient of two ints is rounded to a double first.
    - The operating system and psutil are the record [Host]: one field
      per query, fallible queries returning a [result].
    - A raised exception is [Raise e]; [try/except] is a match on it. *)

From Stdlib Require Import List ZArith NArith QArith Qround Bool Ascii String Lia.
From Stdlib Require Import Permutation Sorted.
Import ListNotations.

Local Open Scope Z_scope.
Local Open Scope list_scope.

(** ** Strings *)

Module Str.

Definition pystr := list N.

(** Code points of a UTF-8 literal. [need] counts the continuation bytes
    still expected, [pending] holds the bits read so far. *)
Fixpoint utf8_decode (s : string) (pending : N) (need : nat) : pystr :=
  match s with
  | EmptyString => []
  | String c rest =>
      let b := N_of_ascii c in
      match need with
      | O =>
          if (b <? 128)%N then b :: utf8_decode rest 0%N O
          else if (b <? 224)%N then utf8_decode rest (b - 192)%N 1%nat
          else if (b <? 240)%N then utf8_decode rest (b - 224)%N 2%nat
          else utf8_decode rest (b - 240)%N 3%nat
      | S O => (pending * 64 + (b - 128))%N :: utf8_decode rest 0%N O
      | S n => utf8_decode rest (pending * 64 + (b - 128))%N n
      end
  end.

Definition u (s : string) : pystr := utf8_decode s 0%N O.

Fixpoint eqb (a b : pystr) : bool :=
  match a, b with
  | [], [] => true
  | x :: a', y :: b' => (x =? y)%N && eqb a' b'
  | _, _ => false
  end.

(** [c * n] for a one-character string [c]. *)
Definition rep (c : N) (n : nat) : pystr := repeat c n.

(** [sep.join(parts)] *)
Fixpoint join (sep : pystr) (parts : list pystr) : pystr :=
  match parts with
  | [] => []
  | [p] => p
  | p :: rest => p ++ sep ++ join sep rest
  end.

(** [s] with every occurrence of the character [c] removed. *)
Definition remove_char (c : N) (s : pystr) : pystr :=
  filter (fun x => negb (x =? c)%N) s.

(** Left- and right-justification to a minimum width, padding with spaces
    (the default alignment of [format] for strings and numbers). *)
Definition ljust (w : nat) (s : pystr) : pystr :=
  s ++ rep 32%N (w - List.length s).
Definition rjust (w : nat) (s : pystr) : pystr :=
  rep 32%N (w - List.length s) ++ s.

(** [s] occurs in [t] as a contiguous run of characters. *)
Definition infix (s t : pystr) : Prop :=
  exists pre post, t = pre ++ s ++ post.

Fixpoint prefixb (s t : pystr) : bool :=
  match s, t with
  | [], _ => true
  | x :: s', y :: t' => (x =? y)%N && prefixb s' t'
  | _ :: _, [] => false
  end.

(** [s in t] *)
Fixpoint infixb (s t : pystr) : bool :=
  prefixb s t || match t with
                 | [] => false
                 | _ :: t' => infixb s t'
                 end.

Definition is_ascii (s : pystr) : Prop := Forall (fun c => (c < 128)%N) s.

End Str.
Import Str.

Arguments u s%_string.

(** ** Numbers as text *)

Module Num.

Fixpoint uint_chars (d : Decimal.uint) : pystr :=
  match d with
  | Decimal.Nil => []
  | Decimal.D0 r => 48%N :: uint_chars r
  | Decimal.D1 r => 49%N :: uint_chars r
  | Decimal.D2 r => 50%N :: uint_chars r
  | Decimal.D3 r => 51%N :: uint_chars r
  | Decimal.D4 r => 52%N :: uint_chars r
  | Decimal.D5 r => 53%N :: uint_chars r
  | Decimal.D6 r => 54%N :: uint_chars r
  | Decimal.D7 r => 55%N :: uint_chars r
  | Decimal.D8 r => 56%N :: uint_chars r
  | Decimal.D9 r => 57%N :: uint_chars r
  end.

Definition dec_N (n : N) : pystr := uint_chars (N.to_uint n).

(** [repr] of an [int]. *)
Definition repr_int (z : Z) : pystr :=
  if z <? 0 then 45%N :: dec_N (Z.to_N (- z)) else dec_N (Z.to_N z).

(** Nearest integer to [n / d] for [0 <= n], [0 < d], ties to even: the
    rounding of [format(x, '.Nf')]. *)
Definition round_half_even (n d : Z) : Z :=
  let fl := n / d in
  let r := n mod d in
  if 2 * r <? d then fl
  else if d <? 2 * r then fl + 1
  else if Z.even fl then fl else fl + 1.

(** The float's value times [10^digits], rounded. *)
Definition scaled (digits : nat) (q : Q) : Z :=
  round_half_even (Z.abs (Qnum q) * 10 ^ Z.of_nat digits) (Zpos (Qden q)).

Definition zero_pad (w : nat) (s : pystr) : pystr :=
  rep 48%N (w - List.length s) ++ s.

(** [format(x, '.Nf')] for the float whose exact value is [q]. *)
Definition fmt_fixed (digits : nat) (q : Q) : pystr :=
  let t := scaled digits q in
  let p := 10 ^ Z.of_nat digits in
  (if Qnum q <? 0 then [45%N] else [])
    ++ dec_N (Z.to_N (t / p))
    ++ match digits with
       | O => []
       | _ => 46%N :: zero_pad digits (dec_N (Z.to_N (t mod p)))
       end.

(** The double nearest to the integer [n], ties to even: integers below
    [2^53] in size are doubles already, larger ones keep their 53 leading
    bits. *)
Definition to_double (n : Z) : Z :=
  let a := Z.abs n in
  if a <? 2 ^ 53 then n
  else
    let e := Z.log2 a - 52 in
    Z.sgn n * (round_half_even a (2 ^ e) * 2 ^ e).

(** [n / (1024**k)] as a float: the quotient of two ints is rounded to the
    nearest double, which for a power of two as divisor is the nearest
    double to [n], scaled. (No overflow: [n] stays below [2^1024].) *)
Definition div_pow1024 (n : Z) (k : nat) : Q :=
  to_double n # (Pos.pow 1024 (Pos.of_nat k)).

End Num.
Import Num.

(** ** Python values, exceptions and the operations the program uses *)

Module Py.

Inductive exn :=
| KeyError (k : pystr)
| TypeError
| ValueError
| AttributeError
| OSError
| PermissionError
| GaiError            (* socket.gaierror *)
| NoSuchProcess       (* psutil.NoSuchProcess *)
| AccessDenied        (* psutil.AccessDenied *)
| NotImplementedError
| Unmodelled.         (* not an exception: the operation left the modelled
                         fragment of Python; nothing is claimed there *)

(** [issubclass(e, OSError)] *)
Definition is_OSError (e : exn) : bool :=
  match e with
  | OSError | PermissionError | GaiError => true
  | _ => false
  end.

Inductive result (A : Type) :=
| Ok (a : A)
| Raise (e : exn).
Arguments Ok {A} a.
Arguments Raise {A} e.

Definition bind {A B} (r : result A) (k : A -> result B) : result B :=
  match r with
  | Ok a => k a
  | Raise e => Raise e
  end.

#[local] Unset Elimination Schemes.
Inductive pyval :=
| PNone
| PInt (z : Z)
| PFloat (q : Q)
| PStr (s : pystr)
| PList (l : list pyval)
| PDict (d : list (pystr * pyval))
| PObj (s : pystr).    (* any other object; [s] is what [str] returns *)
#[local] Set Elimination Schemes.

Section PyvalInd.
Variable P : pyval -> Prop.
Hypothesis HNone : P PNone.
Hypothesis HInt : forall z, P (PInt z).
Hypothesis HFloat : forall q, P (PFloat q).
Hypothesis HStr : forall s, P (PStr s).
Hypothesis HList : forall l, Forall P l -> P (PList l).
Hypothesis HDict : forall d, Forall (fun kv => P (snd kv)) d -> P (PDict d).
Hypothesis HObj : forall s, P (PObj s).

(** Induction on Python values, through lists and dicts. *)
Fixpoint pyval_nested_ind (v : pyval) : P v :=
  match v with
  | PNone => HNone
  | PInt z => HInt z
  | PFloat q => HFloat q
  | PStr s => HStr s
  | PList l =>
      HList l
        ((fix all (l : list pyval) : Forall P l :=
            match l with
            | [] => Forall_nil _
            | x :: t => Forall_cons x (pyval_nested_ind x) (all t)
            end) l)
  | PDict d =>
      HDict d
        ((fix all (d : list (pystr * pyval)) : Forall (fun kv => P (snd kv)) d :=
            match d with
            | [] => Forall_nil _
            | (k, x) :: t =>
                Forall_cons (P := fun kv => P (snd kv)) (k, x)
                  (pyval_nested_ind x) (all t)
            end) d)
  | PObj s => HObj s
  end.

End PyvalInd.

Definition dict := list (pystr * pyval).

Fixpoint dict_lookup (k : pystr) (d : dict) : option pyval :=
  match d with
  | [] => None
  | (k', v) :: rest => if Str.eqb k k' then Some v else dict_lookup k rest
  end.

(** [d[k] = v]: replaces in place, or appends a new key at the end. *)
Fixpoint dict_set (k : pystr) (v : pyval) (d : dict) : dict :=
  match d with
  | [] => [(k, v)]
  | (k', v') :: rest =>
      if Str.eqb k k' then (k', v) :: rest else (k', v') :: dict_set k v rest
  end.

(** [d.get(k, default)] *)
Definition dict_get (k : pystr) (default : pyval) (d : dict) : pyval :=
  match dict_lookup k d with
  | Some v => v
  | None => default
  end.

(** [k in d] *)
Definition dict_mem (k : pystr) (d : dict) : bool :=
  match dict_lookup k d with
  | Some _ => true
  | None => false
  end.

(** [v[k]] for a string key [k]. *)
Definition getitem (v : pyval) (k : pystr) : result pyval :=
  match v with
  | PDict d =>
      match dict_lookup k d with
      | Some x => Ok x
      | None => Raise (KeyError k)
      end
  | PObj _ => Raise Unmodelled
  | _ => Raise TypeError
  end.

(** [bool(v)] *)
Definition truthy (v : pyval) : bool :=
  match v with
  | PNone => false
  | PInt z => negb (z =? 0)
  | PFloat q => negb (Qeq_bool q 0)
  | PStr s => negb (Nat.eqb (List.length s) 0)
  | PList l => negb (Nat.eqb (List.length l) 0)
  | PDict d => negb (Nat.eqb (List.length d) 0)
  | PObj _ => true
  end.

(** The elements a [for] loop visits. Only lists are modelled. *)
Definition iter (v : pyval) : result (list pyval) :=
  match v with
  | PList l => Ok l
  | PNone | PInt _ | PFloat _ => Raise TypeError
  | _ => Raise Unmodelled
  end.

(** [v.items()] *)
Definition items (v : pyval) : result dict :=
  match v with
  | PDict d => Ok d
  | PObj _ => Raise Unmodelled
  | _ => Raise AttributeError
  end.

(** [k in v] for a string [k]; only dicts are modelled. *)
Definition contains (k : pystr) (v : pyval) : result bool :=
  match v with
  | PDict d => Ok (dict_mem k d)
  | PNone | PInt _ | PFloat _ => Raise TypeError
  | _ => Raise Unmodelled
  end.

(** [v[:n]] *)
Definition slice_to (n : nat) (v : pyval) : result pyval :=
  match v with
  | PList l => Ok (PList (firstn n l))
  | PStr s => Ok (PStr (firstn n s))
  | PObj _ => Raise Unmodelled
  | _ => Raise TypeError
  end.

(** A number's value, for comparisons. *)
Definition as_number (v : pyval) : option Q :=
  match v with
  | PInt z => Some (inject_Z z)
  | PFloat q => Some q
  | _ => None
  end.

Fixpoint all_numbers (vs : list pyval) : option (list Q) :=
  match vs with
  | [] => Some []
  | v :: rest =>
      match as_number v, all_numbers rest with
      | Some q, Some qs => Some (q :: qs)
      | _, _ => None
      end
  end.

(** Stable insertion into a list sorted by key, largest first: the new
    element comes from the left of everything in [l], so it goes before
    the first element whose key is not larger. *)
Fixpoint insert_desc {A} (k : Q) (x : A) (l : list (Q * A)) : list (Q * A) :=
  match l with
  | [] => [(k, x)]
  | (k', y) :: t =>
      if Qle_bool k' k then (k, x) :: (k', y) :: t
      else (k', y) :: insert_desc k x t
  end.

Definition sort_desc {A} (l : list (Q * A)) : list (Q * A) :=
  fold_right (fun kx acc => insert_desc (fst kx) (snd kx) acc) [] l.

(** [l.sort(key=key, reverse=True)]: a stable sort, largest key first.
    Lists of fewer than two elements are never compared. Comparing [None]
    raises [TypeError]. *)
Definition list_sort_reverse {A} (key : A -> pyval) (l : list A)
  : result (list A) :=
  match l with
  | [] | [_] => Ok l
  | _ =>
      match all_numbers (map key l) with
      | Some ks => Ok (map snd (sort_desc (combine ks l)))
      | None =>
          if existsb (fun v => match v with PNone => true | _ => false end)
               (map key l)
          then Raise TypeError else Raise Unmodelled
      end
  end.

End Py.
Import Py.

Notation "x <- e ;; k" := (bind e (fun x => k))
  (at level 61, e at next level, right associativity).

(** ** The host: what the operating system, [socket], [platform],
    [datetime] and psutil answer during one run *)

Module Os.

Record partition := { device : pystr; mountpoint : pystr; fstype : pystr }.
Record sdiskusage := { du_total : Z; du_used : Z; du_free : Z; du_percent : Q }.
Record sdiskio := { read_bytes : Z; write_bytes : Z }.
Record scpufreq := { freq_current : Q }.
Record svmem := { vm_total : Z; vm_used : Z; vm_percent : Q }.
Record sswap := { sw_used : Z; sw_total : Z }.
Inductive family := AF_INET | AF_INET6 | AF_LINK | AF_OTHER.
Record snicaddr := { addr_family : family; address : pystr; netmask : option pystr }.
Record snicstats := { isup : bool; speed : Z; mtu : Z }.
Record snetio :=
  { bytes_sent : Z; bytes_recv : Z; packets_sent : Z; packets_recv : Z }.
(** What [process_iter(['pid', 'name', 'cpu_percent', 'memory_percent'])]
    yields for one process. psutil puts [None] in place of an attribute
    it is denied, so the name and the CPU percentage may be missing.
    The memory percentage is computed from the process's [memory_info()],
    the very read the collector repeats and guards: where it is denied
    the process is dropped before its percentage is looked at, so the
    field holds the float of the processes that stay. *)
Record pinfo :=
  { pid : Z; proc_name : option pystr; cpu_percent_of : option Q;
    memory_percent : Q }.
Record suser := { user_name : pystr; user_host : option pystr; started : Q }.
Record shwtemp := { temp_current : Q }.

Record Host := {
  (* datetime: the clock, and local-time formatting with
     "%Y-%m-%d %H:%M:%S" and "%H:%M:%S" *)
  clock : Q;
  strftime_datetime : Q -> pystr;
  strftime_time : Q -> pystr;
  (* platform, socket *)
  platform_system : pystr;
  platform_release : pystr;
  platform_version : pystr;
  gethostname : pystr;
  gethostbyname : pystr -> result pystr;
  (* psutil *)
  cpu_freq : result (option scpufreq);
  cpu_count : bool -> result (option Z);          (* argument: [logical] *)
  cpu_percent : result Q;
  cpu_percent_percpu : result (list Q);
  virtual_memory : result svmem;
  swap_memory : result sswap;
  disk_partitions : result (list partition);
  disk_usage : pystr -> result sdiskusage;
  (* the [perdisk=True] query made while the given partition is handled *)
  disk_io_counters : partition -> result (list (pystr * sdiskio));
  net_io_counters : result snetio;
  net_if_addrs : result (list (pystr * list snicaddr));
  net_if_stats : result (list (pystr * snicstats));
  process_iter : list pinfo;
  (* [psutil.Process(pid).memory_info().rss] *)
  memory_info_rss : Z -> result Z;
  users : result (list suser);
  boot_time : result Q;
  (* [AttributeError] where psutil has no [sensors_temperatures] *)
  sensors_temperatures : result (list (pystr * list shwtemp))
}.

End Os.
Import Os.

(** ** The collectors *)

Module Collectors.

Definition opt_int (o : option Z) : pyval :=
  match o with Some z => PInt z | None => PNone end.

Definition opt_str (o : option pystr) : pyval :=
  match o with Some s => PStr s | None => PNone end.

Definition opt_float (o : option Q) : pyval :=
  match o with Some q => PFloat q | None => PNone end.

(** [f"{o}"] for a string or [None]. *)
Definition str_of_opt (o : option pystr) : pystr :=
  match o with Some s => s | None => u "None" end.

(** [f"{n / (1024**3):.1f} GB"] without the unit. *)
Definition gb (n : Z) : pystr := fmt_fixed 1 (div_pow1024 n 3).
(** [f"{n / (1024**2):.1f} MB"] without the unit. *)
Definition mb (n : Z) : pystr := fmt_fixed 1 (div_pow1024 n 2).

Definition _platform (h : Host) : result pyval :=
  let system := platform_system h in
  let release := platform_release h in
  let version := platform_version h in
  let host := gethostname h in
  ip <- gethostbyname h (gethostname h) ;;
  Ok (PDict [ (u "system", PStr system);
              (u "release", PStr release);
              (u "version", PStr version);
              (u "host", PStr host);
              (u "ip", PStr ip) ]).

Definition _cpu (h : Host) : result pyval :=
  freq <- cpu_freq h ;;
  physical <- cpu_count h false ;;
  logical <- cpu_count h true ;;
  usage <- cpu_percent h ;;
  per_cpu <- cpu_percent_percpu h ;;
  Ok (PDict [ (u "physical_cores", opt_int physical);
              (u "logical_cores", opt_int logical);
              (u "freq",
                PStr match freq with
                     | Some f => fmt_fixed 0 (freq_current f) ++ u " MHz"
                     | None => u "N/A"
                     end);
              (u "usage", PFloat usage);
              (u "per_cpu", PList (map PFloat per_cpu)) ]).

Definition _memory (h : Host) : result pyval :=
  vmem <- virtual_memory h ;;
  swap <- swap_memory h ;;
  Ok (PDict [ (u "total_ram", PStr (gb (vm_total vmem) ++ u " GB"));
              (u "used_ram", PStr (gb (vm_used vmem) ++ u " GB"));
              (u "ram_percent", PFloat (vm_percent vmem));
              (u "swap",
                PStr (gb (sw_used swap) ++ u "/" ++ gb (sw_total swap)
                        ++ u " GB")) ]).

(** The device name with every backslash and slash removed, the key
    looked up in the per-disk counters. *)
Definition io_key (part : partition) : pystr :=
  remove_char 47%N (remove_char 92%N (device part)).

Definition lookup_io (k : pystr) (d : list (pystr * sdiskio)) : option sdiskio :=
  option_map snd (find (fun kv => Str.eqb k (fst kv)) d).

(** The seven fields every disk entry starts with. *)
Definition disk_base (part : partition) (use : sdiskusage) : dict :=
  [ (u "device", PStr (device part));
    (u "mountpoint", PStr (mountpoint part));
    (u "fstype", PStr (fstype part));
    (u "total", PStr (gb (du_total use) ++ u " GB"));
    (u "used", PStr (gb (du_used use) ++ u " GB"));
    (u "free", PStr (gb (du_free use) ++ u " GB"));
    (u "percent", PFloat (du_percent use)) ].

(** The inner [try]: the optional counters, any exception swallowed. *)
Definition disk_io_fields (h : Host) (part : partition) (disk_info : dict) : dict :=
  match disk_io_counters h part with
  | Ok counters =>
      match lookup_io (io_key part) counters with
      | Some io =>
          dict_set (u "write_bytes") (PStr (mb (write_bytes io) ++ u " MB"))
            (dict_set (u "read_bytes") (PStr (mb (read_bytes io) ++ u " MB"))
               disk_info)
      | None => disk_info
      end
  | Raise _ => disk_info
  end.

(** The [for part in ...] loop of [_disks], [disks] being the list built
    so far. *)
Fixpoint disks_loop (h : Host) (parts : list partition) (disks : list pyval)
  : result (list pyval) :=
  match parts with
  | [] => Ok disks
  | part :: rest =>
      match disk_usage h (mountpoint part) with
      | Ok use =>
          let disk_info := disk_io_fields h part (disk_base part use) in
          disks_loop h rest (disks ++ [PDict disk_info])
      | Raise e =>
          if is_OSError e then disks_loop h rest disks   (* continue *)
          else Raise e
      end
  end.

Definition _disks (h : Host) : result pyval :=
  parts <- disk_partitions h ;;
  disks <- disks_loop h parts [] ;;
  Ok (PList disks).

(** The [for addr in addrs] loop: the address strings and the MAC. *)
Definition scan_addrs (addrs : list snicaddr) : list pystr * option pystr :=
  fold_left
    (fun st addr =>
       match addr_family addr with
       | AF_INET =>
           (fst st ++ [u "IPv4: " ++ address addr ++ u "/"
                         ++ str_of_opt (netmask addr)], snd st)
       | AF_INET6 => (fst st ++ [u "IPv6: " ++ address addr], snd st)
       | AF_LINK => (fst st, Some (address addr))
       | AF_OTHER => st
       end)
    addrs ([], None).

Definition iface_stats (iface : pystr) (net_if_stats : list (pystr * snicstats))
  : dict :=
  match find (fun kv => Str.eqb iface (fst kv)) net_if_stats with
  | Some (_, stat) =>
      [ (u "is_up", PStr (if isup stat then u "UP" else u "DOWN"));
        (u "speed",
          PStr (if 0 <? speed stat then repr_int (speed stat) ++ u " Mbps"
                else u "N/A"));
        (u "mtu", PInt (mtu stat)) ]
  | None => []
  end.

Definition iface_info (net_if_stats : list (pystr * snicstats))
  (iface : pystr) (addrs : list snicaddr) : pyval :=
  let '(ip_addresses, mac_address) := scan_addrs addrs in
  PDict [ (u "ip_addresses", PList (map PStr ip_addresses));
          (u "mac", opt_str mac_address);
          (u "stats", PDict (iface_stats iface net_if_stats)) ].

Definition _network (h : Host) : result pyval :=
  io <- net_io_counters h ;;
  net_if_addrs <- net_if_addrs h ;;
  net_if_stats <- net_if_stats h ;;
  let interfaces :=
    fold_left
      (fun interfaces kv =>
         dict_set (fst kv) (iface_info net_if_stats (fst kv) (snd kv)) interfaces)
      net_if_addrs [] in
  Ok (PDict [ (u "bytes_sent", PStr (mb (bytes_sent io) ++ u " MB"));
              (u "bytes_recv", PStr (mb (bytes_recv io) ++ u " MB"));
              (u "packets_sent", PInt (packets_sent io));
              (u "packets_recv", PInt (packets_recv io));
              (u "interfaces", PDict interfaces) ]).

(** [p.info] *)
Definition proc_info (p : pinfo) : dict :=
  [ (u "pid", PInt (pid p));
    (u "name", opt_str (proc_name p));
    (u "cpu_percent", opt_float (cpu_percent_of p));
    (u "memory_percent", PFloat (memory_percent p)) ].

(** The [for p in ...] loop of [_processes]. *)
Fixpoint procs_loop (h : Host) (ps : list pinfo) (procs : list dict)
  : result (list dict) :=
  match ps with
  | [] => Ok procs
  | p :: rest =>
      let info := proc_info p in
      match memory_info_rss h (pid p) with
      | Ok rss =>
          let info := dict_set (u "memory_mb") (PFloat (div_pow1024 rss 2)) info in
          procs_loop h rest (procs ++ [info])
      | Raise NoSuchProcess | Raise AccessDenied => procs_loop h rest procs
      | Raise e => Raise e
      end
  end.

(** [lambda x: x.get('memory_percent', 0)] *)
Definition sort_key (x : dict) : pyval := dict_get (u "memory_percent") (PInt 0) x.

Definition _processes (h : Host) : result pyval :=
  procs <- procs_loop h (process_iter h) [] ;;
  procs <- list_sort_reverse sort_key procs ;;
  Ok (PList (map PDict (firstn 8 procs))).

Definition _users (h : Host) : result pyval :=
  us <- users h ;;
  Ok (PList (map (fun user =>
                    PDict [ (u "name", PStr (user_name user));
                            (u "host", opt_str (user_host user));
                            (u "started", PStr (strftime_time h (started user))) ])
                 us)).

Definition _boot (h : Host) : result pyval :=
  t <- boot_time h ;;
  Ok (PStr (strftime_datetime h t)).

Definition _sensors (h : Host) : result pyval :=
  match sensors_temperatures h with
  | Ok temps =>
      let sensors :=
        fold_left
          (fun sensors kv =>
             dict_set (fst kv)
               (PList (map (fun entry => PDict [(u "current", PFloat (temp_current entry))])
                         (firstn 2 (snd kv))))
               sensors)
          temps [] in
      Ok (PDict sensors)
  | Raise AttributeError => Ok (PDict [(u "info", PStr (u "N/A"))])
  | Raise e => Raise e
  end.

End Collectors.
Import Collectors.

(** ** The aggregator *)

Module Aggregator.

Record SystemReport := { fmt : pystr; info : pyval; time : pystr }.

(** The constructor reads the clock; nothing else does. *)
Definition __init__ (h : Host) (fmt : pystr) : SystemReport :=
  {| fmt := fmt; info := PDict []; time := strftime_datetime h (clock h) |}.

Inductive collector :=
| CPlatform | CCpu | CMemory | CDisks | CNetwork
| CProcesses | CUsers | CBoot | CSensors.

Definition collector_eq_dec (a b : collector) : {a = b} + {a <> b}.
Proof. decide equality. Defined.

(** A computation that records which collectors it has called. *)
Definition traced (A : Type) := list collector -> result A * list collector.

Definition tret {A} (a : A) : traced A := fun log => (Ok a, log).

Definition tbind {A B} (m : traced A) (k : A -> traced B) : traced B :=
  fun log =>
    match m log with
    | (Ok a, log') => k a log'
    | (Raise e, log') => (Raise e, log')
    end.

(** One call of a collector method. *)
Definition invoke {A} (c : collector) (r : result A) : traced A :=
  fun log => (r, log ++ [c]).

Notation "x <~ e ;; k" := (tbind e (fun x => k))
  (at level 61, e at next level, right associativity).

(** [collect]: the dict display is evaluated top to bottom, then assigned
    to [self.info]; an exception leaves [self.info] as it was. *)
Definition collect (self : SystemReport) (h : Host)
  : traced (SystemReport * pyval) :=
  platform <~ invoke CPlatform (_platform h) ;;
  cpu <~ invoke CCpu (_cpu h) ;;
  memory <~ invoke CMemory (_memory h) ;;
  disks <~ invoke CDisks (_disks h) ;;
  network <~ invoke CNetwork (_network h) ;;
  processes <~ invoke CProcesses (_processes h) ;;
  users <~ invoke CUsers (_users h) ;;
  boot <~ invoke CBoot (_boot h) ;;
  sensors <~ invoke CSensors (_sensors h) ;;
  let info :=
    PDict [ (u "time", PStr (time self));
            (u "platform", platform);
            (u "cpu", cpu);
            (u "memory", memory);
            (u "disks", disks);
            (u "network", network);
            (u "processes", processes);
            (u "users", users);
            (u "boot", boot);
            (u "sensors", sensors) ] in
  tret ({| fmt := fmt self; info := info; time := time self |}, info).

(** A run of [collect] from an empty call log. *)
Definition run_collect (self : SystemReport) (h : Host)
  : result (SystemReport * pyval) * list collector :=
  collect self h [].


Definition all_collectors : list collector :=
  [ CPlatform; CCpu; CMemory; CDisks; CNetwork;
    CProcesses; CUsers; CBoot; CSensors ].

End Aggregator.
Import Aggregator.

(** ** The renderers *)

Module Render.

Section WithFloatRepr.

(** [repr] of a float (the shortest string that reads back as the same
    float) is Python's own; the renderers only pass its result on. *)
Variable float_repr : Q -> pystr.

(** [f"{v}"] *)
Definition py_str (v : pyval) : result pystr :=
  match v with
  | PNone => Ok (u "None")
  | PInt z => Ok (repr_int z)
  | PFloat q => Ok (float_repr q)
  | PStr s => Ok s
  | PObj s => Ok s
  | PList _ | PDict _ => Raise Unmodelled
  end.

(** [f"{v:w}"]: strings go left, numbers right. *)
Definition format_width (w : nat) (v : pyval) : result pystr :=
  match v with
  | PStr s => Ok (ljust w s)
  | PInt z => Ok (rjust w (repr_int z))
  | PFloat q => Ok (rjust w (float_repr q))
  | PNone | PList _ | PDict _ => Raise TypeError
  | PObj _ => Raise Unmodelled
  end.

(** [f"{v:5.1f}"] *)
Definition format_5_1f (v : pyval) : result pystr :=
  match v with
  | PFloat q => Ok (rjust 5 (fmt_fixed 1 q))
  | PInt z => Ok (rjust 5 (fmt_fixed 1 (inject_Z z)))
  | PStr _ => Raise ValueError
  | PNone | PList _ | PDict _ => Raise TypeError
  | PObj _ => Raise Unmodelled
  end.

(** [f"{v[k]}"] *)
Definition field (v : pyval) (k : pystr) : result pystr :=
  x <- getitem v k ;; py_str x.

(** [f"{v[k1][k2]}"] *)
Definition field2 (v : pyval) (k1 k2 : pystr) : result pystr :=
  x <- getitem v k1 ;; field x k2.

(** Run the body of a [for] loop over [l], collecting the lines. *)
Fixpoint for_each {A} (body : A -> result (list pystr)) (l : list A)
  : result (list pystr) :=
  match l with
  | [] => Ok []
  | x :: rest =>
      lines <- body x ;;
      more <- for_each body rest ;;
      Ok (lines ++ more)
  end.

(** The same over [enumerate(l, i)]. *)
Fixpoint for_enumerate {A} (body : Z -> A -> result (list pystr)) (i : Z)
  (l : list A) : result (list pystr) :=
  match l with
  | [] => Ok []
  | x :: rest =>
      lines <- body i x ;;
      more <- for_enumerate body (i + 1) rest ;;
      Ok (lines ++ more)
  end.

Definition rule_eq : pystr := rep 61%N 60.
Definition rule_dash : pystr := rep 45%N 40.
Definition nl : pystr := [10%N].

Definition banner_lines (self : SystemReport) : list pystr :=
  [ rule_eq; u "СИСТЕМНЫЙ ОТЧЕТ - " ++ time self; rule_eq ].

Definition platform_lines (self : SystemReport) : result (list pystr) :=
  system <- field2 (info self) (u "platform") (u "system") ;;
  release <- field2 (info self) (u "platform") (u "release") ;;
  version <- field2 (info self) (u "platform") (u "version") ;;
  host <- field2 (info self) (u "platform") (u "host") ;;
  ip <- field2 (info self) (u "platform") (u "ip") ;;
  Ok [ nl ++ u "ПЛАТФОРМА:";
       rule_dash;
       u "Система: " ++ system ++ u " " ++ release;
       u "Версия: " ++ version;
       u "Хост: " ++ host;
       u "IP-адрес: " ++ ip ].

Definition cpu_lines (self : SystemReport) : result (list pystr) :=
  cpu <- getitem (info self) (u "cpu") ;;
  physical <- field cpu (u "physical_cores") ;;
  logical <- field cpu (u "logical_cores") ;;
  freq <- field cpu (u "freq") ;;
  usage <- field cpu (u "usage") ;;
  per_cpu <- getitem cpu (u "per_cpu") ;;
  ps <- iter per_cpu ;;
  parts <- for_each (fun p => x <- py_str p ;; Ok [x ++ u "%"]) ps ;;
  Ok [ nl ++ u "ПРОЦЕССОР:";
       rule_dash;
       u "Ядра: " ++ physical ++ u " физических, " ++ logical ++ u " логических";
       u "Частота: " ++ freq;
       u "Загрузка: " ++ usage ++ u "%";
       u "По ядрам: " ++ join (u ", ") parts ].

Definition memory_lines (self : SystemReport) : result (list pystr) :=
  mem <- getitem (info self) (u "memory") ;;
  used_ram <- field mem (u "used_ram") ;;
  total_ram <- field mem (u "total_ram") ;;
  ram_percent <- field mem (u "ram_percent") ;;
  swap <- field mem (u "swap") ;;
  Ok [ nl ++ u "ПАМЯТЬ:";
       rule_dash;
       u "ОЗУ: " ++ used_ram ++ u " / " ++ total_ram ++ u " (" ++ ram_percent ++ u "%)";
       u "SWAP: " ++ swap ].

(** The lines of one disk: the body of the [enumerate] loop. *)
Definition disk_lines (i : Z) (disk : pyval) : result (list pystr) :=
  device <- field disk (u "device") ;;
  mountpoint <- field disk (u "mountpoint") ;;
  fstype <- field disk (u "fstype") ;;
  total <- field disk (u "total") ;;
  used <- field disk (u "used") ;;
  percent <- field disk (u "percent") ;;
  free <- field disk (u "free") ;;
  let disk_info :=
    [ repr_int i ++ u ". " ++ device ++ u " → " ++ mountpoint;
      u "   Тип: " ++ fstype ++ u ", Всего: " ++ total;
      u "   Использовано: " ++ used ++ u " (" ++ percent ++ u "%), Свободно: " ++ free ] in
  has_io <- contains (u "read_bytes") disk ;;
  if has_io : bool then
    read_bytes <- field disk (u "read_bytes") ;;
    write_bytes <- field disk (u "write_bytes") ;;
    Ok (disk_info ++ [u "   Чтение: " ++ read_bytes ++ u ", Запись: " ++ write_bytes])
  else Ok disk_info.

Definition disks_lines (self : SystemReport) : result (list pystr) :=
  disks <- getitem (info self) (u "disks") ;;
  ds <- iter disks ;;
  lines <- for_enumerate disk_lines 1 ds ;;
  Ok ([nl ++ u "ДИСКОВЫЕ НАКОПИТЕЛИ:"; rule_dash] ++ lines).

Definition network_lines (self : SystemReport) : result (list pystr) :=
  net <- getitem (info self) (u "network") ;;
  bytes_sent <- field net (u "bytes_sent") ;;
  bytes_recv <- field net (u "bytes_recv") ;;
  packets_sent <- field net (u "packets_sent") ;;
  packets_recv <- field net (u "packets_recv") ;;
  Ok [ nl ++ u "СЕТЕВЫЕ ИНТЕРФЕЙСЫ:";
       rule_dash;
       u "Отправлено: " ++ bytes_sent ++ u ", Получено: " ++ bytes_recv;
       u "Пакеты: отправлено " ++ packets_sent ++ u ", получено " ++ packets_recv ].

(** The lines of one interface: the body of the [items()] loop. *)
Definition iface_lines (kv : pystr * pyval) : result (list pystr) :=
  let iface := fst kv in
  let info := snd kv in
  ip_addresses <- getitem info (u "ip_addresses") ;;
  if truthy ip_addresses then
    mac <- getitem info (u "mac") ;;
    mac_lines <- (if truthy mac
                  then (m <- py_str mac ;; Ok [u "  MAC: " ++ m])
                  else Ok []) ;;
    ip_addresses <- getitem info (u "ip_addresses") ;;
    first2 <- slice_to 2 ip_addresses ;;
    ips <- iter first2 ;;
    ip_lines <- for_each (fun ip => x <- py_str ip ;; Ok [u "  " ++ x]) ips ;;
    stats <- getitem info (u "stats") ;;
    stat_lines <- (if truthy stats
                   then (is_up <- field2 info (u "stats") (u "is_up") ;;
                         speed <- field2 info (u "stats") (u "speed") ;;
                         Ok [u "  Статус: " ++ is_up ++ u ", Скорость: " ++ speed])
                   else Ok []) ;;
    Ok ([nl ++ iface ++ u ":"] ++ mac_lines ++ ip_lines ++ stat_lines)
  else Ok [].

Definition interfaces_lines (self : SystemReport) : result (list pystr) :=
  net <- getitem (info self) (u "network") ;;
  interfaces <- getitem net (u "interfaces") ;;
  kvs <- items interfaces ;;
  for_each iface_lines kvs.

(** One row of the process table. *)
Definition process_line (i : Z) (proc : pyval) : result (list pystr) :=
  name <- getitem proc (u "name") ;;
  name20 <- slice_to 20 name ;;
  name_col <- format_width 20 name20 ;;
  pid <- getitem proc (u "pid") ;;
  pid_col <- format_width 6 pid ;;
  cpu <- getitem proc (u "cpu_percent") ;;
  cpu_col <- format_5_1f cpu ;;
  mem <- getitem proc (u "memory_percent") ;;
  mem_col <- format_5_1f mem ;;
  Ok [ repr_int i ++ u ". " ++ name_col ++ u " "
         ++ u "PID:" ++ pid_col ++ u " "
         ++ u "CPU:" ++ cpu_col ++ u "% "
         ++ u "MEM:" ++ mem_col ++ u "%" ].

Definition processes_lines (self : SystemReport) : result (list pystr) :=
  processes <- getitem (info self) (u "processes") ;;
  ps <- iter processes ;;
  lines <- for_enumerate process_line 1 ps ;;
  Ok ([nl ++ u "ТОП-8 ПРОЦЕССОВ:"; rule_dash] ++ lines).

Definition user_line (user : pyval) : result (list pystr) :=
  name <- field user (u "name") ;;
  host <- field user (u "host") ;;
  started <- field user (u "started") ;;
  Ok [ name ++ u " с " ++ host ++ u " (с " ++ started ++ u ")" ].

Definition users_lines (self : SystemReport) : result (list pystr) :=
  users <- getitem (info self) (u "users") ;;
  if truthy users then
    users <- getitem (info self) (u "users") ;;
    us <- iter users ;;
    lines <- for_each user_line us ;;
    Ok ([nl ++ u "АКТИВНЫЕ ПОЛЬЗОВАТЕЛИ:"; rule_dash] ++ lines)
  else Ok [].

Definition closing_lines (self : SystemReport) : result (list pystr) :=
  boot <- field (info self) (u "boot") ;;
  Ok [ nl ++ u "ВРЕМЯ ЗАГРУЗКИ: " ++ boot; rule_eq ].

(** The list [report] as it stands before the final join. *)
Definition report_lines (self : SystemReport) : result (list pystr) :=
  l1 <- platform_lines self ;;
  l2 <- cpu_lines self ;;
  l3 <- memory_lines self ;;
  l4 <- disks_lines self ;;
  l5 <- network_lines self ;;
  l6 <- interfaces_lines self ;;
  l7 <- processes_lines self ;;
  l8 <- users_lines self ;;
  l9 <- closing_lines self ;;
  Ok (banner_lines self ++ l1 ++ l2 ++ l3 ++ l4 ++ l5 ++ l6 ++ l7 ++ l8 ++ l9).

Definition text_report (self : SystemReport) : result pystr :=
  report <- report_lines self ;;
  Ok (join nl report).

(** *** [json.dumps(obj, indent=2, default=str)] *)

Definition hex_digit (d : N) : N := if (d <? 10)%N then (48 + d)%N else (87 + d)%N.

(** [format(n, '04x')] for [n < 0x10000] *)
Definition hex4 (n : N) : pystr :=
  [ hex_digit (n / 4096 mod 16)%N; hex_digit (n / 256 mod 16)%N;
    hex_digit (n / 16 mod 16)%N; hex_digit (n mod 16)%N ].

Definition backslash : N := 92%N.
Definition dquote : N := 34%N.

(** What one character becomes with [ensure_ascii] left at its default,
    [True]. *)
Definition escape_char (c : N) : pystr :=
  if (c =? backslash)%N then [backslash; backslash]
  else if (c =? dquote)%N then [backslash; dquote]
  else if (32 <=? c)%N && (c <=? 126)%N then [c]
  else if (c =? 8)%N then [backslash; 98%N]
  else if (c =? 12)%N then [backslash; 102%N]
  else if (c =? 10)%N then [backslash; 110%N]
  else if (c =? 13)%N then [backslash; 114%N]
  else if (c =? 9)%N then [backslash; 116%N]
  else if (c <? 65536)%N then backslash :: 117%N :: hex4 c
  else
    let n := (c - 65536)%N in
    let s1 := (55296 + (n / 1024) mod 1024)%N in
    let s2 := (56320 + n mod 1024)%N in
    (backslash :: 117%N :: hex4 s1) ++ (backslash :: 117%N :: hex4 s2).

Definition encode_basestring_ascii (s : pystr) : pystr :=
  dquote :: flat_map escape_char s ++ [dquote].

Definition indent_unit : nat := 2.

(** A newline and the indentation of nesting level [level]. *)
Definition newline_indent (level : nat) : pystr :=
  10%N :: rep 32%N (indent_unit * level).

Definition item_separator (level : nat) : pystr :=
  44%N :: newline_indent level.

Definition key_separator : pystr := u ": ".

Definition wrap (opening closing : N) (level : nat) (parts : list pystr) : pystr :=
  match parts with
  | [] => [opening; closing]
  | _ => opening :: newline_indent (S level)
           ++ join (item_separator (S level)) parts
           ++ newline_indent level ++ [closing]
  end.

Fixpoint encode (level : nat) (v : pyval) : pystr :=
  match v with
  | PNone => u "null"
  | PInt z => repr_int z
  | PFloat q => float_repr q
  | PStr s => encode_basestring_ascii s
  | PObj s => encode_basestring_ascii s     (* default=str *)
  | PList l => wrap 91%N 93%N level (map (encode (S level)) l)
  | PDict d =>
      wrap 123%N 125%N level
        (map (fun kv => encode_basestring_ascii (fst kv) ++ key_separator
                          ++ encode (S level) (snd kv)) d)
  end.

Definition json_report (self : SystemReport) : result pystr :=
  Ok (encode 0 (info self)).

End WithFloatRepr.

End Render.
Import Render.

(** ** Saving the report and the command line *)

Module Entry.

(** The files [save] can touch: name and text, a file's text being what a
    later read with the same encoding gives back. *)
Definition files := list (pystr * pystr).

Fixpoint read_file (name : pystr) (fs : files) : option pystr :=
  match fs with
  | [] => None
  | (n, text) :: rest => if Str.eqb name n then Some text else read_file name rest
  end.

(** The file [name] created or replaced, holding [text]. *)
Fixpoint write_file (name text : pystr) (fs : files) : files :=
  match fs with
  | [] => [(name, text)]
  | (n, t) :: rest =>
      if Str.eqb name n then (n, text) :: rest
      else (n, t) :: write_file name text rest
  end.

(** The UTF-8 codec refuses surrogate code points. *)
Definition is_surrogate (c : N) : bool := ((55296 <=? c) && (c <=? 57343))%N.
Definition encodable (s : pystr) : bool := forallb (fun c => negb (is_surrogate c)) s.

(** What [save] and [main] take from their surroundings: the clock when
    [save] runs and its rendering with "%Y%m%d_%H%M%S"; whether
    [open(fname, 'w')] raises; whether writing the encoded text or
    closing the file raises (a full disk, say) and what text the file is
    then left with; whether [print] raises for a text, after the lines
    printed so far (a codec that cannot encode it, a closed pipe); and
    [str(e)] of an exception. *)
Record Env := {
  save_clock : Q;
  strftime_compact : Q -> pystr;
  open_w : pystr -> option exn;
  write_w : pystr -> pystr -> option (exn * pystr);
  stdout_w : list pystr -> pystr -> option exn;
  exn_str : exn -> pystr
}.

(** [args.output or ...] and [not fname]: [None] and the empty string
    count as absent. *)
Definition given (o : option pystr) : bool :=
  match o with
  | Some (_ :: _) => true
  | _ => false
  end.

Record Args := { args_format : pystr; args_output : option pystr; args_print : bool }.

Section WithFloatRepr.

Variable float_repr : Q -> pystr.

Definition is_json (fmt : pystr) : bool := Str.eqb fmt (u "json").

(** [self.json_report() if self.fmt == "json" else self.text_report()] *)
Definition render (self : SystemReport) : result pystr :=
  if is_json (fmt self) then json_report float_repr self
  else text_report float_repr self.

(** [save]: the name is completed, the report rendered, and only then is
    the file opened (which empties it) and written. Writing text that the
    codec refuses raises [UnicodeEncodeError], a [ValueError], and leaves
    the file empty; a write or close that fails leaves what got through. *)
Definition save (self : SystemReport) (env : Env) (fname : option pystr)
  (fs : files) : result pystr * files :=
  let fname :=
    match fname with
    | Some (c :: s) => c :: s
    | _ => u "system_report_" ++ strftime_compact env (save_clock env)
    end in
  let fname := fname ++ (if is_json (fmt self) then u ".json" else u ".txt") in
  match render self with
  | Raise e => (Raise e, fs)
  | Ok content =>
      match open_w env fname with
      | Some e => (Raise e, fs)
      | None =>
          let fs := write_file fname [] fs in
          if encodable content then
            match write_w env fname content with
            | None => (Ok fname, write_file fname content fs)
            | Some (e, rest) => (Raise e, write_file fname rest fs)
            end
          else (Raise ValueError, fs)
      end
  end.

(** [print(text)] after the lines [out]: the text is printed, or an
    exception is raised and nothing is printed. *)
Definition print (env : Env) (text : pystr) (out : list pystr)
  : result (list pystr) :=
  match stdout_w env out text with
  | None => Ok (out ++ [text])
  | Some e => Raise e
  end.

(** The [except Exception as e] clause of [main]: it prints the error
    line; if that cannot be printed either, the exception leaves [main]. *)
Definition handler (env : Env) (e : exn) (out : list pystr) (fs : files)
  : result unit * list pystr * files :=
  match print env (u "Ошибка: " ++ exn_str env e) out with
  | Ok out' => (Ok tt, out', fs)
  | Raise e' => (Raise e', out, fs)
  end.

(** [main] after [parse_args]: whether it raises, what it prints, line
    by line, and the files it leaves. *)
Definition main (args : Args) (h : Host) (env : Env) (fs : files)
  : result unit * list pystr * files :=
  let report := __init__ h (args_format args) in
  match fst (run_collect report h) with
  | Raise e => handler env e [] fs
  | Ok (report, _) =>
      let printed :=
        if args_print args then
          text <- (if is_json (args_format args) then json_report float_repr report
                   else text_report float_repr report) ;;
          print env text []
        else Ok [] in
      match printed with
      | Raise e => handler env e [] fs
      | Ok out =>
          if given (args_output args) || negb (args_print args) then
            match save report env (args_output args) fs with
            | (Ok fname, fs') =>
                match print env (u "Отчет сохранен: " ++ fname) out with
                | Ok out' => (Ok tt, out', fs')
                | Raise e => handler env e out fs'
                end
            | (Raise e, fs') => handler env e out fs'
            end
          else (Ok tt, out, fs)
      end
  end.

End WithFloatRepr.

End Entry.
Import Entry.

(** ** Vocabulary of the statements *)

Module Spec.

(** Largest key first. *)
Definition desc {A} (a b : Q * A) : Prop := (fst b <= fst a)%Q.

Definition on_snd {A B} (f : A -> B) (kx : Q * A) : Q * B := (fst kx, f (snd kx)).

(** The elements of [l] ranked by [key], largest first, ties in the
    order of [l]. *)
Definition ranked_by {A} (key : A -> Q) (l : list A) : list A :=
  map snd (sort_desc (map (fun x => (key x, x)) l)).

(** *** Outcomes of lookups *)

Definition returns {A} (r : result A) : bool :=
  match r with Ok _ => true | Raise _ => false end.

(** [r] returns, or raises an exception that [guard] accepts. *)
Definition raises_only {A} (guard : exn -> bool) (r : result A) : bool :=
  match r with Ok _ => true | Raise e => guard e end.

(** [except (psutil.NoSuchProcess, psutil.AccessDenied)] *)
Definition detail_guard (e : exn) : bool :=
  match e with NoSuchProcess | AccessDenied => true | _ => false end.

(** [except AttributeError] *)
Definition sensors_guard (e : exn) : bool :=
  match e with AttributeError => true | _ => false end.

(** *** Processes *)

(** The detail read of a process either succeeds or fails in one of the
    two ways [_processes] handles. *)
Definition process_failures_guarded (h : Host) : bool :=
  forallb (fun p => raises_only detail_guard (memory_info_rss h (pid p)))
    (process_iter h).

Definition detail_read_ok (h : Host) (p : pinfo) : bool :=
  returns (memory_info_rss h (pid p)).

(** The processes whose detail read succeeded, in enumeration order. *)
Definition candidates (h : Host) : list pinfo :=
  filter (detail_read_ok h) (process_iter h).

(** The entry of a process: [p.info] with the resident size in MB added. *)
Definition entry_dict (h : Host) (p : pinfo) : dict :=
  match memory_info_rss h (pid p) with
  | Ok rss => proc_info p ++ [(u "memory_mb", PFloat (div_pow1024 rss 2))]
  | Raise _ => proc_info p
  end.

Definition entry_of (h : Host) (p : pinfo) : pyval := PDict (entry_dict h p).

(** *** Disks *)

Definition disk_failures_guarded (h : Host) (parts : list partition) : bool :=
  forallb (fun p => raises_only is_OSError (disk_usage h (mountpoint p))) parts.

Definition usage_ok (h : Host) (p : partition) : bool :=
  returns (disk_usage h (mountpoint p)).

(** The optional counter fields of a partition's entry. *)
Definition io_extra (h : Host) (p : partition) : dict :=
  match disk_io_counters h p with
  | Ok counters =>
      match lookup_io (io_key p) counters with
      | Some io => [ (u "read_bytes", PStr (mb (read_bytes io) ++ u " MB"));
                     (u "write_bytes", PStr (mb (write_bytes io) ++ u " MB")) ]
      | None => []
      end
  | Raise _ => []
  end.

(** *** Byte counts as text *)

(** The tenths nearest to [n / 1024**k], ties to the even tenth. *)
Definition tenths (n : Z) (k : nat) : Z :=
  round_half_even (10 * n) (1024 ^ Z.of_nat k).

(** A byte count that is a double as it stands. *)
Definition exact_count (n : Z) : Prop := 0 <= n < 2 ^ 53.

(** [t] tenths written with one digit after the point. *)
Definition one_decimal (t : Z) : pystr :=
  dec_N (Z.to_N (t / 10)) ++ [46%N] ++ dec_N (Z.to_N (t mod 10)).

(** The counters found for a partition, if any. *)
Definition counters_of (h : Host) (p : partition) : option sdiskio :=
  match disk_io_counters h p with
  | Ok counters => lookup_io (io_key p) counters
  | Raise _ => None
  end.

Definition usage_exact (use : sdiskusage) : Prop :=
  exact_count (du_total use) /\ exact_count (du_used use)
  /\ exact_count (du_free use).

Definition counters_exact (c : sdiskio) : Prop :=
  exact_count (read_bytes c) /\ exact_count (write_bytes c).

(** A disk entry with its byte counts as text: the sizes in units of
    1024^3 bytes, the counters in units of 1024^2 bytes, each to the
    nearest tenth; the percentage as the number read. *)
Definition disk_text_entry (p : partition) (use : sdiskusage)
  (io : option sdiskio) : pyval :=
  PDict ([ (u "device", PStr (device p));
           (u "mountpoint", PStr (mountpoint p));
           (u "fstype", PStr (fstype p));
           (u "total", PStr (one_decimal (tenths (du_total use) 3) ++ u " GB"));
           (u "used", PStr (one_decimal (tenths (du_used use) 3) ++ u " GB"));
           (u "free", PStr (one_decimal (tenths (du_free use) 3) ++ u " GB"));
           (u "percent", PFloat (du_percent use)) ]
         ++ match io with
            | Some c =>
                [ (u "read_bytes",
                    PStr (one_decimal (tenths (read_bytes c) 2) ++ u " MB"));
                  (u "write_bytes",
                    PStr (one_decimal (tenths (write_bytes c) 2) ++ u " MB")) ]
            | None => []
            end).

(** A process entry holds its resident size in units of 1024^2 bytes and
    its memory percentage, both as numbers. *)
Definition numeric_entry (h : Host) (v : pyval) : Prop :=
  exists p rss,
    In p (process_iter h)
    /\ memory_info_rss h (pid p) = Ok rss
    /\ getitem v (u "memory_mb") = Ok (PFloat (rss # 1048576))
    /\ getitem v (u "memory_percent") = Ok (PFloat (memory_percent p)).

(** *** Sensors *)

Definition reading (entry : shwtemp) : pyval :=
  PDict [(u "current", PFloat (temp_current entry))].

Definition not_applicable : pyval := PDict [(u "info", PStr (u "N/A"))].

(** *** The aggregator *)

(** Every lookup returns, except those a collector guards: a disk usage
    query may raise an [OSError], a per-disk counter query may raise
    anything, a process detail read may raise [NoSuchProcess] or
    [AccessDenied], and psutil may lack [sensors_temperatures]. *)
Definition only_guarded_failures (h : Host) : bool :=
  returns (gethostbyname h (gethostname h))
  && returns (cpu_freq h) && returns (cpu_count h false)
  && returns (cpu_count h true) && returns (cpu_percent h)
  && returns (cpu_percent_percpu h)
  && returns (virtual_memory h) && returns (swap_memory h)
  && match disk_partitions h with
     | Ok parts => disk_failures_guarded h parts
     | Raise _ => false
     end
  && returns (net_io_counters h) && returns (net_if_addrs h)
  && returns (net_if_stats h)
  && process_failures_guarded h
  && returns (users h) && returns (boot_time h)
  && raises_only sensors_guard (sensors_temperatures h).

(** *** Sample hosts, for evaluating the model *)

(** A stand-in for local-time formatting: the whole seconds of the
    timestamp. Different seconds give different texts. *)
Definition sample_strftime (q : Q) : pystr := u "T+" ++ repr_int (Qfloor q).

Fixpoint drop_zeros (l : pystr) : pystr :=
  match l with
  | [] => []
  | c :: t => if (c =? 48)%N then drop_zeros t else l
  end.

(** Without trailing zeros. *)
Definition strip_zeros (s : pystr) : pystr := rev (drop_zeros (rev s)).

(** The exact decimal expansion of a float (a dyadic rational). It is
    what [repr] prints for floats such as [37.5] or [0.25], whose
    expansion is short; the sample hosts only hold such floats. *)
Definition repr_dyadic (q : Q) : pystr :=
  let k := Z.log2 (Zpos (Qden q)) in
  let n := Z.abs (Qnum q) * 5 ^ k in
  let p := 10 ^ k in
  let frac := strip_zeros (zero_pad (Z.to_nat k) (dec_N (Z.to_N (n mod p)))) in
  (if Qnum q <? 0 then [45%N] else [])
    ++ dec_N (Z.to_N (n / p))
    ++ 46%N :: match frac with [] => [48%N] | _ => frac end.

Definition sample_ifaces : list (pystr * list snicaddr) :=
  [ (u "lo",
      [ {| addr_family := AF_INET; address := u "127.0.0.1";
           netmask := Some (u "255.0.0.0") |};
        {| addr_family := AF_INET6; address := u "::1"; netmask := None |};
        {| addr_family := AF_INET6; address := u "fe80::1"; netmask := None |};
        {| addr_family := AF_LINK; address := u "00:00:00:00:00:00";
           netmask := None |} ]);
    (u "tun0",
      [ {| addr_family := AF_LINK; address := u "aa:bb:cc:dd:ee:ff";
           netmask := None |} ]) ].

Definition sample_processes : list pinfo :=
  [ {| pid := 1; proc_name := Some (u "init"); cpu_percent_of := Some (0 # 1);
       memory_percent := 1 # 2 |};
    {| pid := 2; proc_name := Some (u "файлы"); cpu_percent_of := Some (5 # 2);
       memory_percent := 3 # 2 |};
    {| pid := 3; proc_name := Some (u "gone"); cpu_percent_of := Some (0 # 1);
       memory_percent := 9 # 1 |};
    {| pid := 4; proc_name := Some (u "a-very-long-process-name-indeed");
       cpu_percent_of := Some (0 # 1); memory_percent := 3 # 2 |} ].

(** A host with three partitions (the second cannot be statted), two
    interfaces (the second has no IP address) and four processes (the
    third exits before its detail read). The clock reading, the total RAM,
    the name resolution and the sensors query are left open. *)
Definition sample_host (now : Q) (ram_total : Z)
  (resolve : pystr -> result pystr)
  (sensors : result (list (pystr * list shwtemp))) : Host :=
  {| clock := now;
     strftime_datetime := sample_strftime;
     strftime_time := sample_strftime;
     platform_system := u "Linux";
     platform_release := u "6.1";
     platform_version := u "#1 SMP";
     gethostname := u "box";
     gethostbyname := resolve;
     cpu_freq := Ok (Some {| freq_current := 4799 # 2 |});
     cpu_count := fun logical => Ok (if logical then Some 8 else None);
     cpu_percent := Ok (75 # 2);
     cpu_percent_percpu := Ok [1 # 2; 3 # 1];
     virtual_memory :=
       Ok {| vm_total := ram_total; vm_used := 268435456; vm_percent := 3 # 2 |};
     swap_memory := Ok {| sw_used := 0; sw_total := 2147483648 |};
     disk_partitions :=
       Ok [ {| device := u "/dev/sda1"; mountpoint := u "/"; fstype := u "ext4" |};
            {| device := u "/dev/sdb1"; mountpoint := u "/mnt"; fstype := u "ext4" |};
            {| device := u "sdc"; mountpoint := u "/data"; fstype := u "xfs" |} ];
     disk_usage := fun m =>
       if Str.eqb m (u "/mnt") then Raise PermissionError
       else Ok {| du_total := 1073741824; du_used := 536870912;
                  du_free := 536870912; du_percent := 50 # 1 |};
     disk_io_counters := fun p =>
       if Str.eqb (device p) (u "sdc")
       then Ok [(u "sdc", {| read_bytes := 1048576; write_bytes := 0 |})]
       else Raise OSError;
     net_io_counters :=
       Ok {| bytes_sent := 1048576; bytes_recv := 3145728;
             packets_sent := 10; packets_recv := 20 |};
     net_if_addrs := Ok sample_ifaces;
     net_if_stats := Ok [(u "lo", {| isup := true; speed := 0; mtu := 65536 |})];
     process_iter := sample_processes;
     memory_info_rss := fun p =>
       if p =? 3 then Raise NoSuchProcess else Ok (p * 1048576);
     users := Ok [ {| user_name := u "катя"; user_host := None; started := 5 # 1 |} ];
     boot_time := Ok (7 # 1);
     sensors_temperatures := sensors |}.

Definition resolves : pystr -> result pystr := fun _ => Ok (u "127.0.1.1").
Definition unresolved : pystr -> result pystr := fun _ => Raise GaiError.

(** No sensors API at all. *)
Definition demo_host : Host :=
  sample_host (1000 # 1) 16777216000 resolves (Raise AttributeError).

(** The same host a while later. *)
Definition later_host : Host :=
  sample_host (2000 # 1) 16777216000 resolves (Raise AttributeError).

(** The same host with one byte of RAM more. *)
Definition bigger_host : Host :=
  sample_host (1000 # 1) 16777216001 resolves (Raise AttributeError).

(** The host name does not resolve. *)
Definition unresolved_host : Host :=
  sample_host (1000 # 1) 16777216000 unresolved (Raise AttributeError).

(** A sensors API that reports three readings on one chip. *)
Definition sensors_host : Host :=
  sample_host (1000 # 1) 16777216000 resolves
    (Ok [(u "coretemp", [ {| temp_current := 45 # 1 |};
                          {| temp_current := 47 # 1 |};
                          {| temp_current := 99 # 2 |} ])]).

(** A sensors API that reports nothing. *)
Definition no_sensors_host : Host :=
  sample_host (1000 # 1) 16777216000 resolves (Ok []).

(** The number [list.sort] compares for an entry. *)
Definition key_value (d : dict) : Q :=
  match as_number (sort_key d) with
  | Some q => q
  | None => 0
  end.

(** What one partition that could be statted contributes to [disks]:
    the seven base fields, then the optional counters. *)
Definition entry_for (h : Host) (p : partition) (d : pyval) : Prop :=
  exists use, disk_usage h (mountpoint p) = Ok use
              /\ d = PDict (disk_base p use ++ io_extra h p).

(** The snapshot assembled from the nine sub-records. *)
Definition snapshot_of (self : SystemReport)
  (platform cpu memory disks network processes users boot sensors : pyval)
  : pyval :=
  PDict [ (u "time", PStr (time self));
          (u "platform", platform);
          (u "cpu", cpu);
          (u "memory", memory);
          (u "disks", disks);
          (u "network", network);
          (u "processes", processes);
          (u "users", users);
          (u "boot", boot);
          (u "sensors", sensors) ].

(** The report object after a run of [collect], unchanged if the run
    raised. *)
Definition collected (self : SystemReport) (h : Host) : SystemReport :=
  match fst (run_collect self h) with
  | Ok (self', _) => self'
  | Raise _ => self
  end.

(** *** Lines of the text report *)

(** The MAC line of an interface, printed when the MAC is a non-empty
    string. *)
Definition mac_lines (mac : option pystr) : list pystr :=
  match mac with
  | Some (c :: m) => [u "  MAC: " ++ c :: m]
  | _ => []
  end.

(** The status line of an interface, printed when the interface has
    statistics. *)
Definition status_lines (iface : pystr) (net_if_stats : list (pystr * snicstats))
  : list pystr :=
  match find (fun kv => Str.eqb iface (fst kv)) net_if_stats with
  | Some (_, stat) =>
      [ u "  Статус: " ++ (if isup stat then u "UP" else u "DOWN")
          ++ u ", Скорость: "
          ++ (if 0 <? speed stat then repr_int (speed stat) ++ u " Mbps"
              else u "N/A") ]
  | None => []
  end.

(** What the text report prints for an interface with the given
    addresses. *)
Definition shown_lines (iface : pystr) (ips : list pystr) (mac : option pystr)
  (net_if_stats : list (pystr * snicstats)) : list pystr :=
  match ips with
  | [] => []
  | _ => [nl ++ iface ++ u ":"] ++ mac_lines mac
           ++ map (fun ip => u "  " ++ ip) (firstn 2 ips)
           ++ status_lines iface net_if_stats
  end.

(** The [interfaces] dict the network collector builds. *)
Definition interfaces_of (net_if_stats : list (pystr * snicstats))
  (net_if_addrs : list (pystr * list snicaddr)) : dict :=
  fold_left
    (fun interfaces kv =>
       dict_set (fst kv) (iface_info net_if_stats (fst kv) (snd kv)) interfaces)
    net_if_addrs [].

End Spec.
Import Spec.

(** ** Vocabulary of the further properties *)

Module Spec2.

(** The collector a name stands for. *)
Definition run_collector (c : collector) (h : Host) : result pyval :=
  match c with
  | CPlatform => _platform h
  | CCpu => _cpu h
  | CMemory => _memory h
  | CDisks => _disks h
  | CNetwork => _network h
  | CProcesses => _processes h
  | CUsers => _users h
  | CBoot => _boot h
  | CSensors => _sensors h
  end.

(** A host that differs from [h] in its process detail reads and its
    disk usage queries. *)
Definition with_queries (h : Host) (detail : Z -> result Z)
  (usage : pystr -> result sdiskusage) : Host :=
  {| clock := clock h;
     strftime_datetime := strftime_datetime h;
     strftime_time := strftime_time h;
     platform_system := platform_system h;
     platform_release := platform_release h;
     platform_version := platform_version h;
     gethostname := gethostname h;
     gethostbyname := gethostbyname h;
     cpu_freq := cpu_freq h;
     cpu_count := cpu_count h;
     cpu_percent := cpu_percent h;
     cpu_percent_percpu := cpu_percent_percpu h;
     virtual_memory := virtual_memory h;
     swap_memory := swap_memory h;
     disk_partitions := disk_partitions h;
     disk_usage := usage;
     disk_io_counters := disk_io_counters h;
     net_io_counters := net_io_counters h;
     net_if_addrs := net_if_addrs h;
     net_if_stats := net_if_stats h;
     process_iter := process_iter h;
     memory_info_rss := detail;
     users := users h;
     boot_time := boot_time h;
     sensors_temperatures := sensors_temperatures h |}.

(** The sample host, except that the detail read of process 4 raises an
    [OSError]. *)
Definition broken_detail_host : Host :=
  with_queries demo_host
    (fun p => if p =? 4 then Raise OSError else memory_info_rss demo_host p)
    (disk_usage demo_host).

(** The sample host, except that the usage query of the last partition
    raises [AccessDenied], which is no [OSError]. *)
Definition broken_usage_host : Host :=
  with_queries demo_host (memory_info_rss demo_host)
    (fun m => if Str.eqb m (u "/data") then Raise AccessDenied
              else disk_usage demo_host m).

(** A host that differs from [h] in the processes it enumerates. *)
Definition with_processes (h : Host) (ps : list pinfo) : Host :=
  {| clock := clock h;
     strftime_datetime := strftime_datetime h;
     strftime_time := strftime_time h;
     platform_system := platform_system h;
     platform_release := platform_release h;
     platform_version := platform_version h;
     gethostname := gethostname h;
     gethostbyname := gethostbyname h;
     cpu_freq := cpu_freq h;
     cpu_count := cpu_count h;
     cpu_percent := cpu_percent h;
     cpu_percent_percpu := cpu_percent_percpu h;
     virtual_memory := virtual_memory h;
     swap_memory := swap_memory h;
     disk_partitions := disk_partitions h;
     disk_usage := disk_usage h;
     disk_io_counters := disk_io_counters h;
     net_io_counters := net_io_counters h;
     net_if_addrs := net_if_addrs h;
     net_if_stats := net_if_stats h;
     process_iter := ps;
     memory_info_rss := memory_info_rss h;
     users := users h;
     boot_time := boot_time h;
     sensors_temperatures := sensors_temperatures h |}.

(** A process whose name was denied at enumeration, so that psutil
    stores [None] for it, while its memory detail can be read. *)
Definition unnamed_process : pinfo :=
  {| pid := 5; proc_name := None; cpu_percent_of := Some (1 # 1);
     memory_percent := 2 # 1 |}.

(** The sample host with that process added. *)
Definition unnamed_process_host : Host :=
  with_processes demo_host (sample_processes ++ [unnamed_process]).

(** *** Interfaces *)

Definition is_ip (a : snicaddr) : bool :=
  match addr_family a with
  | AF_INET | AF_INET6 => true
  | _ => false
  end.

Definition is_link (a : snicaddr) : bool :=
  match addr_family a with
  | AF_LINK => true
  | _ => false
  end.

(** The text stored for an IPv4 or IPv6 address. *)
Definition addr_text (a : snicaddr) : pystr :=
  match addr_family a with
  | AF_INET => u "IPv4: " ++ address a ++ u "/" ++ str_of_opt (netmask a)
  | _ => u "IPv6: " ++ address a
  end.

(** *** Rows of the text report *)

Definition user_row (h : Host) (x : suser) : pystr :=
  user_name x ++ u " с " ++ str_of_opt (user_host x)
    ++ u " (с " ++ strftime_time h (started x) ++ u ")".

(** The name column: the first 20 characters, padded to 20. *)
Definition name_column (name : pystr) : pystr := ljust 20 (firstn 20 name).

(** The name and the CPU percentage of the process were both read. *)
Definition attributes_read (p : pinfo) : bool :=
  match proc_name p, cpu_percent_of p with
  | Some _, Some _ => true
  | _, _ => false
  end.

(** The row of a process whose attributes were read. *)
Definition process_row (i : Z) (p : pinfo) : pystr :=
  repr_int i ++ u ". "
    ++ name_column (match proc_name p with Some name => name | None => [] end)
    ++ u " "
    ++ u "PID:" ++ rjust 6 (repr_int (pid p)) ++ u " "
    ++ u "CPU:"
    ++ rjust 5 (fmt_fixed 1 (match cpu_percent_of p with Some q => q | None => 0 end))
    ++ u "% "
    ++ u "MEM:" ++ rjust 5 (fmt_fixed 1 (memory_percent p)) ++ u "%".

(** Rows numbered from [i]. *)
Fixpoint rows_from (i : Z) (ps : list pinfo) : list pystr :=
  match ps with
  | [] => []
  | p :: rest => process_row i p :: rows_from (i + 1) rest
  end.

(** *** Saving *)

(** The name [save] gives the file: the name asked for, or a name made
    from the clock when none (or an empty one) was given, and always the
    extension of the format. *)
Definition saved_name (env : Env) (self : SystemReport) (fname : option pystr)
  : pystr :=
  (if given fname then match fname with Some s => s | None => [] end
   else u "system_report_" ++ strftime_compact env (save_clock env))
    ++ (if is_json (fmt self) then u ".json" else u ".txt").

(** The line [main] prints when it catches [e]. *)
Definition error_line (env : Env) (e : exn) : pystr :=
  u "Ошибка: " ++ exn_str env e.

(** A standard output that encodes to UTF-8: it refuses surrogates with
    [UnicodeEncodeError], a [ValueError]. *)
Definition utf8_stdout (out : list pystr) (text : pystr) : option exn :=
  if encodable text then None else Some ValueError.

(** Surroundings in which every file opens and every write goes through,
    with a UTF-8 standard output, at the given clock reading. *)
Definition sample_env (now : Q) : Env :=
  {| save_clock := now;
     strftime_compact := sample_strftime;
     open_w := fun _ => None;
     write_w := fun _ _ => None;
     stdout_w := utf8_stdout;
     exn_str := fun _ => u "error" |}.

(** Surroundings in which no file opens. *)
Definition readonly_env : Env :=
  {| save_clock := 3000 # 1;
     strftime_compact := sample_strftime;
     open_w := fun _ => Some PermissionError;
     write_w := fun _ _ => None;
     stdout_w := utf8_stdout;
     exn_str := fun _ => u "error" |}.

(** Surroundings in which files open but the disk is full: nothing of
    the text gets through. *)
Definition full_disk_env : Env :=
  {| save_clock := 3000 # 1;
     strftime_compact := sample_strftime;
     open_w := fun _ => None;
     write_w := fun _ _ => Some (OSError, []);
     stdout_w := utf8_stdout;
     exn_str := fun _ => u "error" |}.

(** Surroundings whose standard output is ASCII only. *)
Definition ascii_stdout_env : Env :=
  {| save_clock := 3000 # 1;
     strftime_compact := sample_strftime;
     open_w := fun _ => None;
     write_w := fun _ _ => None;
     stdout_w := fun _ text =>
       if forallb (fun c => (c <? 128)%N) text then None else Some ValueError;
     exn_str := fun _ => u "error" |}.

(** *** Characters of the structured document *)


(** A printable ASCII character. *)
Definition printable (c : N) : Prop := (32 <= c <= 126)%N.

(** A printable ASCII character or a newline. *)
Definition document_char (c : N) : Prop := c = 10%N \/ printable c.

(** *** Reading escapes back *)

(** A string of Unicode scalar values: code points below 0x110000 that
    are not surrogates. *)
Definition well_formed (s : pystr) : bool :=
  forallb (fun c => (c <? 1114112)%N && negb (is_surrogate c)) s.

Definition unhex (c : N) : N := if (c <? 58)%N then (c - 48)%N else (c - 87)%N.

Definition unhex4 (a b c d : N) : N :=
  (((unhex a * 16 + unhex b) * 16 + unhex c) * 16 + unhex d)%N.

(** The character a two-character escape stands for. *)
Definition unescape_simple (x : N) : N :=
  if (x =? 98)%N then 8%N
  else if (x =? 102)%N then 12%N
  else if (x =? 110)%N then 10%N
  else if (x =? 114)%N then 13%N
  else if (x =? 116)%N then 9%N
  else x.

(** A reader for the inside of an escaped string, used to show that
    escaping loses nothing. *)
Fixpoint unescape (s : pystr) : pystr :=
  match s with
  | [] => []
  | c :: rest =>
      if (c =? backslash)%N then
        match rest with
        | [] => [c]
        | x :: rest1 =>
            if (x =? 117)%N then
              match rest1 with
              | a :: b :: c1 :: d :: rest2 =>
                  let hi := unhex4 a b c1 d in
                  if ((55296 <=? hi) && (hi <=? 56319))%N then
                    match rest2 with
                    | _ :: _ :: a' :: b' :: c' :: d' :: rest3 =>
                        (65536 + (hi - 55296) * 1024
                         + (unhex4 a' b' c' d' - 56320))%N :: unescape rest3
                    | _ => hi :: unescape rest2
                    end
                  else hi :: unescape rest2
              | _ => [c]
              end
            else unescape_simple x :: unescape rest1
        end
      else c :: unescape rest
  end.

(** *** Disk entries *)

Definition base_keys : list pystr :=
  [ u "device"; u "mountpoint"; u "fstype"; u "total"; u "used"; u "free";
    u "percent" ].

Definition counter_keys : list pystr := [ u "read_bytes"; u "write_bytes" ].

(** A disk entry is complete: the base fields, then both counters or
    neither, and the text renderer prints it in 3 lines without counters
    and 4 with them. *)
Definition complete_disk_entry (float_repr : Q -> pystr) (d : pyval) : Prop :=
  exists fields,
    d = PDict fields
    /\ (map fst fields = base_keys \/ map fst fields = base_keys ++ counter_keys)
    /\ dict_mem (u "read_bytes") fields = dict_mem (u "write_bytes") fields
    /\ forall i, exists lines,
         disk_lines float_repr i d = Ok lines
         /\ List.length lines
            = if dict_mem (u "read_bytes") fields then 4%nat else 3%nat.

End Spec2.
Import Spec2.

(** * Properties *)

(** ** Strings and numbers *)

Module StrFacts.

Lemma eqb_refl (a : pystr) : Str.eqb a a = true.
Proof. induction a; simpl; auto. rewrite N.eqb_refl. assumption. Qed.

Lemma eqb_eq (a b : pystr) : Str.eqb a b = true <-> a = b.
Proof.
  revert b. induction a as [|x a IH]; destruct b as [|y b]; simpl;
    try (split; congruence).
  rewrite andb_true_iff, N.eqb_eq, IH. split.
  - intros [-> ->]. reflexivity.
  - intros E. injection E. auto.
Qed.

Lemma eqb_neq (a b : pystr) : Str.eqb a b = false <-> a <> b.
Proof.
  rewrite <- eqb_eq. destruct (Str.eqb a b); split; congruence.
Qed.

Lemma infix_refl (s : pystr) : infix s s.
Proof. exists [], []. simpl. now rewrite app_nil_r. Qed.

Lemma infix_trans (a b c : pystr) : infix a b -> infix b c -> infix a c.
Proof.
  intros (p1 & q1 & ->) (p2 & q2 & ->).
  exists (p2 ++ p1), (q1 ++ q2). now rewrite <- !app_assoc.
Qed.

Lemma infix_app_l (s a b : pystr) : infix s a -> infix s (a ++ b).
Proof.
  intros (p & q & ->). exists p, (q ++ b). now rewrite <- !app_assoc.
Qed.

Lemma infix_app_r (s a b : pystr) : infix s b -> infix s (a ++ b).
Proof.
  intros (p & q & ->). exists (a ++ p), q. now rewrite <- !app_assoc.
Qed.

Lemma infix_cons (s : pystr) (c : N) (b : pystr) : infix s b -> infix s (c :: b).
Proof. apply (infix_app_r s [c] b). Qed.

Lemma infix_join (sep p : pystr) (parts : list pystr) :
  In p parts -> infix p (join sep parts).
Proof.
  induction parts as [|x rest IH]; [contradiction|].
  intros [->|Hin].
  - destruct rest; simpl; [apply infix_refl|].
    apply infix_app_l, infix_refl.
  - destruct rest as [|y rest']; [contradiction|].
    change (join sep (x :: y :: rest')) with (x ++ sep ++ join sep (y :: rest')).
    apply infix_app_r, infix_app_r, IH, Hin.
Qed.



Lemma join_cons (sep p : pystr) (rest : list pystr) :
  join sep (p :: rest)
  = p ++ match rest with [] => [] | _ => sep ++ join sep rest end.
Proof. destruct rest; simpl; [now rewrite app_nil_r | reflexivity]. Qed.

Lemma is_ascii_app (a b : pystr) : is_ascii a -> is_ascii b -> is_ascii (a ++ b).
Proof. unfold is_ascii. intros. apply Forall_app. split; assumption. Qed.

Lemma is_ascii_rep (c : N) (n : nat) : (c < 128)%N -> is_ascii (rep c n).
Proof.
  intros Hc. unfold is_ascii, rep. apply Forall_forall.
  intros x Hx. apply repeat_spec in Hx. now subst.
Qed.

Lemma is_ascii_join (sep : pystr) (parts : list pystr) :
  is_ascii sep -> Forall is_ascii parts -> is_ascii (join sep parts).
Proof.
  intros Hsep. induction 1 as [|x rest Hx Hrest IH]; [constructor|].
  destruct rest; simpl; [assumption|].
  apply is_ascii_app; [assumption|]. apply is_ascii_app; assumption.
Qed.

End StrFacts.
Import StrFacts.

Module NumFacts.

Lemma uint_chars_ascii (d : Decimal.uint) : is_ascii (uint_chars d).
Proof.
  unfold is_ascii. induction d; simpl; constructor; (lia || assumption).
Qed.

Lemma dec_N_ascii (n : N) : is_ascii (dec_N n).
Proof. apply uint_chars_ascii. Qed.

Lemma repr_int_ascii (z : Z) : is_ascii (repr_int z).
Proof.
  unfold repr_int. destruct (z <? 0).
  - constructor; [lia | apply dec_N_ascii].
  - apply dec_N_ascii.
Qed.

(** One decimal digit prints as one character. *)
Lemma dec_N_digit (d : Z) : 0 <= d < 10 -> dec_N (Z.to_N d) = [(48 + Z.to_N d)%N].
Proof.
  intros H.
  assert (d = 0 \/ d = 1 \/ d = 2 \/ d = 3 \/ d = 4 \/ d = 5 \/ d = 6
          \/ d = 7 \/ d = 8 \/ d = 9) as E by lia.
  repeat (destruct E as [-> | E]; [reflexivity|]). subst. reflexivity.
Qed.

(** [round_half_even n d] is within half a unit of [n / d]. *)
Lemma round_half_even_bound (n d : Z) :
  0 < d -> 2 * Z.abs (n - round_half_even n d * d) <= d.
Proof.
  intros Hd. unfold round_half_even.
  pose proof (Z.div_mod n d ltac:(lia)) as E.
  pose proof (Z.mod_pos_bound n d Hd) as B.
  destruct (Z.ltb_spec (2 * (n mod d)) d);
    [|destruct (Z.ltb_spec d (2 * (n mod d))); [|destruct (Z.even (n / d))]];
    nia.
Qed.

Lemma round_half_even_nonneg (n d : Z) : 0 <= n -> 0 < d -> 0 <= round_half_even n d.
Proof.
  intros Hn Hd. unfold round_half_even.
  pose proof (Z.div_pos n d Hn Hd).
  destruct (2 * (n mod d) <? d); [lia|].
  destruct (d <? 2 * (n mod d)); [lia|]. destruct (Z.even (n / d)); lia.
Qed.

Lemma to_double_exact (n : Z) : exact_count n -> to_double n = n.
Proof.
  intros [Hlo Hhi]. unfold to_double. rewrite (Z.abs_eq n Hlo).
  destruct (Z.ltb_spec n (2 ^ 53)); [reflexivity | lia].
Qed.

Lemma pow1024_unit (k : nat) :
  Zpos (Pos.pow 1024 (Pos.of_nat (S k))) = 1024 ^ Z.of_nat (S k).
Proof. rewrite Pos2Z.inj_pow, <- Pos.of_nat_succ. reflexivity. Qed.

(** [tenths n k] is within half a tenth of [n / 1024**k], and the only
    integer strictly within. *)
Lemma tenths_nearest (n : Z) (k : nat) :
  2 * Z.abs (10 * n - tenths n k * 1024 ^ Z.of_nat k) <= 1024 ^ Z.of_nat k.
Proof.
  apply round_half_even_bound. apply Z.pow_pos_nonneg; lia.
Qed.

Lemma tenths_unique (n : Z) (k : nat) (t : Z) :
  2 * Z.abs (10 * n - t * 1024 ^ Z.of_nat k) < 1024 ^ Z.of_nat k ->
  t = tenths n k.
Proof.
  intros Ht. pose proof (tenths_nearest n k) as Hn.
  assert (0 < 1024 ^ Z.of_nat k) as Hpos by (apply Z.pow_pos_nonneg; lia).
  generalize dependent (1024 ^ Z.of_nat k). intros unit Ht Hn Hpos.
  generalize dependent (tenths n k). intros t' Hn. nia.
Qed.

(** [format(n / 1024**k, '.1f')] for a byte count [n] that is a double:
    the tenths nearest to [10 * n / 1024**k], printed with one digit
    after the point. *)
Lemma fmt_fixed_bytes (n : Z) (k : nat) :
  exact_count n ->
  fmt_fixed 1 (div_pow1024 n (S k)) = one_decimal (tenths n (S k)).
Proof.
  intros Hn. pose proof Hn as [Hlo _].
  unfold fmt_fixed, scaled, div_pow1024, one_decimal, tenths. cbn [Qnum Qden].
  rewrite (to_double_exact n Hn), (Z.abs_eq n Hlo), pow1024_unit.
  change (10 ^ Z.of_nat 1) with 10. rewrite (Z.mul_comm n 10).
  set (t := round_half_even (10 * n) (1024 ^ Z.of_nat (S k))).
  assert (0 <= t mod 10 < 10) as Hd by (apply Z.mod_pos_bound; lia).
  destruct (Z.ltb_spec n 0); [lia|].
  unfold zero_pad. rewrite (dec_N_digit _ Hd). reflexivity.
Qed.

Lemma gb_text (n : Z) : exact_count n -> gb n = one_decimal (tenths n 3).
Proof. apply (fmt_fixed_bytes n 2). Qed.

Lemma mb_text (n : Z) : exact_count n -> mb n = one_decimal (tenths n 2).
Proof. apply (fmt_fixed_bytes n 1). Qed.

End NumFacts.
Import NumFacts.

(** ** Sorting *)

Module SortFacts.

Section Pairs.
Context {A : Type}.
Implicit Types (l : list (Q * A)) (k : Q) (x : A).

Lemma insert_desc_perm k x l : Permutation (insert_desc k x l) ((k, x) :: l).
Proof.
  induction l as [|[k' y] t IH]; simpl; [reflexivity|].
  destruct (Qle_bool k' k); [reflexivity|].
  rewrite IH. apply perm_swap.
Qed.

Lemma sort_desc_perm l : Permutation (sort_desc l) l.
Proof.
  induction l as [|[k x] t IH]; simpl; [constructor|].
  rewrite insert_desc_perm. now constructor.
Qed.

Lemma insert_desc_sorted k x l :
  StronglySorted desc l -> StronglySorted desc (insert_desc k x l).
Proof.
  induction 1 as [|[k' y] t Hs IH Hall]; simpl.
  - repeat constructor.
  - destruct (Qle_bool k' k) eqn:E.
    + apply Qle_bool_iff in E.
      constructor; [constructor; assumption|].
      constructor; [exact E|].
      eapply Forall_impl; [|exact Hall].
      intros [k2 z] H2. unfold desc in *. simpl in *.
      eapply Qle_trans; eassumption.
    + assert (k <= k')%Q as Hlt.
      { apply Qlt_le_weak, Qnot_le_lt. intros C.
        apply Qle_bool_iff in C. congruence. }
      constructor; [assumption|].
      eapply Permutation_Forall; [symmetry; apply insert_desc_perm|].
      constructor; [exact Hlt | exact Hall].
Qed.

Lemma sort_desc_sorted l : StronglySorted desc (sort_desc l).
Proof.
  induction l as [|[k x] t IH]; simpl; [constructor|].
  now apply insert_desc_sorted.
Qed.

(** Insertion keeps the new element ahead of every older element with
    the same key. *)
Lemma insert_desc_filter k x l (q : Q) :
  filter (fun kx => Qeq_bool (fst kx) q) (insert_desc k x l)
  = filter (fun kx => Qeq_bool (fst kx) q) ((k, x) :: l).
Proof.
  induction l as [|[k' y] t IH]; [reflexivity|].
  simpl insert_desc. destruct (Qle_bool k' k) eqn:E; [reflexivity|].
  simpl in *. rewrite IH.
  destruct (Qeq_bool k q) eqn:Ek; [|reflexivity].
  destruct (Qeq_bool k' q) eqn:Ek'; [|reflexivity].
  exfalso. apply Qeq_bool_iff in Ek, Ek'.
  assert (Qle_bool k' k = true); [|congruence].
  apply Qle_bool_iff. rewrite Ek, Ek'. apply Qle_refl.
Qed.

Lemma sort_desc_filter l (q : Q) :
  filter (fun kx => Qeq_bool (fst kx) q) (sort_desc l)
  = filter (fun kx => Qeq_bool (fst kx) q) l.
Proof.
  induction l as [|[k x] t IH]; [reflexivity|].
  simpl sort_desc. rewrite insert_desc_filter. simpl. now rewrite IH.
Qed.

End Pairs.

Section Map.
Context {A B : Type} (f : A -> B).

Lemma insert_desc_map k x (l : list (Q * A)) :
  insert_desc k (f x) (map (on_snd f) l) = map (on_snd f) (insert_desc k x l).
Proof.
  induction l as [|[k' y] t IH]; [reflexivity|].
  simpl. destruct (Qle_bool k' k); [reflexivity|].
  simpl. now rewrite IH.
Qed.

Lemma sort_desc_map (l : list (Q * A)) :
  sort_desc (map (on_snd f) l) = map (on_snd f) (sort_desc l).
Proof.
  induction l as [|[k x] t IH]; [reflexivity|].
  simpl. rewrite IH. apply insert_desc_map.
Qed.

End Map.

Section Ranked.
Context {A : Type} (key : A -> Q).

Lemma keyed_sorted (l : list A) :
  Forall (fun kx => fst kx = key (snd kx)) (sort_desc (map (fun x => (key x, x)) l)).
Proof.
  eapply Permutation_Forall; [symmetry; apply sort_desc_perm|].
  apply Forall_forall. intros kx Hin. apply in_map_iff in Hin.
  destruct Hin as (x & <- & _). reflexivity.
Qed.

Lemma ranked_by_perm (l : list A) : Permutation (ranked_by key l) l.
Proof.
  unfold ranked_by. rewrite sort_desc_perm, map_map. simpl.
  now rewrite map_id.
Qed.

Lemma ranked_by_sorted (l : list A) :
  StronglySorted (fun a b => key b <= key a)%Q (ranked_by key l).
Proof.
  unfold ranked_by.
  pose proof (keyed_sorted l) as Hk.
  pose proof (sort_desc_sorted (map (fun x => (key x, x)) l)) as Hs.
  induction Hs as [|kx t Hs IH Hall]; simpl; [constructor|].
  inversion Hk as [|? ? Hkx Hkt]; subst.
  constructor; [apply IH, Hkt|].
  apply Forall_map. rewrite Forall_forall in *.
  intros ky Hin. specialize (Hall ky Hin). specialize (Hkt ky Hin).
  unfold desc in Hall. now rewrite <- Hkx, <- Hkt.
Qed.

Lemma filter_keyed (q : Q) (l : list (Q * A)) :
  Forall (fun kx => fst kx = key (snd kx)) l ->
  filter (fun x => Qeq_bool (key x) q) (map snd l)
  = map snd (filter (fun kx => Qeq_bool (fst kx) q) l).
Proof.
  induction 1 as [|kx t Hkx Ht IH]; [reflexivity|].
  simpl. rewrite <- Hkx, IH. now destruct (Qeq_bool (fst kx) q).
Qed.

Lemma ranked_by_stable (l : list A) (q : Q) :
  filter (fun x => Qeq_bool (key x) q) (ranked_by key l)
  = filter (fun x => Qeq_bool (key x) q) l.
Proof.
  unfold ranked_by. rewrite filter_keyed by apply keyed_sorted.
  rewrite sort_desc_filter.
  induction l as [|x t IH]; [reflexivity|].
  simpl. destruct (Qeq_bool (key x) q); simpl; now rewrite IH.
Qed.

End Ranked.

Lemma ranked_by_map {A B} (f : A -> B) (key : B -> Q) (l : list A) :
  ranked_by key (map f l) = map f (ranked_by (fun x => key (f x)) l).
Proof.
  unfold ranked_by. rewrite map_map.
  change (map (fun x => (key (f x), f x)) l)
    with (map (fun x => on_snd f ((fun x => (key (f x), x)) x)) l).
  rewrite <- (map_map (fun x => (key (f x), x)) (on_snd f)).
  rewrite sort_desc_map, !map_map. reflexivity.
Qed.

Lemma ranked_by_ext {A} (k1 k2 : A -> Q) (l : list A) :
  (forall x, k1 x = k2 x) -> ranked_by k1 l = ranked_by k2 l.
Proof.
  intros E. unfold ranked_by. f_equal. f_equal.
  apply map_ext. intros x. now rewrite E.
Qed.

Lemma combine_map_self {A} (key : A -> Q) (l : list A) :
  combine (map key l) l = map (fun x => (key x, x)) l.
Proof. induction l; simpl; congruence. Qed.

Lemma all_numbers_floats (qs : list Q) : all_numbers (map PFloat qs) = Some qs.
Proof.
  induction qs as [|q t IH]; [reflexivity|]. simpl. now rewrite IH.
Qed.

(** On float keys [list.sort(key=..., reverse=True)] is the stable
    ranking. *)
Lemma list_sort_reverse_floats {A} (key : A -> pyval) (kq : A -> Q) (l : list A) :
  map key l = map PFloat (map kq l) ->
  list_sort_reverse key l = Ok (ranked_by kq l).
Proof.
  intros E. unfold list_sort_reverse.
  rewrite E, all_numbers_floats, combine_map_self.
  destruct l as [|x [|y t]]; reflexivity.
Qed.

Lemma all_numbers_length (vs : list pyval) (qs : list Q) :
  all_numbers vs = Some qs -> List.length qs = List.length vs.
Proof.
  revert qs. induction vs as [|v t IH]; simpl; intros qs H.
  - now inversion H.
  - destruct (as_number v); [|discriminate].
    destruct (all_numbers t) as [qs'|]; [|discriminate].
    inversion H; subst. simpl. now rewrite (IH qs').
Qed.

Lemma map_snd_combine {A B} (ks : list A) (l : list B) :
  List.length ks = List.length l -> map snd (combine ks l) = l.
Proof.
  revert l. induction ks as [|k ks IH]; destruct l; simpl; try discriminate; auto.
  intros H. f_equal. apply IH. congruence.
Qed.

(** Sorting neither invents nor loses elements. *)
Lemma list_sort_reverse_perm {A} (key : A -> pyval) (l l' : list A) :
  list_sort_reverse key l = Ok l' -> Permutation l' l.
Proof.
  unfold list_sort_reverse.
  destruct l as [|x [|y t]]; try (intros H; inversion H; reflexivity).
  remember (x :: y :: t) as l0.
  destruct (all_numbers (map key l0)) as [ks|] eqn:E.
  - intros H. inversion H; subst l'. clear H.
    rewrite sort_desc_perm. rewrite map_snd_combine; [reflexivity|].
    rewrite (all_numbers_length _ _ E). apply length_map.
  - destruct (existsb _ _); discriminate.
Qed.

End SortFacts.
Import SortFacts.

(** ** Dictionaries *)

Module DictFacts.

Lemma dict_set_Forall (P : pystr * pyval -> Prop) k v (d : dict) :
  Forall P d -> P (k, v) -> Forall P (dict_set k v d).
Proof.
  intros Hd Hv. induction Hd as [|[k' v'] rest Hkv Hrest IH]; simpl.
  - repeat constructor. assumption.
  - destruct (Str.eqb k k') eqn:E.
    + apply eqb_eq in E. subst k'. constructor; assumption.
    + constructor; assumption.
Qed.

(** A dict built by assigning [d[key x] = val x] for each [x] of a list
    holds nothing but such assignments. *)
Lemma fold_dict_set_Forall {X} (key : X -> pystr) (val : X -> pyval)
  (P : pystr * pyval -> Prop) (l : list X) (acc : dict) :
  (forall x, In x l -> P (key x, val x)) ->
  Forall P acc ->
  Forall P (fold_left (fun d x => dict_set (key x) (val x) d) l acc).
Proof.
  revert acc. induction l as [|x rest IH]; simpl; intros acc Hl Hacc.
  - assumption.
  - apply IH; [intros; apply Hl; now right|].
    apply dict_set_Forall; [assumption|]. apply Hl. now left.
Qed.

Lemma dict_set_fresh k v (d : dict) :
  ~ In k (map fst d) -> dict_set k v d = d ++ [(k, v)].
Proof.
  induction d as [|[k' v'] rest IH]; simpl; intros Hn; [reflexivity|].
  destruct (Str.eqb k k') eqn:E.
  - apply eqb_eq in E. subst. exfalso. apply Hn. now left.
  - rewrite IH; [reflexivity|]. intros C. apply Hn. now right.
Qed.

(** With distinct keys the assignments simply line up. *)
Lemma fold_dict_set_NoDup {X} (key : X -> pystr) (val : X -> pyval)
  (l : list X) (acc : dict) :
  NoDup (map fst acc ++ map key l) ->
  fold_left (fun d x => dict_set (key x) (val x) d) l acc
  = acc ++ map (fun x => (key x, val x)) l.
Proof.
  revert acc. induction l as [|x rest IH]; simpl; intros acc Hnd.
  - now rewrite app_nil_r.
  - rewrite dict_set_fresh.
    + rewrite IH.
      * now rewrite <- app_assoc.
      * rewrite map_app. simpl. rewrite <- app_assoc. exact Hnd.
    + apply NoDup_remove_2 in Hnd. intros C. apply Hnd.
      apply in_or_app. now left.
Qed.

Lemma dict_lookup_In k v (d : dict) : dict_lookup k d = Some v -> In (k, v) d.
Proof.
  induction d as [|[k' v'] rest IH]; simpl; [discriminate|].
  destruct (Str.eqb k k') eqn:E.
  - apply eqb_eq in E. intros H. inversion H; subst. now left.
  - intros H. right. now apply IH.
Qed.

Lemma dict_lookup_NoDup k v (d : dict) :
  NoDup (map fst d) -> In (k, v) d -> dict_lookup k d = Some v.
Proof.
  induction d as [|[k' v'] rest IH]; simpl; [contradiction|].
  intros Hnd [E|Hin].
  - inversion E; subst. now rewrite eqb_refl.
  - inversion Hnd as [|? ? Hk' Hrest]; subst.
    destruct (Str.eqb k k') eqn:E.
    + apply eqb_eq in E. subst. exfalso. apply Hk'.
      apply in_map_iff. now exists (k', v).
    + now apply IH.
Qed.

Lemma getitem_here k v (rest : dict) : getitem (PDict ((k, v) :: rest)) k = Ok v.
Proof. simpl. now rewrite eqb_refl. Qed.

Lemma getitem_skip k k' v (rest : dict) :
  Str.eqb k k' = false ->
  getitem (PDict ((k', v) :: rest)) k = getitem (PDict rest) k.
Proof. intros E. simpl. now rewrite E. Qed.

End DictFacts.
Import DictFacts.

(** ** The collectors *)

Module CollectorFacts.

Lemma bind_ok {A B} (r : result A) (k : A -> result B) (b : B) :
  bind r k = Ok b -> exists a, r = Ok a /\ k a = Ok b.
Proof. destruct r; simpl; [eauto | discriminate]. Qed.


(** *** Processes *)

Lemma procs_loop_guarded (h : Host) (ps : list pinfo) (acc : list dict) :
  forallb (fun p => raises_only detail_guard (memory_info_rss h (pid p))) ps = true ->
  procs_loop h ps acc
  = Ok (acc ++ map (entry_dict h) (filter (detail_read_ok h) ps)).
Proof.
  revert acc. induction ps as [|p rest IH]; simpl; intros acc H.
  - now rewrite app_nil_r.
  - apply andb_true_iff in H. destruct H as [Hp Hrest].
    unfold detail_read_ok at 1. unfold entry_dict at 1.
    destruct (memory_info_rss h (pid p)) as [rss|e] eqn:E; simpl.
    + rewrite IH by assumption. rewrite <- app_assoc. simpl.
      unfold entry_dict at 1. rewrite E. reflexivity.
    + destruct e; simpl in Hp; try discriminate; now apply IH.
Qed.

(** Whatever the failures, the loop only ever appends full entries. *)
Lemma procs_loop_entries (h : Host) (ps : list pinfo) (acc out : list dict) :
  procs_loop h ps acc = Ok out ->
  exists qs, out = acc ++ map (entry_dict h) qs
             /\ Forall (fun p => detail_read_ok h p = true) qs.
Proof.
  revert acc. induction ps as [|p rest IH]; simpl; intros acc H.
  - inversion H; subst. exists []. now rewrite app_nil_r.
  - destruct (memory_info_rss h (pid p)) as [rss|e] eqn:E.
    + apply IH in H. destruct H as (qs & -> & Hqs).
      exists (p :: qs). split.
      * rewrite <- app_assoc. simpl. unfold entry_dict at 2. now rewrite E.
      * constructor; [|assumption]. unfold detail_read_ok. now rewrite E.
    + destruct e; try discriminate; now apply IH.
Qed.

Lemma sort_key_entry (h : Host) (p : pinfo) :
  sort_key (entry_dict h p) = PFloat (memory_percent p).
Proof. unfold entry_dict. destruct (memory_info_rss h (pid p)); reflexivity. Qed.

Lemma key_value_entry (h : Host) (p : pinfo) :
  key_value (entry_dict h p) = memory_percent p.
Proof. unfold key_value. now rewrite sort_key_entry. Qed.

Lemma sort_entries (h : Host) (ps : list pinfo) :
  list_sort_reverse sort_key (map (entry_dict h) ps)
  = Ok (map (entry_dict h) (ranked_by memory_percent ps)).
Proof.
  rewrite (list_sort_reverse_floats sort_key key_value).
  - rewrite ranked_by_map.
    now rewrite (ranked_by_ext _ memory_percent ps (key_value_entry h)).
  - rewrite !map_map. apply map_ext. intros p.
    now rewrite sort_key_entry, key_value_entry.
Qed.

(** *** Disks *)

Lemma disk_io_fields_base (h : Host) (p : partition) (use : sdiskusage) :
  disk_io_fields h p (disk_base p use) = disk_base p use ++ io_extra h p.
Proof.
  unfold disk_io_fields, io_extra.
  destruct (disk_io_counters h p) as [counters|e];
    [destruct (lookup_io (io_key p) counters)|];
    rewrite ?app_nil_r; reflexivity.
Qed.

Lemma disks_loop_guarded (h : Host) (parts : list partition) (acc : list pyval) :
  disk_failures_guarded h parts = true ->
  exists entries,
    disks_loop h parts acc = Ok (acc ++ entries)
    /\ Forall2 (entry_for h) (filter (usage_ok h) parts) entries.
Proof.
  unfold disk_failures_guarded.
  revert acc. induction parts as [|p rest IH]; simpl; intros acc H.
  - exists []. rewrite app_nil_r. split; [reflexivity | constructor].
  - apply andb_true_iff in H. destruct H as [Hp Hrest].
    unfold usage_ok at 1.
    destruct (disk_usage h (mountpoint p)) as [use|e] eqn:E; simpl in *.
    + destruct (IH (acc ++ [PDict (disk_io_fields h p (disk_base p use))]) Hrest)
        as (entries & Hloop & Hall).
      exists (PDict (disk_base p use ++ io_extra h p) :: entries). split.
      * rewrite Hloop, <- app_assoc, disk_io_fields_base. reflexivity.
      * constructor; [|assumption]. exists use. split; [assumption | reflexivity].
    + rewrite Hp. apply IH, Hrest.
Qed.

Lemma disks_loop_entries (h : Host) (parts : list partition) (acc out : list pyval) :
  disks_loop h parts acc = Ok out ->
  exists ps entries, out = acc ++ entries /\ Forall2 (entry_for h) ps entries.
Proof.
  revert acc. induction parts as [|p rest IH]; simpl; intros acc H.
  - inversion H; subst. exists [], []. rewrite app_nil_r. split; [reflexivity|constructor].
  - destruct (disk_usage h (mountpoint p)) as [use|e] eqn:E.
    + apply IH in H. destruct H as (ps & entries & -> & Hall).
      exists (p :: ps), (PDict (disk_base p use ++ io_extra h p) :: entries). split.
      * rewrite <- app_assoc, disk_io_fields_base. reflexivity.
      * constructor; [|assumption]. exists use. split; [assumption | reflexivity].
    + destruct (is_OSError e); [now apply IH | discriminate].
Qed.

Lemma processes_ranked (h : Host) :
  process_failures_guarded h = true ->
  _processes h
  = Ok (PList (map (entry_of h)
                 (firstn 8 (ranked_by memory_percent (candidates h))))).
Proof.
  intros Hguard. unfold _processes.
  rewrite (procs_loop_guarded h (process_iter h) [] Hguard).
  cbn [bind app]. fold (candidates h). rewrite sort_entries. cbn [bind].
  rewrite firstn_map, map_map. reflexivity.
Qed.

Lemma disks_guarded (h : Host) (parts : list partition) :
  disk_partitions h = Ok parts ->
  disk_failures_guarded h parts = true ->
  exists disks,
    _disks h = Ok (PList disks)
    /\ Forall2 (entry_for h) (filter (usage_ok h) parts) disks.
Proof.
  intros Hparts Hguard.
  destruct (disks_loop_guarded h parts [] Hguard) as (disks & Hloop & Hall).
  exists disks. split; [|exact Hall].
  unfold _disks. rewrite Hparts. simpl. rewrite Hloop. reflexivity.
Qed.


End CollectorFacts.
Import CollectorFacts.

(** ** The aggregator *)

Module AggregatorFacts.

(** A run of [collect] that returns has called the nine collectors, each
    of which returned, and has stored the snapshot in [self.info]. *)
Lemma run_collect_inv (self self' : SystemReport) (h : Host) (snap : pyval) :
  fst (run_collect self h) = Ok (self', snap) ->
  exists platform cpu memory disks network processes users boot sensors,
    _platform h = Ok platform /\ _cpu h = Ok cpu /\ _memory h = Ok memory
    /\ _disks h = Ok disks /\ _network h = Ok network
    /\ _processes h = Ok processes /\ _users h = Ok users
    /\ _boot h = Ok boot /\ _sensors h = Ok sensors
    /\ snap = snapshot_of self platform cpu memory disks network processes
                users boot sensors
    /\ self' = {| fmt := fmt self; info := snap; time := time self |}
    /\ snd (run_collect self h) = all_collectors.
Proof.
  unfold run_collect, collect, tbind, invoke, tret.
  destruct (_platform h) as [v1|]; [|discriminate].
  destruct (_cpu h) as [v2|]; [|discriminate].
  destruct (_memory h) as [v3|]; [|discriminate].
  destruct (_disks h) as [v4|]; [|discriminate].
  destruct (_network h) as [v5|]; [|discriminate].
  destruct (_processes h) as [v6|]; [|discriminate].
  destruct (_users h) as [v7|]; [|discriminate].
  destruct (_boot h) as [v8|]; [|discriminate].
  destruct (_sensors h) as [v9|]; [|discriminate].
  cbn [fst snd]. intros H. injection H as H1 H2. subst self' snap.
  exists v1, v2, v3, v4, v5, v6, v7, v8, v9. repeat split.
Qed.


(** The first collector to raise ends the run with its exception. *)
Lemma run_collect_platform_raises (self : SystemReport) (h : Host) (e : exn) :
  _platform h = Raise e -> run_collect self h = (Raise e, [CPlatform]).
Proof.
  intros E. unfold run_collect, collect, tbind, invoke. now rewrite E.
Qed.

End AggregatorFacts.
Import AggregatorFacts.

(** ** The structured renderer *)

Module JsonFacts.

Lemma hex_digit_ascii (d : N) : (d < 16)%N -> (hex_digit d < 128)%N.
Proof. unfold hex_digit. destruct (d <? 10)%N; lia. Qed.

Lemma hex4_ascii (n : N) : is_ascii (hex4 n).
Proof.
  unfold hex4, is_ascii.
  repeat constructor; apply hex_digit_ascii, N.mod_upper_bound; discriminate.
Qed.

Lemma escape_char_ascii (c : N) : is_ascii (escape_char c).
Proof.
  unfold escape_char, backslash, dquote.
  repeat match goal with
         | |- context [if ?b then _ else _] => destruct b eqn:?
         end;
    try (repeat constructor; lia).
  - apply andb_true_iff in Heqb1. destruct Heqb1 as [_ H].
    apply N.leb_le in H. repeat constructor. lia.
  - constructor; [lia|]. constructor; [lia|]. apply hex4_ascii.
  - apply is_ascii_app; (constructor; [lia|]; constructor; [lia|]; apply hex4_ascii).
Qed.

Lemma encode_basestring_ascii_ascii (s : pystr) : is_ascii (encode_basestring_ascii s).
Proof.
  unfold encode_basestring_ascii, dquote. constructor; [lia|].
  apply is_ascii_app; [|repeat constructor; lia].
  induction s as [|c t IH]; simpl; [constructor|].
  apply is_ascii_app; [apply escape_char_ascii | exact IH].
Qed.

Lemma newline_indent_ascii (level : nat) : is_ascii (newline_indent level).
Proof. constructor; [lia|]. apply is_ascii_rep. lia. Qed.

Lemma wrap_ascii (opening closing : N) (level : nat) (parts : list pystr) :
  (opening < 128)%N -> (closing < 128)%N -> Forall is_ascii parts ->
  is_ascii (wrap opening closing level parts).
Proof.
  intros Ho Hc Hparts. unfold wrap.
  destruct parts as [|p rest]; [repeat constructor; assumption|].
  constructor; [assumption|].
  apply is_ascii_app; [apply newline_indent_ascii|].
  apply is_ascii_app.
  - apply is_ascii_join; [|assumption].
    constructor; [lia | apply newline_indent_ascii].
  - apply is_ascii_app; [apply newline_indent_ascii|].
    repeat constructor. assumption.
Qed.

Section Encode.
Variable float_repr : Q -> pystr.

(** With ASCII float texts, the whole document is ASCII. *)
Lemma encode_ascii (v : pyval) :
  (forall q, is_ascii (float_repr q)) ->
  forall level, is_ascii (encode float_repr level v).
Proof.
  intros Hrepr. induction v using pyval_nested_ind; intros level; cbn [encode].
  - repeat constructor; lia.
  - apply repr_int_ascii.
  - apply Hrepr.
  - apply encode_basestring_ascii_ascii.
  - apply wrap_ascii; [lia | lia |].
    apply Forall_map. eapply Forall_impl; [|eassumption].
    intros x Hx. apply Hx.
  - apply wrap_ascii; [lia | lia |].
    apply Forall_map. eapply Forall_impl; [|eassumption].
    intros [k x] Hx. cbn [fst snd] in *.
    apply is_ascii_app; [apply encode_basestring_ascii_ascii|].
    apply is_ascii_app; [repeat constructor; lia | apply Hx].
  - apply encode_basestring_ascii_ascii.
Qed.

(** A dict's text holds the text of each of its items. *)
Lemma encode_dict_item (level : nat) (d : dict) (k : pystr) (x : pyval) :
  In (k, x) d ->
  infix (encode_basestring_ascii k ++ key_separator
           ++ encode float_repr (S level) x)
    (encode float_repr level (PDict d)).
Proof.
  intros Hin. cbn [encode].
  set (item := fun kv : pystr * pyval =>
                 encode_basestring_ascii (fst kv) ++ key_separator
                   ++ encode float_repr (S level) (snd kv)).
  assert (In (item (k, x)) (map item d)) as Hitem by now apply in_map.
  unfold wrap. destruct (map item d) as [|p rest] eqn:E; [contradiction|].
  apply infix_cons, infix_app_r, infix_app_l.
  apply infix_join. exact Hitem.
Qed.

(** A non-empty container opens with its bracket, a newline, two spaces
    for each level of nesting, then its first part. *)
Lemma wrap_cons (opening closing : N) (level : nat) (p : pystr)
  (rest : list pystr) :
  exists tail,
    wrap opening closing level (p :: rest)
    = [opening; 10%N] ++ rep 32%N (2 * S level) ++ p ++ tail.
Proof.
  unfold wrap. rewrite join_cons. eexists.
  unfold newline_indent at 1. unfold indent_unit. simpl app.
  rewrite <- !app_assoc. reflexivity.
Qed.

Lemma infix_item_value (k a b : pystr) : infix a b -> infix a (k ++ key_separator ++ b).
Proof. intros H. now apply infix_app_r, infix_app_r. Qed.

End Encode.

Lemma strip_zeros_ascii (s : pystr) : is_ascii s -> is_ascii (strip_zeros s).
Proof.
  unfold strip_zeros, is_ascii. intros H. apply Forall_rev.
  apply Forall_rev in H. induction H as [|x t Hx Ht IH]; [constructor|].
  simpl. destruct (x =? 48)%N; [exact IH | now constructor].
Qed.

Lemma repr_dyadic_ascii (q : Q) : is_ascii (repr_dyadic q).
Proof.
  unfold repr_dyadic. cbv zeta.
  apply is_ascii_app; [destruct (Qnum q <? 0); repeat constructor; lia|].
  apply is_ascii_app; [apply dec_N_ascii|].
  constructor; [lia|].
  match goal with
  | |- Forall _ (match ?f with _ => _ end) =>
      assert (is_ascii f) as Hf; [|destruct f; [repeat constructor; lia | exact Hf]]
  end.
  apply strip_zeros_ascii. unfold zero_pad.
  apply is_ascii_app; [apply is_ascii_rep; lia | apply dec_N_ascii].
Qed.

End JsonFacts.
Import JsonFacts.

(** ** The text renderer *)

Module TextFacts.

Section Text.
Variable float_repr : Q -> pystr.

Lemma for_each_ok {A} (body : A -> result (list pystr)) (l : list A) :
  Forall (fun x => exists r, body x = Ok r) l ->
  exists r, for_each body l = Ok r.
Proof.
  induction 1 as [|x t [r Hx] _ [r' IH]]; simpl; [eauto|].
  rewrite Hx, IH. simpl. eauto.
Qed.

Lemma for_enumerate_ok {A} (body : Z -> A -> result (list pystr)) (l : list A) :
  Forall (fun x => forall i, exists r, body i x = Ok r) l ->
  forall i, exists r, for_enumerate body i l = Ok r.
Proof.
  induction 1 as [|x t Hx _ IH]; simpl; intros i; [eauto|].
  destruct (Hx i) as [r ->]. destruct (IH (i + 1)) as [r' ->]. simpl. eauto.
Qed.

(** A loop that prints one line per string. *)
Lemma for_each_strings (pre : pystr) (ss : list pystr) :
  for_each (fun v => x <- py_str float_repr v ;; Ok [pre ++ x]) (map PStr ss)
  = Ok (map (fun s => pre ++ s) ss).
Proof.
  induction ss as [|s t IH]; [reflexivity|].
  simpl. simpl in IH. rewrite IH. reflexivity.
Qed.

Lemma for_each_floats (post : pystr) (qs : list Q) :
  exists r,
    for_each (fun v => x <- py_str float_repr v ;; Ok [x ++ post]) (map PFloat qs)
    = Ok r.
Proof.
  apply for_each_ok, Forall_map, Forall_forall. intros q _. simpl. eauto.
Qed.

(** The lines of an interface as the collector stored it. *)
Lemma iface_lines_info (net_if_stats : list (pystr * snicstats))
  (iface : pystr) (addrs : list snicaddr) :
  iface_lines float_repr (iface, iface_info net_if_stats iface addrs)
  = Ok (shown_lines iface (fst (scan_addrs addrs)) (snd (scan_addrs addrs))
          net_if_stats).
Proof.
  unfold iface_info, shown_lines, iface_lines.
  destruct (scan_addrs addrs) as [ips mac]. cbn [fst snd].
  rewrite !getitem_here. cbn [bind].
  destruct ips as [|ip ips']; [reflexivity|].
  change (truthy (PList (map PStr (ip :: ips')))) with true. cbv iota.
  rewrite (getitem_skip (u "mac")) by reflexivity.
  rewrite !getitem_here. cbn [bind].
  assert ((if truthy (opt_str mac)
           then m <- py_str float_repr (opt_str mac) ;; Ok [u "  MAC: " ++ m]
           else Ok []) = Ok (mac_lines mac)) as ->.
  { destruct mac as [[|c m]|]; reflexivity. }
  cbn [bind slice_to iter]. rewrite firstn_map, for_each_strings.
  cbn [bind].
  rewrite !(getitem_skip (u "stats")) by reflexivity.
  rewrite !getitem_here. cbn [bind].
  assert ((if truthy (PDict (iface_stats iface net_if_stats))
           then is_up <- field2 float_repr
                           (PDict [ (u "ip_addresses", PList (map PStr (ip :: ips')));
                                    (u "mac", opt_str mac);
                                    (u "stats", PDict (iface_stats iface net_if_stats)) ])
                           (u "stats") (u "is_up") ;;
                speed <- field2 float_repr
                           (PDict [ (u "ip_addresses", PList (map PStr (ip :: ips')));
                                    (u "mac", opt_str mac);
                                    (u "stats", PDict (iface_stats iface net_if_stats)) ])
                           (u "stats") (u "speed") ;;
                Ok [u "  Статус: " ++ is_up ++ u ", Скорость: " ++ speed]
           else Ok []) = Ok (status_lines iface net_if_stats)) as ->.
  { unfold field2. rewrite !(getitem_skip (u "stats")) by reflexivity.
    rewrite !getitem_here. cbn [bind].
    unfold iface_stats, status_lines.
    destruct (find _ net_if_stats) as [[k stat]|]; reflexivity. }
  reflexivity.
Qed.


(** *** What the collectors return *)

Lemma platform_shape (h : Host) (v : pyval) :
  _platform h = Ok v ->
  exists ip,
    v = PDict [ (u "system", PStr (platform_system h));
                (u "release", PStr (platform_release h));
                (u "version", PStr (platform_version h));
                (u "host", PStr (gethostname h));
                (u "ip", PStr ip) ].
Proof.
  unfold _platform. intros H.
  destruct (gethostbyname h (gethostname h)) as [ip|]; [|discriminate].
  injection H as <-. eauto.
Qed.

Lemma cpu_shape (h : Host) (v : pyval) :
  _cpu h = Ok v ->
  exists physical logical freq usage per_cpu,
    v = PDict [ (u "physical_cores", opt_int physical);
                (u "logical_cores", opt_int logical);
                (u "freq", PStr freq);
                (u "usage", PFloat usage);
                (u "per_cpu", PList (map PFloat per_cpu)) ].
Proof.
  unfold _cpu. intros H.
  destruct (cpu_freq h); [|discriminate].
  destruct (cpu_count h false); [|discriminate].
  destruct (cpu_count h true); [|discriminate].
  destruct (cpu_percent h); [|discriminate].
  destruct (cpu_percent_percpu h); [|discriminate].
  injection H as <-. do 5 eexists. reflexivity.
Qed.

Lemma memory_shape (h : Host) (v : pyval) :
  _memory h = Ok v ->
  exists total used percent swap,
    v = PDict [ (u "total_ram", PStr total);
                (u "used_ram", PStr used);
                (u "ram_percent", PFloat percent);
                (u "swap", PStr swap) ].
Proof.
  unfold _memory. intros H.
  destruct (virtual_memory h); [|discriminate].
  destruct (swap_memory h); [|discriminate].
  injection H as <-. do 4 eexists. reflexivity.
Qed.

Lemma disks_shape (h : Host) (v : pyval) :
  _disks h = Ok v ->
  exists ps ds, v = PList ds /\ Forall2 (entry_for h) ps ds.
Proof.
  unfold _disks. intros H.
  destruct (disk_partitions h) as [parts|]; [|discriminate]. cbn [bind] in H.
  destruct (disks_loop h parts []) as [ds|] eqn:E; [|discriminate].
  injection H as <-.
  destruct (disks_loop_entries _ _ _ _ E) as (ps & entries & -> & Hall).
  exists ps, entries. split; [reflexivity | exact Hall].
Qed.

Lemma network_shape (h : Host) (v : pyval) :
  _network h = Ok v ->
  exists io ifs stats,
    net_io_counters h = Ok io /\ net_if_addrs h = Ok ifs
    /\ net_if_stats h = Ok stats
    /\ v = PDict [ (u "bytes_sent", PStr (mb (bytes_sent io) ++ u " MB"));
                   (u "bytes_recv", PStr (mb (bytes_recv io) ++ u " MB"));
                   (u "packets_sent", PInt (packets_sent io));
                   (u "packets_recv", PInt (packets_recv io));
                   (u "interfaces", PDict (interfaces_of stats ifs)) ].
Proof.
  unfold _network. intros H.
  destruct (net_io_counters h) as [io|]; [|discriminate].
  destruct (net_if_addrs h) as [ifs|]; [|discriminate].
  destruct (net_if_stats h) as [stats|]; [|discriminate].
  injection H as <-. exists io, ifs, stats. repeat split.
Qed.

Lemma In_firstn {A} (n : nat) (l : list A) (x : A) : In x (firstn n l) -> In x l.
Proof.
  intros H. rewrite <- (firstn_skipn n l). apply in_or_app. now left.
Qed.

Lemma all_images {A B} (f : A -> B) (l : list B) :
  Forall (fun y => exists x, y = f x) l -> exists xs, l = map f xs.
Proof.
  induction 1 as [|y t [x ->] _ [xs ->]]; [now exists []|].
  now exists (x :: xs).
Qed.

Lemma processes_shape (h : Host) (v : pyval) :
  _processes h = Ok v -> exists ps, v = PList (map (entry_of h) ps).
Proof.
  unfold _processes. intros H.
  destruct (procs_loop h (process_iter h) []) as [procs|] eqn:E; [|discriminate].
  cbn [bind] in H.
  destruct (list_sort_reverse sort_key procs) as [sorted|] eqn:Es; [|discriminate].
  cbn [bind] in H.
  assert (v = PList (map PDict (firstn 8 sorted))) as -> by congruence.
  clear H. destruct (procs_loop_entries _ _ _ _ E) as (qs & -> & _).
  apply list_sort_reverse_perm in Es.
  destruct (all_images (entry_dict h) (firstn 8 sorted)) as [ps Hps].
  - apply Forall_forall. intros d Hd.
    apply In_firstn in Hd.
    apply (Permutation_in _ Es) in Hd. apply in_map_iff in Hd.
    destruct Hd as (p & <- & _). now exists p.
  - exists ps. rewrite Hps, map_map. reflexivity.
Qed.

Lemma users_shape (h : Host) (v : pyval) :
  _users h = Ok v ->
  exists us : list (pystr * option pystr * pystr),
    v = PList (map (fun x => PDict [ (u "name", PStr (fst (fst x)));
                                     (u "host", opt_str (snd (fst x)));
                                     (u "started", PStr (snd x)) ]) us).
Proof.
  unfold _users. intros H. destruct (users h) as [us|]; [|discriminate].
  injection H as <-.
  exists (map (fun x => (user_name x, user_host x, strftime_time h (started x))) us).
  rewrite map_map. reflexivity.
Qed.

Lemma boot_shape (h : Host) (v : pyval) : _boot h = Ok v -> exists s, v = PStr s.
Proof.
  unfold _boot. intros H. destruct (boot_time h); [|discriminate].
  injection H as <-. eauto.
Qed.

(** *** The sections of the text report *)

Lemma platform_lines_ok (self : SystemReport) (h : Host) (v : pyval) :
  getitem (info self) (u "platform") = Ok v -> _platform h = Ok v ->
  exists r, platform_lines float_repr self = Ok r.
Proof.
  intros Hget Hv. destruct (platform_shape h v Hv) as [ip ->].
  unfold platform_lines, field2. rewrite Hget. eexists. reflexivity.
Qed.

Lemma cpu_lines_ok (self : SystemReport) (h : Host) (v : pyval) :
  getitem (info self) (u "cpu") = Ok v -> _cpu h = Ok v ->
  exists r, cpu_lines float_repr self = Ok r.
Proof.
  intros Hget Hv.
  destruct (cpu_shape h v Hv) as (physical & logical & freq & usage & per & ->).
  unfold cpu_lines. rewrite Hget. cbn [bind].
  assert (exists x, field float_repr
            (PDict [ (u "physical_cores", opt_int physical);
                     (u "logical_cores", opt_int logical);
                     (u "freq", PStr freq);
                     (u "usage", PFloat usage);
                     (u "per_cpu", PList (map PFloat per)) ])
            (u "physical_cores") = Ok x) as [x1 ->]
    by (destruct physical; eexists; reflexivity).
  assert (exists x, field float_repr
            (PDict [ (u "physical_cores", opt_int physical);
                     (u "logical_cores", opt_int logical);
                     (u "freq", PStr freq);
                     (u "usage", PFloat usage);
                     (u "per_cpu", PList (map PFloat per)) ])
            (u "logical_cores") = Ok x) as [x2 ->]
    by (destruct logical; eexists; reflexivity).
  cbn [bind]. unfold field.
  rewrite !(getitem_skip (u "freq")) by reflexivity. rewrite getitem_here.
  rewrite !(getitem_skip (u "usage")) by reflexivity. rewrite getitem_here.
  rewrite !(getitem_skip (u "per_cpu")) by reflexivity. rewrite getitem_here.
  cbn [bind py_str iter].
  destruct (for_each_floats (u "%") per) as [parts ->].
  eexists. reflexivity.
Qed.

Lemma memory_lines_ok (self : SystemReport) (h : Host) (v : pyval) :
  getitem (info self) (u "memory") = Ok v -> _memory h = Ok v ->
  exists r, memory_lines float_repr self = Ok r.
Proof.
  intros Hget Hv.
  destruct (memory_shape h v Hv) as (total & used & percent & swap & ->).
  unfold memory_lines. rewrite Hget. eexists. reflexivity.
Qed.

Lemma disk_lines_ok (h : Host) (p : partition) (d : pyval) (i : Z) :
  entry_for h p d -> exists r, disk_lines float_repr i d = Ok r.
Proof.
  intros (use & _ & ->). unfold io_extra.
  destruct (disk_io_counters h p) as [counters|];
    [destruct (lookup_io (io_key p) counters)|]; eexists; reflexivity.
Qed.

Lemma disks_lines_ok (self : SystemReport) (h : Host) (v : pyval) :
  getitem (info self) (u "disks") = Ok v -> _disks h = Ok v ->
  exists r, disks_lines float_repr self = Ok r.
Proof.
  intros Hget Hv. destruct (disks_shape h v Hv) as (ps & ds & -> & Hall).
  unfold disks_lines. rewrite Hget. cbn [bind iter].
  destruct (for_enumerate_ok (disk_lines float_repr) ds) with (i := 1)
    as [lines ->].
  - clear Hv Hget. induction Hall as [|p d ps' ds' Hpd _ IH]; constructor.
    + intros i. eapply disk_lines_ok. exact Hpd.
    + exact IH.
  - eexists. reflexivity.
Qed.

Lemma interfaces_values (stats : list (pystr * snicstats))
  (ifs : list (pystr * list snicaddr)) :
  Forall (fun kv : pystr * pyval =>
            exists addrs, snd kv = iface_info stats (fst kv) addrs)
    (interfaces_of stats ifs).
Proof.
  apply (fold_dict_set_Forall fst
           (fun kv => iface_info stats (fst kv) (snd kv))).
  - intros [k addrs] _. now exists addrs.
  - constructor.
Qed.

Lemma network_lines_ok (self : SystemReport) (h : Host) (v : pyval) :
  getitem (info self) (u "network") = Ok v -> _network h = Ok v ->
  (exists r, network_lines float_repr self = Ok r)
  /\ (exists r, interfaces_lines float_repr self = Ok r).
Proof.
  intros Hget Hv.
  destruct (network_shape h v Hv) as (io & ifs & stats & _ & _ & _ & ->).
  split.
  - unfold network_lines. rewrite Hget. eexists. reflexivity.
  - unfold interfaces_lines. rewrite Hget. cbn [bind].
    rewrite !(getitem_skip (u "interfaces")) by reflexivity.
    rewrite getitem_here. cbn [bind items].
    apply for_each_ok.
    eapply Forall_impl; [|apply interfaces_values].
    intros [k x] [addrs Hx]. cbn [fst snd] in Hx. subst x.
    rewrite iface_lines_info. eauto.
Qed.

(** A row is printed when the name and the CPU percentage were read;
    otherwise slicing or formatting [None] raises [TypeError]. *)
Lemma process_line_cases (h : Host) (p : pinfo) (i : Z) :
  process_line float_repr i (entry_of h p)
  = if attributes_read p then Ok [process_row i p] else Raise TypeError.
Proof.
  unfold entry_of, entry_dict, proc_info, attributes_read, process_row.
  destruct (memory_info_rss h (pid p)), (proc_name p), (cpu_percent_of p);
    reflexivity.
Qed.

Lemma process_rows (h : Host) (ps : list pinfo) (i : Z) :
  for_enumerate (process_line float_repr) i (map (entry_of h) ps)
  = if forallb attributes_read ps then Ok (rows_from i ps) else Raise TypeError.
Proof.
  revert i. induction ps as [|p rest IH]; intros i; [reflexivity|].
  cbn [map for_enumerate rows_from forallb]. rewrite process_line_cases.
  destruct (attributes_read p); [|reflexivity].
  cbn [bind andb]. rewrite IH.
  destruct (forallb attributes_read rest); reflexivity.
Qed.

Lemma processes_lines_cases (self : SystemReport) (h : Host) (ps : list pinfo) :
  getitem (info self) (u "processes") = Ok (PList (map (entry_of h) ps)) ->
  processes_lines float_repr self
  = if forallb attributes_read ps
    then Ok ([nl ++ u "ТОП-8 ПРОЦЕССОВ:"; rule_dash] ++ rows_from 1 ps)
    else Raise TypeError.
Proof.
  intros Hget. unfold processes_lines. rewrite Hget. cbn [bind iter].
  rewrite process_rows. destruct (forallb attributes_read ps); reflexivity.
Qed.

Lemma users_lines_ok (self : SystemReport) (h : Host) (v : pyval) :
  getitem (info self) (u "users") = Ok v -> _users h = Ok v ->
  exists r, users_lines float_repr self = Ok r.
Proof.
  intros Hget Hv. destruct (users_shape h v Hv) as (us & ->).
  unfold users_lines. rewrite Hget. cbn [bind].
  destruct (truthy _); [|eauto]. cbn [iter bind].
  match goal with
  | |- exists r, bind (for_each ?body ?l) _ = Ok r =>
      destruct (for_each_ok body l) as [lines ->]
  end.
  - apply Forall_map, Forall_forall. intros [[name host] started] _.
    destruct host; eexists; reflexivity.
  - eexists. reflexivity.
Qed.

Lemma closing_lines_ok (self : SystemReport) (h : Host) (v : pyval) :
  getitem (info self) (u "boot") = Ok v -> _boot h = Ok v ->
  exists r, closing_lines float_repr self = Ok r.
Proof.
  intros Hget Hv. destruct (boot_shape h v Hv) as (s & ->).
  unfold closing_lines, field. rewrite Hget. eexists. reflexivity.
Qed.

End Text.

End TextFacts.
Import TextFacts.

(** ** Characters of the structured document *)

Module DocumentFacts.

Lemma printable_document (s : pystr) : Forall printable s -> Forall document_char s.
Proof. apply Forall_impl. intros c H. now right. Qed.

Lemma uint_chars_printable (d : Decimal.uint) : Forall printable (uint_chars d).
Proof.
  unfold printable. induction d; simpl; constructor; (lia || assumption).
Qed.

Lemma repr_int_printable (z : Z) : Forall printable (repr_int z).
Proof.
  unfold repr_int, dec_N. destruct (z <? 0).
  - constructor; [unfold printable; lia | apply uint_chars_printable].
  - apply uint_chars_printable.
Qed.

Lemma hex_digit_printable (d : N) : (d < 16)%N -> printable (hex_digit d).
Proof. unfold hex_digit, printable. destruct (N.ltb_spec d 10); lia. Qed.

Lemma hex4_printable (n : N) : Forall printable (hex4 n).
Proof.
  unfold hex4.
  repeat constructor; apply hex_digit_printable, N.mod_upper_bound; discriminate.
Qed.

Lemma escape_char_printable (c : N) : Forall printable (escape_char c).
Proof.
  unfold escape_char, backslash, dquote.
  repeat match goal with
         | |- context [if ?b then _ else _] => destruct b eqn:?
         end;
    try (repeat constructor; unfold printable; lia).
  - apply andb_true_iff in Heqb1. destruct Heqb1 as [H1 H2].
    apply N.leb_le in H1, H2. repeat constructor; unfold printable; lia.
  - constructor; [unfold printable; lia|].
    constructor; [unfold printable; lia|]. apply hex4_printable.
  - apply Forall_app. split;
      (constructor; [unfold printable; lia|];
       constructor; [unfold printable; lia|]; apply hex4_printable).
Qed.

(** A string is written on one line, in printable ASCII. *)
Lemma encode_basestring_printable (s : pystr) :
  Forall printable (encode_basestring_ascii s).
Proof.
  unfold encode_basestring_ascii, dquote.
  constructor; [unfold printable; lia|].
  apply Forall_app. split; [|repeat constructor; unfold printable; lia].
  induction s as [|c t IH]; simpl; [constructor|].
  apply Forall_app. split; [apply escape_char_printable | exact IH].
Qed.

Lemma newline_indent_document (level : nat) : Forall document_char (newline_indent level).
Proof.
  constructor; [now left|]. apply Forall_forall. intros c Hc.
  apply repeat_spec in Hc. subst. right. unfold printable. lia.
Qed.

Lemma join_document (sep : pystr) (parts : list pystr) :
  Forall document_char sep -> Forall (Forall document_char) parts ->
  Forall document_char (join sep parts).
Proof.
  intros Hsep. induction 1 as [|x rest Hx Hrest IH]; [constructor|].
  destruct rest; simpl; [assumption|].
  apply Forall_app. split; [assumption|]. apply Forall_app. split; assumption.
Qed.

Lemma wrap_document (opening closing : N) (level : nat) (parts : list pystr) :
  printable opening -> printable closing ->
  Forall (Forall document_char) parts ->
  Forall document_char (wrap opening closing level parts).
Proof.
  intros Ho Hc Hparts. unfold wrap.
  destruct parts as [|p rest].
  { constructor; [now right|]. constructor; [now right | constructor]. }
  constructor; [now right|].
  apply Forall_app. split; [apply newline_indent_document|].
  apply Forall_app. split.
  - apply join_document; [|assumption].
    constructor; [right; unfold printable; lia | apply newline_indent_document].
  - apply Forall_app. split; [apply newline_indent_document|].
    constructor; [now right | constructor].
Qed.

Lemma repr_dyadic_printable (q : Q) : Forall printable (repr_dyadic q).
Proof.
  unfold repr_dyadic. cbv zeta.
  apply Forall_app. split.
  { destruct (Qnum q <? 0); repeat constructor; unfold printable; lia. }
  apply Forall_app. split; [apply uint_chars_printable|].
  constructor; [unfold printable; lia|].
  match goal with
  | |- Forall _ (match ?f with _ => _ end) =>
      assert (Forall printable f) as Hf;
        [|destruct f; [repeat constructor; unfold printable; lia | exact Hf]]
  end.
  unfold strip_zeros. apply Forall_rev.
  assert (forall l, Forall printable l -> Forall printable (drop_zeros l)) as Hdrop.
  { induction 1 as [|x t Hx Ht IH]; [constructor|].
    simpl. destruct (x =? 48)%N; [exact IH | now constructor]. }
  apply Hdrop, Forall_rev. unfold zero_pad.
  apply Forall_app. split; [|apply uint_chars_printable].
  apply Forall_forall. intros c Hc. apply repeat_spec in Hc. subst.
  unfold printable. lia.
Qed.

End DocumentFacts.
Import DocumentFacts.

(** ** Indentation of the structured document *)

Module IndentFacts.










Section Encode.
Variable float_repr : Q -> pystr.



End Encode.

End IndentFacts.
Import IndentFacts.

(** * The claims *)




(** C2, as stated, fails: on a host whose name does not resolve the
    platform collector produces no sub-record at all. Nothing catches the
    resolver's exception and no placeholder is written. *)
Lemma platform_unresolved_raises :
  gethostbyname unresolved_host (gethostname unresolved_host) = Raise GaiError
  /\ _platform unresolved_host = Raise GaiError
  /\ ~ exists record, _platform unresolved_host = Ok record.
Proof.
  repeat split. intros [record H]. discriminate H.
Qed.

(** C2, amended: when the host name resolves to [ip], the platform
    collector returns a sub-record holding the OS name, release, version,
    host name and [ip]; when the resolution raises, the collector raises
    the same exception and returns no sub-record. *)
Theorem platform_record_or_raise (h : Host) :
  match gethostbyname h (gethostname h) with
  | Ok ip =>
      exists record,
        _platform h = Ok record
        /\ getitem record (u "system") = Ok (PStr (platform_system h))
        /\ getitem record (u "release") = Ok (PStr (platform_release h))
        /\ getitem record (u "version") = Ok (PStr (platform_version h))
        /\ getitem record (u "host") = Ok (PStr (gethostname h))
        /\ getitem record (u "ip") = Ok (PStr ip)
  | Raise e => _platform h = Raise e
  end.
Proof.
  unfold _platform.
  destruct (gethostbyname h (gethostname h)) as [ip|e]; simpl.
  - eexists. repeat split.
  - reflexivity.
Qed.

(** C3: when every failed detail read is a [NoSuchProcess] or an
    [AccessDenied], [_processes] returns the entries of the first 8
    processes of a ranking of the candidates (the processes whose detail
    read succeeded): the returned list has [min 8 (number of candidates)]
    entries, the ranking is a permutation of the candidates ordered by
    memory percentage, largest first, and processes with equal percentage
    keep their enumeration order. A process whose detail read failed has
    no entry. *)
Theorem processes_top8_stable (h : Host) :
  process_failures_guarded h = true ->
  exists ranked : list pinfo,
    _processes h = Ok (PList (map (entry_of h) (firstn 8 ranked)))
    /\ List.length (firstn 8 ranked) = Nat.min 8 (List.length (candidates h))
    /\ Permutation ranked (candidates h)
    /\ StronglySorted (fun a b => memory_percent b <= memory_percent a)%Q ranked
    /\ (forall q : Q,
          filter (fun p => Qeq_bool (memory_percent p) q) ranked
          = filter (fun p => Qeq_bool (memory_percent p) q) (candidates h))
    /\ Forall (fun p => detail_read_ok h p = true) ranked.
Proof.
  intros Hguard. exists (ranked_by memory_percent (candidates h)).
  pose proof (ranked_by_perm memory_percent (candidates h)) as Hperm.
  repeat split.
  - apply processes_ranked, Hguard.
  - rewrite length_firstn. now rewrite (Permutation_length Hperm).
  - exact Hperm.
  - apply ranked_by_sorted.
  - intros q. apply ranked_by_stable.
  - eapply Permutation_Forall; [symmetry; exact Hperm|].
    apply Forall_forall. intros p Hp.
    unfold candidates in Hp. apply filter_In in Hp. tauto.
Qed.

Lemma processes_top8_stable_witness :
  process_failures_guarded demo_host = true
  /\ exists ranked : list pinfo,
       _processes demo_host = Ok (PList (map (entry_of demo_host) (firstn 8 ranked)))
       /\ List.length (firstn 8 ranked) = Nat.min 8 (List.length (candidates demo_host))
       /\ Permutation ranked (candidates demo_host)
       /\ StronglySorted (fun a b => memory_percent b <= memory_percent a)%Q ranked
       /\ (forall q : Q,
             filter (fun p => Qeq_bool (memory_percent p) q) ranked
             = filter (fun p => Qeq_bool (memory_percent p) q) (candidates demo_host))
       /\ Forall (fun p => detail_read_ok demo_host p = true) ranked.
Proof.
  split; [reflexivity | apply (processes_top8_stable demo_host); reflexivity].
Defined.

(** C4: when every failed usage query is an [OSError] (which includes
    [PermissionError]), [_disks] returns one entry for each partition
    whose usage query succeeded, in enumeration order, and nothing else:
    a partition that could not be statted leaves no entry, and the
    others are still collected. Each entry holds the seven base fields
    whatever the per-disk counter query did; a failed counter query only
    leaves the optional counter fields out. *)
Theorem disks_skip_unreadable (h : Host) (parts : list partition) :
  disk_partitions h = Ok parts ->
  disk_failures_guarded h parts = true ->
  exists disks,
    _disks h = Ok (PList disks)
    /\ Forall2 (entry_for h) (filter (usage_ok h) parts) disks
    /\ List.length disks = List.length (filter (usage_ok h) parts)
    /\ (forall p, returns (disk_io_counters h p) = false -> io_extra h p = []).
Proof.
  intros Hparts Hguard.
  destruct (disks_guarded h parts Hparts Hguard) as (disks & Hdisks & Hall).
  exists disks. repeat split.
  - exact Hdisks.
  - exact Hall.
  - symmetry. eapply Forall2_length. exact Hall.
  - intros p Hp. unfold io_extra.
    destruct (disk_io_counters h p); [discriminate | reflexivity].
Qed.

Lemma disks_skip_unreadable_witness :
  exists parts,
    disk_partitions demo_host = Ok parts
    /\ disk_failures_guarded demo_host parts = true
    /\ List.length (filter (usage_ok demo_host) parts) = 2%nat
    /\ exists disks,
         _disks demo_host = Ok (PList disks)
         /\ Forall2 (entry_for demo_host) (filter (usage_ok demo_host) parts) disks
         /\ List.length disks = List.length (filter (usage_ok demo_host) parts)
         /\ (forall p, returns (disk_io_counters demo_host p) = false
                       -> io_extra demo_host p = []).
Proof.
  eexists. split; [reflexivity|]. split; [reflexivity|]. split; [reflexivity|].
  apply disks_skip_unreadable; reflexivity.
Defined.

(** Assigning to a key keeps the keys there were and adds that key. *)
Lemma dict_set_keys (k k' : pystr) (v : pyval) (d : dict) :
  k' = k \/ In k' (map fst d) -> In k' (map fst (dict_set k v d)).
Proof.
  induction d as [|[k0 v0] rest IH]; simpl.
  - intros [->|[]]. now left.
  - destruct (Str.eqb k k0) eqn:E; simpl.
    + apply eqb_eq in E. subst k0. intros [->|[->|H]]; tauto.
    + intros [->|[->|H]]; [right; apply IH; now left | now left |].
      right. apply IH. now right.
Qed.

(** Every chip the platform enumerates gets a group. *)
Lemma sensors_keys (temps : list (pystr * list shwtemp)) (acc : dict) :
  forall name,
    In name (map fst temps) \/ In name (map fst acc) ->
    In name
      (map fst
         (fold_left
            (fun sensors kv =>
               dict_set (fst kv) (PList (map reading (firstn 2 (snd kv))))
                 sensors)
            temps acc)).
Proof.
  revert acc. induction temps as [|[chip entries] rest IH]; intros acc name.
  - simpl. intros [[]|H]. exact H.
  - cbn [map fst fold_left]. intros [[<-|H]|H]; apply IH.
    + right. apply dict_set_keys. now left.
    + now left.
    + right. apply dict_set_keys. now right.
Qed.

(** Every group the sensors collector stores is the first two readings of
    a chip the platform enumerated. *)
Lemma sensors_groups (temps : list (pystr * list shwtemp)) :
  Forall (fun kv : pystr * pyval =>
            exists entries, In (fst kv, entries) temps
                            /\ snd kv = PList (map reading (firstn 2 entries)))
    (fold_left
       (fun sensors kv =>
          dict_set (fst kv) (PList (map reading (firstn 2 (snd kv)))) sensors)
       temps []).
Proof.
  apply (fold_dict_set_Forall fst
           (fun kv => PList (map reading (firstn 2 (snd kv))))).
  - intros [name entries] Hin. exists entries. split; [exact Hin | reflexivity].
  - constructor.
Qed.

(** C8: where psutil has no [sensors_temperatures] (the lookup raises
    [AttributeError]) the sensors collector returns the indicator
    [{"info": "N/A"}], which is not the empty mapping and differs from
    what the collector returns on any host that has the query, in
    particular on one that reports zero sensors (the empty mapping). On a
    host that has the query, the collector returns one group for every
    chip the platform enumerates, in enumeration order, and the group of
    a chip holds the current temperatures of its first two readings, in
    their order, so at most 2. *)
Theorem sensors_not_applicable_is_distinct (h_without h_with : Host)
  (temps : list (pystr * list shwtemp)) :
  sensors_temperatures h_without = Raise AttributeError ->
  sensors_temperatures h_with = Ok temps ->
  _sensors h_without = Ok not_applicable
  /\ not_applicable <> PDict []
  /\ _sensors h_with <> _sensors h_without
  /\ (temps = [] -> _sensors h_with = Ok (PDict []))
  /\ (exists groups,
        _sensors h_with = Ok (PDict groups)
        /\ (forall name group, In (name, group) groups ->
              exists entries,
                In (name, entries) temps
                /\ group = PList (map reading (firstn 2 entries))
                /\ (List.length (firstn 2 entries) <= 2)%nat)
        /\ (forall name, In name (map fst temps) -> In name (map fst groups)))
  /\ (NoDup (map fst temps) ->
      _sensors h_with
      = Ok (PDict (map (fun kv => (fst kv,
                                   PList (map reading (firstn 2 (snd kv)))))
                     temps))).
Proof.
  intros Hnone Hsome.
  assert (_sensors h_without = Ok not_applicable) as E1.
  { unfold _sensors. now rewrite Hnone. }
  assert (_sensors h_with
          = Ok (PDict (fold_left
                         (fun sensors kv =>
                            dict_set (fst kv)
                              (PList (map reading (firstn 2 (snd kv)))) sensors)
                         temps []))) as E2.
  { unfold _sensors. now rewrite Hsome. }
  pose proof (sensors_groups temps) as Hgroups.
  pose proof (sensors_keys temps []) as Hkeys.
  assert (NoDup (map fst temps) ->
          fold_left
            (fun sensors kv =>
               dict_set (fst kv) (PList (map reading (firstn 2 (snd kv))))
                 sensors)
            temps []
          = map (fun kv => (fst kv, PList (map reading (firstn 2 (snd kv)))))
              temps) as Hline.
  { intros Hnd.
    apply (fold_dict_set_NoDup fst
             (fun kv => PList (map reading (firstn 2 (snd kv)))) temps []).
    exact Hnd. }
  match type of E2 with
  | _ = Ok (PDict ?d) => remember d as groups eqn:Eg in E2, Hgroups, Hkeys, Hline
  end.
  clear Eg.
  split; [exact E1|]. split; [discriminate|]. split; [|split; [|split]].
  - rewrite E1, E2. intros C. injection C as Hd. subst groups.
    inversion Hgroups as [|? ? Hinfo _]; subst.
    destruct Hinfo as (entries & _ & Hv). discriminate Hv.
  - intros ->. unfold _sensors. now rewrite Hsome.
  - eexists. split; [exact E2|]. split.
    + intros name group Hin. rewrite Forall_forall in Hgroups.
      destruct (Hgroups _ Hin) as (entries & Hentries & Hv).
      exists entries.
      split; [exact Hentries|]. split; [exact Hv | apply firstn_le_length].
    + intros name Hin. apply Hkeys. now left.
  - intros Hnd. rewrite E2, (Hline Hnd). reflexivity.
Qed.

Lemma sensors_not_applicable_is_distinct_witness :
  sensors_temperatures demo_host = Raise AttributeError
  /\ sensors_temperatures sensors_host
     = Ok [(u "coretemp", [ {| temp_current := 45 # 1 |};
                            {| temp_current := 47 # 1 |};
                            {| temp_current := 99 # 2 |} ])]
  /\ _sensors demo_host = Ok not_applicable
  /\ _sensors sensors_host <> _sensors demo_host
  /\ _sensors sensors_host
     = Ok (PDict [(u "coretemp",
                   PList [ reading {| temp_current := 45 # 1 |};
                           reading {| temp_current := 47 # 1 |} ])]).
Proof.
  split; [reflexivity|]. split; [reflexivity|].
  destruct (sensors_not_applicable_is_distinct demo_host sensors_host
              [(u "coretemp", [ {| temp_current := 45 # 1 |};
                                {| temp_current := 47 # 1 |};
                                {| temp_current := 99 # 2 |} ])]
              eq_refl eq_refl)
    as (H1 & _ & H3 & _ & _ & H6).
  split; [exact H1|]. split; [exact H3|].
  apply H6. constructor; [intros [] | constructor].
Defined.

(** A host that has the query and reports no sensor returns the empty
    mapping, which is not the indicator. *)
Example no_sensors_is_empty_mapping :
  _sensors no_sensors_host = Ok (PDict [])
  /\ _sensors no_sensors_host <> _sensors demo_host.
Proof. split; [reflexivity | discriminate]. Qed.

Example sensors_keep_first_two :
  _sensors sensors_host
  = Ok (PDict [(u "coretemp", PList [ PDict [(u "current", PFloat (45 # 1))];
                                     PDict [(u "current", PFloat (47 # 1))] ])]).
Proof. reflexivity. Qed.

(** C9, as stated, fails: the timestamp is read by the constructor, not by
    [collect]. Two runs of [collect] on the same object, made at different
    clock readings, carry the same timestamp, the one of the
    construction. *)
Lemma second_collect_keeps_first_timestamp :
  let self0 := __init__ demo_host (u "text") in
  let self1 := collected self0 demo_host in
  let self2 := collected self1 later_host in
  returns (fst (run_collect self0 demo_host)) = true
  /\ returns (fst (run_collect self1 later_host)) = true
  /\ ~ (clock demo_host == clock later_host)%Q
  /\ strftime_datetime later_host (clock later_host)
     <> strftime_datetime demo_host (clock demo_host)
  /\ getitem (info self1) (u "time") = getitem (info self2) (u "time")
  /\ getitem (info self2) (u "time")
     = Ok (PStr (strftime_datetime demo_host (clock demo_host))).
Proof.
  cbv zeta. repeat split; try reflexivity.
  - intros C. vm_compute in C. discriminate C.
  - intros C. vm_compute in C. discriminate C.
Qed.

(** C9, amended: a run of [collect] that returns has called each of the
    nine collectors exactly once, and the snapshot's timestamp is the one
    the object already held, which the constructor read from the clock;
    [collect] leaves it unchanged, so later runs on the same object carry
    the same timestamp. *)
Theorem collect_calls_once_and_keeps_time (self self' : SystemReport)
  (h : Host) (snap : pyval) :
  fst (run_collect self h) = Ok (self', snap) ->
  (forall c, count_occ collector_eq_dec (snd (run_collect self h)) c = 1%nat)
  /\ getitem snap (u "time") = Ok (PStr (time self))
  /\ time self' = time self
  /\ (forall h0 fmt0, time (__init__ h0 fmt0) = strftime_datetime h0 (clock h0)).
Proof.
  intros Hrun.
  destruct (run_collect_inv _ _ _ _ Hrun)
    as (v1 & v2 & v3 & v4 & v5 & v6 & v7 & v8 & v9 & _ & _ & _ & _ & _ & _
        & _ & _ & _ & -> & -> & Hlog).
  repeat split.
  intros c. rewrite Hlog. destruct c; reflexivity.
Qed.

Lemma collect_calls_once_and_keeps_time_witness :
  let self0 := __init__ demo_host (u "text") in
  fst (run_collect self0 later_host) = Ok (collected self0 later_host,
                                          info (collected self0 later_host))
  /\ (forall c, count_occ collector_eq_dec (snd (run_collect self0 later_host)) c
                = 1%nat)
  /\ getitem (info (collected self0 later_host)) (u "time")
     = Ok (PStr (time self0))
  /\ time (collected self0 later_host) = time self0
  /\ (forall h0 fmt0, time (__init__ h0 fmt0) = strftime_datetime h0 (clock h0)).
Proof.
  cbv zeta. split; [reflexivity|].
  apply (collect_calls_once_and_keeps_time
           (__init__ demo_host (u "text")) _ later_host).
  reflexivity.
Defined.

(** C7, as stated, fails: the memory collector itself formats the RAM
    total to one decimal place and stores the text. 16 777 216 000 bytes
    are exactly 15.625 GB; the sub-record holds "15.6 GB", and a host
    with one byte more yields the same sub-record. *)
Lemma memory_model_holds_rounded_text :
  bind (virtual_memory demo_host) (fun v => Ok (vm_total v)) = Ok 16777216000
  /\ bind (virtual_memory bigger_host) (fun v => Ok (vm_total v)) = Ok 16777216001
  /\ (div_pow1024 16777216000 3 == 125 # 8)%Q
  /\ bind (_memory demo_host) (fun m => getitem m (u "total_ram"))
     = Ok (PStr (u "15.6 GB"))
  /\ _memory demo_host = _memory bigger_host.
Proof. repeat split; vm_compute; reflexivity. Qed.

(** The byte counts of the memory, disk and network sub-records as text. *)
Module UnitFacts.

Lemma memory_text (h : Host) (vmem : svmem) (swap : sswap) :
  virtual_memory h = Ok vmem ->
  swap_memory h = Ok swap ->
  exact_count (vm_total vmem) -> exact_count (vm_used vmem) ->
  exact_count (sw_used swap) -> exact_count (sw_total swap) ->
  _memory h
  = Ok (PDict
          [ (u "total_ram",
              PStr (one_decimal (tenths (vm_total vmem) 3) ++ u " GB"));
            (u "used_ram",
              PStr (one_decimal (tenths (vm_used vmem) 3) ++ u " GB"));
            (u "ram_percent", PFloat (vm_percent vmem));
            (u "swap",
              PStr (one_decimal (tenths (sw_used swap) 3) ++ u "/"
                      ++ one_decimal (tenths (sw_total swap) 3) ++ u " GB")) ]).
Proof.
  intros Hv Hs H1 H2 H3 H4. unfold _memory. rewrite Hv, Hs. cbn [bind].
  rewrite !gb_text by assumption. reflexivity.
Qed.

Lemma disk_text (h : Host) (p : partition) (use : sdiskusage) :
  usage_exact use ->
  (forall c, counters_of h p = Some c -> counters_exact c) ->
  PDict (disk_base p use ++ io_extra h p)
  = disk_text_entry p use (counters_of h p).
Proof.
  intros (H1 & H2 & H3) Hio.
  unfold disk_text_entry, disk_base, io_extra, counters_of in *.
  rewrite !gb_text by assumption.
  destruct (disk_io_counters h p) as [counters|e]; [|reflexivity].
  destruct (lookup_io (io_key p) counters) as [c|]; [|reflexivity].
  destruct (Hio c eq_refl) as [Hr Hw].
  rewrite !mb_text by assumption. reflexivity.
Qed.

Lemma disks_text (h : Host) (parts : list partition) :
  disk_partitions h = Ok parts ->
  disk_failures_guarded h parts = true ->
  (forall p use, In p parts -> disk_usage h (mountpoint p) = Ok use ->
                 usage_exact use) ->
  (forall p c, In p parts -> counters_of h p = Some c -> counters_exact c) ->
  exists disks,
    _disks h = Ok (PList disks)
    /\ Forall2 (fun p d =>
                  exists use, disk_usage h (mountpoint p) = Ok use
                              /\ d = disk_text_entry p use (counters_of h p))
         (filter (usage_ok h) parts) disks.
Proof.
  intros Hparts Hguard Huse Hio.
  destruct (disks_guarded h parts Hparts Hguard) as (disks & Hdisks & Hall).
  exists disks. split; [exact Hdisks|].
  assert (Forall (fun p => In p parts) (filter (usage_ok h) parts)) as Hin.
  { apply Forall_forall. intros p Hp. apply filter_In in Hp. tauto. }
  clear Hdisks Hparts Hguard.
  induction Hall as [|p d ps ds (use & Hu & ->) _ IH]; [constructor|].
  inversion Hin as [|? ? Hp Hps]; subst.
  constructor; [|exact (IH Hps)].
  exists use. split; [exact Hu|].
  apply disk_text; [exact (Huse p use Hp Hu) | intros c; exact (Hio p c Hp)].
Qed.

Lemma network_text (h : Host) (io : snetio)
  (ifs : list (pystr * list snicaddr)) (stats : list (pystr * snicstats)) :
  net_io_counters h = Ok io ->
  net_if_addrs h = Ok ifs ->
  net_if_stats h = Ok stats ->
  exact_count (bytes_sent io) -> exact_count (bytes_recv io) ->
  exists record,
    _network h = Ok record
    /\ getitem record (u "bytes_sent")
       = Ok (PStr (one_decimal (tenths (bytes_sent io) 2) ++ u " MB"))
    /\ getitem record (u "bytes_recv")
       = Ok (PStr (one_decimal (tenths (bytes_recv io) 2) ++ u " MB")).
Proof.
  intros Hio Hifs Hstats Hs Hr. unfold _network.
  rewrite Hio, Hifs, Hstats. cbn [bind].
  rewrite !mb_text by assumption.
  eexists. split; [reflexivity|]. split.
  - apply getitem_here.
  - rewrite getitem_skip by reflexivity. apply getitem_here.
Qed.

Lemma processes_numeric (h : Host) :
  process_failures_guarded h = true ->
  (forall p rss, In p (process_iter h) -> memory_info_rss h (pid p) = Ok rss ->
                 exact_count rss) ->
  exists procs,
    _processes h = Ok (PList procs) /\ Forall (numeric_entry h) procs.
Proof.
  intros Hguard Hexact. rewrite (processes_ranked h Hguard).
  eexists. split; [reflexivity|].
  apply Forall_map, Forall_forall. intros p Hp.
  apply In_firstn in Hp.
  apply (Permutation_in _ (ranked_by_perm memory_percent (candidates h))) in Hp.
  apply filter_In in Hp. destruct Hp as [Hin Hok].
  unfold detail_read_ok in Hok.
  destruct (memory_info_rss h (pid p)) as [rss|e] eqn:E; [|discriminate].
  exists p, rss. split; [exact Hin|]. split; [exact E|].
  unfold entry_of, entry_dict, proc_info. rewrite E. cbn [app].
  unfold div_pow1024. rewrite (to_double_exact rss (Hexact p rss Hin E)).
  split.
  - rewrite !(getitem_skip (u "memory_mb")) by reflexivity. apply getitem_here.
  - rewrite !(getitem_skip (u "memory_percent")) by reflexivity.
    apply getitem_here.
Qed.

End UnitFacts.
Import UnitFacts.

(** C7, amended: the collectors convert byte counts with binary units
    (1 GB = 1024^3 bytes, 1 MB = 1024^2 bytes) and fix them to one
    decimal place themselves. For byte counts below 2^53: the memory
    sub-record holds the RAM total, the RAM in use and the swap figures,
    every disk entry its total, used and free sizes and its counters,
    and the network sub-record its two byte totals, each as the text of
    the nearest tenth followed by the unit, not as a number. The
    percentages and the resident size of a process, in units of 1024^2
    bytes, are stored as numbers. *)
Theorem memory_fixed_to_one_decimal_by_collector (h : Host) (vmem : svmem)
  (swap : sswap) :
  virtual_memory h = Ok vmem ->
  swap_memory h = Ok swap ->
  exact_count (vm_total vmem) -> exact_count (vm_used vmem) ->
  exact_count (sw_used swap) -> exact_count (sw_total swap) ->
  _memory h
  = Ok (PDict
          [ (u "total_ram",
              PStr (one_decimal (tenths (vm_total vmem) 3) ++ u " GB"));
            (u "used_ram",
              PStr (one_decimal (tenths (vm_used vmem) 3) ++ u " GB"));
            (u "ram_percent", PFloat (vm_percent vmem));
            (u "swap",
              PStr (one_decimal (tenths (sw_used swap) 3) ++ u "/"
                      ++ one_decimal (tenths (sw_total swap) 3) ++ u " GB")) ])
  /\ (forall parts,
        disk_partitions h = Ok parts ->
        disk_failures_guarded h parts = true ->
        (forall p use, In p parts -> disk_usage h (mountpoint p) = Ok use ->
                       usage_exact use) ->
        (forall p c, In p parts -> counters_of h p = Some c ->
                     counters_exact c) ->
        exists disks,
          _disks h = Ok (PList disks)
          /\ Forall2 (fun p d =>
                        exists use,
                          disk_usage h (mountpoint p) = Ok use
                          /\ d = disk_text_entry p use (counters_of h p))
               (filter (usage_ok h) parts) disks)
  /\ (forall io ifs stats,
        net_io_counters h = Ok io ->
        net_if_addrs h = Ok ifs ->
        net_if_stats h = Ok stats ->
        exact_count (bytes_sent io) -> exact_count (bytes_recv io) ->
        exists record,
          _network h = Ok record
          /\ getitem record (u "bytes_sent")
             = Ok (PStr (one_decimal (tenths (bytes_sent io) 2) ++ u " MB"))
          /\ getitem record (u "bytes_recv")
             = Ok (PStr (one_decimal (tenths (bytes_recv io) 2) ++ u " MB")))
  /\ (process_failures_guarded h = true ->
      (forall p rss, In p (process_iter h) ->
                     memory_info_rss h (pid p) = Ok rss -> exact_count rss) ->
      exists procs,
        _processes h = Ok (PList procs) /\ Forall (numeric_entry h) procs)
  /\ (forall n k,
        2 * Z.abs (10 * n - tenths n k * 1024 ^ Z.of_nat k)
        <= 1024 ^ Z.of_nat k)
  /\ (forall n k t,
        2 * Z.abs (10 * n - t * 1024 ^ Z.of_nat k) < 1024 ^ Z.of_nat k ->
        t = tenths n k).
Proof.
  intros Hv Hs H1 H2 H3 H4.
  split; [exact (memory_text h vmem swap Hv Hs H1 H2 H3 H4)|].
  split; [exact (disks_text h)|].
  split; [exact (network_text h)|].
  split; [exact (processes_numeric h)|].
  split; [exact tenths_nearest | exact tenths_unique].
Qed.

Lemma sample_counts_exact :
  (forall p use, In p [ {| device := u "/dev/sda1"; mountpoint := u "/";
                           fstype := u "ext4" |};
                        {| device := u "/dev/sdb1"; mountpoint := u "/mnt";
                           fstype := u "ext4" |};
                        {| device := u "sdc"; mountpoint := u "/data";
                           fstype := u "xfs" |} ] ->
                 disk_usage demo_host (mountpoint p) = Ok use ->
                 usage_exact use)
  /\ (forall p c, In p [ {| device := u "/dev/sda1"; mountpoint := u "/";
                            fstype := u "ext4" |};
                         {| device := u "/dev/sdb1"; mountpoint := u "/mnt";
                            fstype := u "ext4" |};
                         {| device := u "sdc"; mountpoint := u "/data";
                            fstype := u "xfs" |} ] ->
                  counters_of demo_host p = Some c -> counters_exact c)
  /\ (forall p rss, In p (process_iter demo_host) ->
                    memory_info_rss demo_host (pid p) = Ok rss ->
                    exact_count rss).
Proof.
  split; [|split].
  - intros p use [<-|[<-|[<-|[]]]] E; vm_compute in E;
      try discriminate E; injection E as <-;
      unfold usage_exact, exact_count; cbn; lia.
  - intros p c [<-|[<-|[<-|[]]]] E; vm_compute in E;
      try discriminate E; injection E as <-;
      unfold counters_exact, exact_count; cbn; lia.
  - intros p rss [<-|[<-|[<-|[<-|[]]]]] E; vm_compute in E;
      try discriminate E; injection E as <-;
      unfold exact_count; lia.
Defined.

Lemma memory_fixed_to_one_decimal_by_collector_witness :
  tenths 16777216000 3 = 156
  /\ _memory demo_host
     = Ok (PDict [ (u "total_ram", PStr (u "15.6 GB"));
                   (u "used_ram", PStr (u "0.2 GB"));
                   (u "ram_percent", PFloat (3 # 2));
                   (u "swap", PStr (u "0.0/2.0 GB")) ])
  /\ (exists disks,
        _disks demo_host = Ok (PList disks)
        /\ Forall2 (fun p d =>
                      exists use,
                        disk_usage demo_host (mountpoint p) = Ok use
                        /\ d = disk_text_entry p use (counters_of demo_host p))
             [ {| device := u "/dev/sda1"; mountpoint := u "/";
                  fstype := u "ext4" |};
               {| device := u "sdc"; mountpoint := u "/data";
                  fstype := u "xfs" |} ]
             disks)
  /\ (exists record,
        _network demo_host = Ok record
        /\ getitem record (u "bytes_sent") = Ok (PStr (u "1.0 MB"))
        /\ getitem record (u "bytes_recv") = Ok (PStr (u "3.0 MB")))
  /\ (exists procs,
        _processes demo_host = Ok (PList procs)
        /\ Forall (numeric_entry demo_host) procs).
Proof.
  split; [reflexivity|].
  destruct (memory_fixed_to_one_decimal_by_collector demo_host
              {| vm_total := 16777216000; vm_used := 268435456;
                 vm_percent := 3 # 2 |}
              {| sw_used := 0; sw_total := 2147483648 |}
              eq_refl eq_refl
              ltac:(unfold exact_count; cbn; lia)
              ltac:(unfold exact_count; cbn; lia)
              ltac:(unfold exact_count; cbn; lia)
              ltac:(unfold exact_count; cbn; lia))
    as (Hmem & Hdisks & Hnet & Hprocs & _).
  destruct sample_counts_exact as (Huse & Hio & Hrss).
  split; [exact Hmem|]. split; [|split].
  - exact (Hdisks _ eq_refl eq_refl Huse Hio).
  - exact (Hnet _ _ _ eq_refl eq_refl eq_refl
             ltac:(unfold exact_count; cbn; lia)
             ltac:(unfold exact_count; cbn; lia)).
  - exact (Hprocs eq_refl Hrss).
Defined.

(** Above 2^53 the quotient is taken of the nearest double: this count
    lies above 8388608.25 units, the double nearest to it does not, and
    the text shows the tenth below the nearest one. *)
Example gb_rounds_through_double :
  gb (2 ^ 53 + 2 ^ 28 + 1) = u "8388608.2"
  /\ tenths (2 ^ 53 + 2 ^ 28 + 1) 3 = 83886083.
Proof. split; vm_compute; reflexivity. Qed.




(** The text of a list inside a list, at nesting level 1: four spaces
    before the items, two before the closing bracket. *)
Example nested_list_layout :
  encode repr_dyadic 1 (PList [PInt 1; PList [PInt 2]])
  = [91%N; 10%N] ++ u "    1," ++ [10%N] ++ u "    [" ++ [10%N]
      ++ u "      2" ++ [10%N] ++ u "    ]" ++ [10%N] ++ u "  ]".
Proof. vm_compute. reflexivity. Qed.

(** C5: the text renderer is not total on the snapshots that [collect]
    assembles, while the structured renderer is. psutil stores
    [None] for a process attribute it was denied, [_processes] keeps the
    entry as long as the memory detail can be read, and [text_report]
    slices and formats the name and the CPU percentage of every entry.
    On the sample host with such a process among the first 8, [collect]
    returns, the structured renderer returns, and the text renderer
    raises [TypeError], whatever text floats print as. *)
Theorem text_report_raises_on_unread_name :
  let self0 := __init__ unnamed_process_host (u "text") in
  let self1 := collected self0 unnamed_process_host in
  fst (run_collect self0 unnamed_process_host) = Ok (self1, info self1)
  /\ (exists ps,
        getitem (info self1) (u "processes")
        = Ok (PList (map (entry_of unnamed_process_host) ps))
        /\ In unnamed_process ps)
  /\ getitem (entry_of unnamed_process_host unnamed_process) (u "name")
     = Ok PNone
  /\ (forall float_repr, text_report float_repr self1 = Raise TypeError)
  /\ (forall float_repr, exists doc, json_report float_repr self1 = Ok doc).
Proof.
  cbv zeta. split; [reflexivity|]. split; [|split; [reflexivity|split]].
  - exists [ {| pid := 5; proc_name := None; cpu_percent_of := Some (1 # 1);
                memory_percent := 2 # 1 |};
             {| pid := 2; proc_name := Some (u "файлы");
                cpu_percent_of := Some (5 # 2); memory_percent := 3 # 2 |};
             {| pid := 4; proc_name := Some (u "a-very-long-process-name-indeed");
                cpu_percent_of := Some (0 # 1); memory_percent := 3 # 2 |};
             {| pid := 1; proc_name := Some (u "init");
                cpu_percent_of := Some (0 # 1); memory_percent := 1 # 2 |} ].
    split; [vm_compute; reflexivity | left; reflexivity].
  - intros float_repr. vm_compute. reflexivity.
  - intros float_repr. eexists. reflexivity.
Qed.

(** Before any run of [collect] the text renderer raises as well. *)
Example text_report_needs_a_snapshot :
  text_report repr_dyadic (__init__ demo_host (u "text"))
  = Raise (KeyError (u "platform")).
Proof. reflexivity. Qed.

(** C10: an interface that the platform enumerates is a key of the
    snapshot's [interfaces] dict and its entry is part of the structured
    document, whatever its addresses. In the text report the interfaces
    section is the lines of each entry in turn, and an entry whose
    address list is empty contributes no line at all: no header, no MAC
    line, no status line. An entry with addresses contributes its
    header, its MAC line if it has a MAC, one line for each of its first
    2 addresses, and its status line if it has statistics. *)
Theorem interface_without_addresses_is_not_printed (float_repr : Q -> pystr)
  (self self' : SystemReport) (h : Host) (snap : pyval)
  (ifs : list (pystr * list snicaddr)) (stats : list (pystr * snicstats))
  (name : pystr) (addrs : list snicaddr) :
  fst (run_collect self h) = Ok (self', snap) ->
  net_if_addrs h = Ok ifs ->
  net_if_stats h = Ok stats ->
  NoDup (map fst ifs) ->
  In (name, addrs) ifs ->
  let ips := fst (scan_addrs addrs) in
  let mac := snd (scan_addrs addrs) in
  let entry := iface_info stats name addrs in
  exists net ifaces doc,
    getitem snap (u "network") = Ok net
    /\ getitem net (u "interfaces") = Ok (PDict ifaces)
    /\ dict_lookup name ifaces = Some entry
    /\ getitem entry (u "ip_addresses") = Ok (PList (map PStr ips))
    /\ json_report float_repr self' = Ok doc
    /\ infix (encode_basestring_ascii name ++ key_separator
                ++ encode float_repr 3 entry) doc
    /\ interfaces_lines float_repr self' = for_each (iface_lines float_repr) ifaces
    /\ (ips = [] -> iface_lines float_repr (name, entry) = Ok [])
    /\ (ips <> [] ->
        iface_lines float_repr (name, entry)
        = Ok ([nl ++ name ++ u ":"] ++ mac_lines mac
                ++ map (fun ip => u "  " ++ ip) (firstn 2 ips)
                ++ status_lines name stats)).
Proof.
  intros Hrun Hifs Hstats Hnd Hin ips mac entry.
  destruct (run_collect_inv _ _ _ _ Hrun)
    as (v1 & v2 & v3 & v4 & v5 & v6 & v7 & v8 & v9 & _ & _ & _ & _ & E5
        & _ & _ & _ & _ & -> & -> & _).
  destruct (network_shape h v5 E5) as (io & ifs' & stats' & _ & Hifs' & Hstats' & ->).
  assert (ifs' = ifs) as -> by congruence.
  assert (stats' = stats) as -> by congruence.
  assert (interfaces_of stats ifs
          = map (fun kv => (fst kv, iface_info stats (fst kv) (snd kv))) ifs)
    as Hmap.
  { unfold interfaces_of.
    rewrite (fold_dict_set_NoDup fst
               (fun kv => iface_info stats (fst kv) (snd kv))); [reflexivity|].
    exact Hnd. }
  assert (In (name, entry) (interfaces_of stats ifs)) as Hentry.
  { rewrite Hmap. apply in_map_iff. exists (name, addrs). split; [reflexivity | exact Hin]. }
  assert (NoDup (map fst (interfaces_of stats ifs))) as Hnd'.
  { rewrite Hmap, map_map. cbn [fst]. exact Hnd. }
  eexists. exists (interfaces_of stats ifs). eexists.
  split; [reflexivity|]. split; [reflexivity|].
  split; [now apply dict_lookup_NoDup|].
  split.
  { unfold entry, iface_info, ips. destruct (scan_addrs addrs). reflexivity. }
  split; [reflexivity|].
  split.
  { cbn [info]. unfold snapshot_of.
    eapply infix_trans;
      [|apply (encode_dict_item float_repr 0 _ (u "network")); right; right;
        right; right; right; left; reflexivity].
    apply infix_item_value.
    eapply infix_trans;
      [|apply (encode_dict_item float_repr 1 _ (u "interfaces")); right; right;
        right; right; left; reflexivity].
    apply infix_item_value.
    apply encode_dict_item. exact Hentry. }
  split; [reflexivity|].
  pose proof (iface_lines_info float_repr stats name addrs) as Hlines.
  fold entry ips mac in Hlines. unfold shown_lines in Hlines.
  split.
  - intros E. rewrite Hlines, E. reflexivity.
  - intros E. rewrite Hlines. destruct ips; [contradiction | reflexivity].
Qed.

Lemma interface_without_addresses_is_not_printed_witness :
  let self0 := __init__ demo_host (u "text") in
  let self1 := collected self0 demo_host in
  let addrs := [ {| addr_family := AF_LINK; address := u "aa:bb:cc:dd:ee:ff";
                    netmask := None |} ] in
  let stats := [(u "lo", {| isup := true; speed := 0; mtu := 65536 |})] in
  let entry := iface_info stats (u "tun0") addrs in
  NoDup (map fst sample_ifaces)
  /\ In (u "tun0", addrs) sample_ifaces
  /\ fst (scan_addrs addrs) = []
  /\ exists net ifaces doc,
       getitem (info self1) (u "network") = Ok net
       /\ getitem net (u "interfaces") = Ok (PDict ifaces)
       /\ dict_lookup (u "tun0") ifaces = Some entry
       /\ json_report repr_dyadic self1 = Ok doc
       /\ infix (encode_basestring_ascii (u "tun0") ++ key_separator
                   ++ encode repr_dyadic 3 entry) doc
       /\ interfaces_lines repr_dyadic self1
          = for_each (iface_lines repr_dyadic) ifaces
       /\ iface_lines repr_dyadic (u "tun0", entry) = Ok [].
Proof.
  cbv zeta.
  assert (NoDup (map fst sample_ifaces)) as Hnd.
  { repeat constructor; simpl; intuition discriminate. }
  assert (In (u "tun0",
              [ {| addr_family := AF_LINK; address := u "aa:bb:cc:dd:ee:ff";
                   netmask := None |} ]) sample_ifaces) as Hin.
  { right. left. reflexivity. }
  split; [exact Hnd|]. split; [exact Hin|]. split; [reflexivity|].
  destruct (interface_without_addresses_is_not_printed repr_dyadic
              (__init__ demo_host (u "text"))
              (collected (__init__ demo_host (u "text")) demo_host)
              demo_host
              (info (collected (__init__ demo_host (u "text")) demo_host))
              sample_ifaces
              [(u "lo", {| isup := true; speed := 0; mtu := 65536 |})]
              (u "tun0") _ eq_refl eq_refl eq_refl Hnd Hin)
    as (net & ifaces & doc & H1 & H2 & H3 & _ & H5 & H6 & H7 & H8 & _).
  exists net, ifaces, doc.
  split; [exact H1|]. split; [exact H2|]. split; [exact H3|].
  split; [exact H5|]. split; [exact H6|]. split; [exact H7|].
  apply H8. reflexivity.
Defined.

(** On the sample host the interface without addresses is named in the
    structured document and nowhere in the text report; the third address
    of the other interface is not printed either. *)
Example tun0_only_in_json :
  let self1 := collected (__init__ demo_host (u "text")) demo_host in
  bind (json_report repr_dyadic self1) (fun doc => Ok (infixb (u "tun0") doc))
  = Ok true
  /\ bind (text_report repr_dyadic self1)
       (fun text => Ok (infixb (u "tun0") text, infixb (u "aa:bb:cc:dd:ee:ff") text,
                        infixb (u "IPv6: ::1") text, infixb (u "fe80::1") text))
     = Ok (false, false, true, false).
Proof. split; vm_compute; reflexivity. Qed.

(** The ranking on the sample host: the process that exited is absent and
    the two processes at 1.5 percent keep their enumeration order. *)
Example sample_ranking :
  bind (_processes demo_host)
    (fun v => bind (iter v) (fun entries =>
       Ok (map (fun e => getitem e (u "pid")) entries)))
  = Ok [Ok (PInt 2); Ok (PInt 4); Ok (PInt 1)].
Proof. vm_compute. reflexivity. Qed.

Example sample_disks :
  bind (_disks demo_host)
    (fun v => bind (iter v) (fun entries =>
       Ok (map (fun e => getitem e (u "mountpoint")) entries)))
  = Ok [Ok (PStr (u "/")); Ok (PStr (u "/data"))].
Proof. vm_compute. reflexivity. Qed.

Example u_ascii : u "GB" = [71%N; 66%N].
Proof. reflexivity. Qed.

Example u_cyrillic : u "Хост" = [1061%N; 1086%N; 1089%N; 1090%N].
Proof. reflexivity. Qed.

Example fmt_quarter : fmt_fixed 1 (1 # 4) = u "0.2".
Proof. reflexivity. Qed.

Example fmt_three_quarters : fmt_fixed 1 (3 # 4) = u "0.8".
Proof. reflexivity. Qed.

Example fmt_mhz : fmt_fixed 0 (4799 # 2) = u "2400".
Proof. vm_compute. reflexivity. Qed.

Example repr_int_neg : repr_int (-42) = u "-42".
Proof. reflexivity. Qed.

Example repr_dyadic_short : repr_dyadic (75 # 2) = u "37.5" /\ repr_dyadic (3 # 1) = u "3.0".
Proof. split; vm_compute; reflexivity. Qed.

(** * Further properties of the code *)

(** ** The aggregator and the guards of the collectors *)

Module GuardFacts.

Lemma procs_loop_ok_guarded (h : Host) (ps : list pinfo) (acc out : list dict) :
  procs_loop h ps acc = Ok out ->
  forallb (fun p => raises_only detail_guard (memory_info_rss h (pid p))) ps = true.
Proof.
  revert acc. induction ps as [|p rest IH]; simpl; intros acc H; [reflexivity|].
  destruct (memory_info_rss h (pid p)) as [rss|e]; simpl.
  - eapply IH. exact H.
  - destruct e; try discriminate; simpl; eapply IH; exact H.
Qed.

Lemma disks_loop_ok_guarded (h : Host) (parts : list partition)
  (acc out : list pyval) :
  disks_loop h parts acc = Ok out -> disk_failures_guarded h parts = true.
Proof.
  unfold disk_failures_guarded.
  revert acc. induction parts as [|p rest IH]; simpl; intros acc H; [reflexivity|].
  destruct (disk_usage h (mountpoint p)) as [use|e]; simpl.
  - eapply IH. exact H.
  - destruct (is_OSError e); [|discriminate]. simpl. eapply IH. exact H.
Qed.

(** The loop stops at the first detail read that fails in a way the
    handler does not name. *)
Lemma procs_loop_unguarded (h : Host) (before after : list pinfo) (p : pinfo)
  (e : exn) (acc : list dict) :
  forallb (fun p => raises_only detail_guard (memory_info_rss h (pid p))) before = true ->
  memory_info_rss h (pid p) = Raise e ->
  detail_guard e = false ->
  procs_loop h (before ++ p :: after) acc = Raise e.
Proof.
  intros Hbefore Hp He. revert acc.
  induction before as [|q rest IH]; simpl in *; intros acc.
  - rewrite Hp. destruct e; try reflexivity; discriminate.
  - apply andb_true_iff in Hbefore. destruct Hbefore as [Hq Hrest].
    destruct (memory_info_rss h (pid q)) as [rss|e']; [now apply IH|].
    destruct e'; simpl in Hq; try discriminate; now apply IH.
Qed.

Lemma disks_loop_unguarded (h : Host) (before after : list partition)
  (p : partition) (e : exn) (acc : list pyval) :
  disk_failures_guarded h before = true ->
  disk_usage h (mountpoint p) = Raise e ->
  is_OSError e = false ->
  disks_loop h (before ++ p :: after) acc = Raise e.
Proof.
  unfold disk_failures_guarded. intros Hbefore Hp He. revert acc.
  induction before as [|q rest IH]; simpl in *; intros acc.
  - now rewrite Hp, He.
  - apply andb_true_iff in Hbefore. destruct Hbefore as [Hq Hrest].
    destruct (disk_usage h (mountpoint q)) as [use|e']; [now apply IH|].
    simpl in Hq. rewrite Hq. now apply IH.
Qed.

End GuardFacts.
Import GuardFacts.

(** X1: [collect] calls the collectors in the order of the snapshot's
    fields and stops at the first one that raises: the collectors called
    are the first [n] of the nine, all but the last of them returned, and
    the run returns exactly when all nine were called and returned;
    otherwise it raises what the last collector called raised. *)
Theorem collect_stops_at_first_failure (self : SystemReport) (h : Host) :
  exists (n : nat) (last : collector),
    snd (run_collect self h) = firstn (S n) all_collectors
    /\ nth_error all_collectors n = Some last
    /\ Forall (fun c => returns (run_collector c h) = true) (firstn n all_collectors)
    /\ match fst (run_collect self h) with
       | Ok _ => n = 8%nat /\ returns (run_collector last h) = true
       | Raise e => run_collector last h = Raise e
       end.
Proof.
  unfold run_collect, collect, tbind, invoke, tret.
  destruct (_platform h) as [v1|e1] eqn:E1;
    [|exists 0%nat, CPlatform; repeat split; [constructor | exact E1]].
  destruct (_cpu h) as [v2|e2] eqn:E2;
    [|exists 1%nat, CCpu; repeat split;
      [repeat constructor; simpl; now rewrite ?E1 | exact E2]].
  destruct (_memory h) as [v3|e3] eqn:E3;
    [|exists 2%nat, CMemory; repeat split;
      [repeat constructor; simpl; now rewrite ?E1, ?E2 | exact E3]].
  destruct (_disks h) as [v4|e4] eqn:E4;
    [|exists 3%nat, CDisks; repeat split;
      [repeat constructor; simpl; now rewrite ?E1, ?E2, ?E3 | exact E4]].
  destruct (_network h) as [v5|e5] eqn:E5;
    [|exists 4%nat, CNetwork; repeat split;
      [repeat constructor; simpl; now rewrite ?E1, ?E2, ?E3, ?E4 | exact E5]].
  destruct (_processes h) as [v6|e6] eqn:E6;
    [|exists 5%nat, CProcesses; repeat split;
      [repeat constructor; simpl; now rewrite ?E1, ?E2, ?E3, ?E4, ?E5 | exact E6]].
  destruct (_users h) as [v7|e7] eqn:E7;
    [|exists 6%nat, CUsers; repeat split;
      [repeat constructor; simpl; now rewrite ?E1, ?E2, ?E3, ?E4, ?E5, ?E6 | exact E7]].
  destruct (_boot h) as [v8|e8] eqn:E8;
    [|exists 7%nat, CBoot; repeat split;
      [repeat constructor; simpl;
       now rewrite ?E1, ?E2, ?E3, ?E4, ?E5, ?E6, ?E7 | exact E8]].
  exists 8%nat, CSensors.
  destruct (_sensors h) as [v9|e9] eqn:E9; repeat split;
    try (repeat constructor; simpl;
         now rewrite ?E1, ?E2, ?E3, ?E4, ?E5, ?E6, ?E7, ?E8, ?E9);
    try exact E9.
Qed.

(** X2: [collect] returns only on hosts whose failing lookups are all
    guarded by a collector: any other failing lookup keeps it from
    returning. *)
Theorem collect_returns_only_under_guarded_failures (self self' : SystemReport)
  (h : Host) (snap : pyval) :
  fst (run_collect self h) = Ok (self', snap) ->
  only_guarded_failures h = true.
Proof.
  intros Hrun.
  destruct (run_collect_inv _ _ _ _ Hrun)
    as (v1 & v2 & v3 & v4 & v5 & v6 & v7 & v8 & v9 & E1 & E2 & E3 & E4 & E5
        & E6 & E7 & E8 & E9 & _).
  unfold only_guarded_failures.
  unfold _platform in E1.
  destruct (gethostbyname h (gethostname h)); [|discriminate].
  unfold _cpu in E2.
  destruct (cpu_freq h); [|discriminate].
  destruct (cpu_count h false); [|discriminate].
  destruct (cpu_count h true); [|discriminate].
  destruct (cpu_percent h); [|discriminate].
  destruct (cpu_percent_percpu h); [|discriminate].
  unfold _memory in E3.
  destruct (virtual_memory h); [|discriminate].
  destruct (swap_memory h); [|discriminate].
  unfold _disks in E4.
  destruct (disk_partitions h) as [parts|]; [|discriminate]. cbn [bind] in E4.
  destruct (disks_loop h parts []) as [ds|] eqn:Eloop; [|discriminate].
  rewrite (disks_loop_ok_guarded _ _ _ _ Eloop).
  unfold _network in E5.
  destruct (net_io_counters h); [|discriminate].
  destruct (net_if_addrs h); [|discriminate].
  destruct (net_if_stats h); [|discriminate].
  unfold _processes in E6.
  destruct (procs_loop h (process_iter h) []) as [procs|] eqn:Eprocs; [|discriminate].
  unfold process_failures_guarded. rewrite (procs_loop_ok_guarded _ _ _ _ Eprocs).
  unfold _users in E7. destruct (users h); [|discriminate].
  unfold _boot in E8. destruct (boot_time h); [|discriminate].
  unfold _sensors in E9.
  destruct (sensors_temperatures h) as [temps|e]; [reflexivity|].
  destruct e; try discriminate. reflexivity.
Qed.

Lemma collect_returns_only_under_guarded_failures_witness :
  let self0 := __init__ demo_host (u "text") in
  fst (run_collect self0 demo_host)
  = Ok (collected self0 demo_host, info (collected self0 demo_host))
  /\ only_guarded_failures demo_host = true.
Proof.
  cbv zeta. split; [reflexivity|].
  apply (collect_returns_only_under_guarded_failures
           (__init__ demo_host (u "text"))
           (collected (__init__ demo_host (u "text")) demo_host) demo_host
           (info (collected (__init__ demo_host (u "text")) demo_host))).
  reflexivity.
Defined.

(** X3: [_processes] swallows only [NoSuchProcess] and [AccessDenied].
    The first detail read that raises anything else ends the collector
    with that exception, whatever the reads after it would do. *)
Theorem processes_raise_first_unguarded (h : Host) (before after : list pinfo)
  (p : pinfo) (e : exn) :
  process_iter h = before ++ p :: after ->
  forallb (fun p => raises_only detail_guard (memory_info_rss h (pid p))) before = true ->
  memory_info_rss h (pid p) = Raise e ->
  detail_guard e = false ->
  _processes h = Raise e.
Proof.
  intros Hiter Hbefore Hp He. unfold _processes. rewrite Hiter.
  now rewrite (procs_loop_unguarded h before after p e [] Hbefore Hp He).
Qed.

Lemma processes_raise_first_unguarded_witness :
  _processes broken_detail_host = Raise OSError.
Proof.
  apply (processes_raise_first_unguarded broken_detail_host
           (firstn 3 sample_processes) [] (nth 3 sample_processes
                                              {| pid := 0; proc_name := None;
                                                 cpu_percent_of := None;
                                                 memory_percent := 0 # 1 |}) OSError);
    reflexivity.
Defined.

(** X4: [_disks] swallows only [OSError] and its subclasses. The first
    usage query that raises anything else ends the collector with that
    exception, and the entries gathered so far are lost. *)
Theorem disks_raise_first_unguarded (h : Host) (before after : list partition)
  (p : partition) (e : exn) :
  disk_partitions h = Ok (before ++ p :: after) ->
  disk_failures_guarded h before = true ->
  disk_usage h (mountpoint p) = Raise e ->
  is_OSError e = false ->
  _disks h = Raise e.
Proof.
  intros Hparts Hbefore Hp He. unfold _disks. rewrite Hparts. cbn [bind].
  now rewrite (disks_loop_unguarded h before after p e [] Hbefore Hp He).
Qed.

Lemma disks_raise_first_unguarded_witness :
  _disks broken_usage_host = Raise AccessDenied.
Proof.
  apply (disks_raise_first_unguarded broken_usage_host
           [ {| device := u "/dev/sda1"; mountpoint := u "/"; fstype := u "ext4" |};
             {| device := u "/dev/sdb1"; mountpoint := u "/mnt"; fstype := u "ext4" |} ]
           []
           {| device := u "sdc"; mountpoint := u "/data"; fstype := u "xfs" |}
           AccessDenied);
    reflexivity.
Defined.

(** ** The network collector *)

Module NetworkFacts.

Lemma find_app {A} (f : A -> bool) (l1 l2 : list A) :
  find f (l1 ++ l2)
  = match find f l1 with
    | Some x => Some x
    | None => find f l2
    end.
Proof.
  induction l1 as [|x t IH]; simpl; [reflexivity|].
  destruct (f x); [reflexivity | exact IH].
Qed.

(** The address loop from any starting state. *)
Lemma scan_addrs_from (addrs : list snicaddr) (ips : list pystr)
  (mac : option pystr) :
  fold_left
    (fun st addr =>
       match addr_family addr with
       | AF_INET =>
           (fst st ++ [u "IPv4: " ++ address addr ++ u "/"
                         ++ str_of_opt (netmask addr)], snd st)
       | AF_INET6 => (fst st ++ [u "IPv6: " ++ address addr], snd st)
       | AF_LINK => (fst st, Some (address addr))
       | AF_OTHER => st
       end)
    addrs (ips, mac)
  = (ips ++ map addr_text (filter is_ip addrs),
     match find is_link (rev addrs) with
     | Some a => Some (address a)
     | None => mac
     end).
Proof.
  revert ips mac. induction addrs as [|a rest IH]; intros ips mac.
  - simpl. now rewrite app_nil_r.
  - cbn [fold_left]. cbn [rev]. rewrite find_app. cbn [filter find].
    unfold is_ip at 1, is_link at 2. cbn [fst snd].
    pose proof (eq_refl (addr_text a)) as Ha. unfold addr_text at 2 in Ha.
    destruct (addr_family a) eqn:E; rewrite IH; cbn [map];
      rewrite ?Ha, <- ?app_assoc;
      destruct (find is_link (rev rest)); reflexivity.
Qed.

End NetworkFacts.
Import NetworkFacts.

(** X5: for a platform enumeration with distinct interface names,
    [_network] stores one entry per interface, in enumeration order. An
    entry's [ip_addresses] are the texts of the interface's IPv4 and
    IPv6 addresses in enumeration order (other families leave nothing),
    its [mac] is the address of the last link-layer entry ([None] if
    there is none), and its [stats] is the empty dict when the interface
    is missing from the statistics. *)
Theorem network_interface_entries (h : Host) (io : snetio)
  (ifs : list (pystr * list snicaddr)) (stats : list (pystr * snicstats)) :
  net_io_counters h = Ok io ->
  net_if_addrs h = Ok ifs ->
  net_if_stats h = Ok stats ->
  NoDup (map fst ifs) ->
  exists net ifaces,
    _network h = Ok net
    /\ getitem net (u "interfaces") = Ok (PDict ifaces)
    /\ map fst ifaces = map fst ifs
    /\ forall name addrs, In (name, addrs) ifs ->
         exists entry,
           dict_lookup name ifaces = Some entry
           /\ getitem entry (u "ip_addresses")
              = Ok (PList (map PStr (map addr_text (filter is_ip addrs))))
           /\ getitem entry (u "mac")
              = Ok (opt_str (option_map address (find is_link (rev addrs))))
           /\ (find (fun kv => Str.eqb name (fst kv)) stats = None ->
               getitem entry (u "stats") = Ok (PDict [])).
Proof.
  intros Hio Hifs Hstats Hnd.
  assert (interfaces_of stats ifs
          = map (fun kv => (fst kv, iface_info stats (fst kv) (snd kv))) ifs)
    as Hmap.
  { unfold interfaces_of.
    rewrite (fold_dict_set_NoDup fst
               (fun kv => iface_info stats (fst kv) (snd kv))); [reflexivity|].
    exact Hnd. }
  eexists. exists (interfaces_of stats ifs).
  split; [unfold _network; rewrite Hio, Hifs, Hstats; reflexivity|].
  split; [reflexivity|].
  split; [rewrite Hmap, map_map; reflexivity|].
  intros name addrs Hin. exists (iface_info stats name addrs).
  split.
  { apply dict_lookup_NoDup.
    - rewrite Hmap, map_map. exact Hnd.
    - rewrite Hmap. apply in_map_iff. now exists (name, addrs). }
  unfold iface_info, scan_addrs. rewrite scan_addrs_from. cbn [app].
  split; [reflexivity|]. split.
  - rewrite getitem_skip by reflexivity. rewrite getitem_here.
    destruct (find is_link (rev addrs)); reflexivity.
  - intros Hnone. rewrite !getitem_skip by reflexivity. rewrite getitem_here.
    unfold iface_stats. now rewrite Hnone.
Qed.

Lemma network_interface_entries_witness :
  NoDup (map fst sample_ifaces)
  /\ exists net ifaces,
       _network demo_host = Ok net
       /\ getitem net (u "interfaces") = Ok (PDict ifaces)
       /\ map fst ifaces = [u "lo"; u "tun0"]
       /\ exists entry,
            dict_lookup (u "tun0") ifaces = Some entry
            /\ getitem entry (u "ip_addresses") = Ok (PList [])
            /\ getitem entry (u "mac") = Ok (PStr (u "aa:bb:cc:dd:ee:ff"))
            /\ getitem entry (u "stats") = Ok (PDict []).
Proof.
  assert (NoDup (map fst sample_ifaces)) as Hnd.
  { repeat constructor; simpl; intuition discriminate. }
  split; [exact Hnd|].
  destruct (network_interface_entries demo_host
              {| bytes_sent := 1048576; bytes_recv := 3145728;
                 packets_sent := 10; packets_recv := 20 |}
              sample_ifaces
              [(u "lo", {| isup := true; speed := 0; mtu := 65536 |})]
              eq_refl eq_refl eq_refl Hnd)
    as (net & ifaces & Hnet & Hget & Hkeys & Hentries).
  exists net, ifaces. split; [exact Hnet|]. split; [exact Hget|].
  split; [exact Hkeys|].
  destruct (Hentries (u "tun0")
              [ {| addr_family := AF_LINK; address := u "aa:bb:cc:dd:ee:ff";
                   netmask := None |} ]
              ltac:(right; left; reflexivity))
    as (entry & H1 & H2 & H3 & H4).
  exists entry. split; [exact H1|]. split; [exact H2|]. split; [exact H3|].
  apply H4. reflexivity.
Defined.

(** ** Rows of the text report *)

Module RowFacts.

Section Rows.
Variable float_repr : Q -> pystr.

Lemma user_row_line (h : Host) (x : suser) :
  user_line float_repr
    (PDict [ (u "name", PStr (user_name x));
             (u "host", opt_str (user_host x));
             (u "started", PStr (strftime_time h (started x))) ])
  = Ok [user_row h x].
Proof. unfold user_row. destruct (user_host x); reflexivity. Qed.

Lemma user_rows (h : Host) (us : list suser) :
  for_each (user_line float_repr)
    (map (fun user =>
            PDict [ (u "name", PStr (user_name user));
                    (u "host", opt_str (user_host user));
                    (u "started", PStr (strftime_time h (started user))) ])
       us)
  = Ok (map (user_row h) us).
Proof.
  induction us as [|x rest IH]; [reflexivity|].
  cbn [map for_each]. rewrite IH, user_row_line. reflexivity.
Qed.

End Rows.

Lemma rows_from_length (ps : list pinfo) (i : Z) :
  List.length (rows_from i ps) = List.length ps.
Proof.
  revert i. induction ps as [|p rest IH]; intros i; [reflexivity|].
  cbn [rows_from List.length]. now rewrite IH.
Qed.

Lemma name_column_width (name : pystr) : List.length (name_column name) = 20%nat.
Proof.
  unfold name_column, ljust, rep.
  rewrite length_app, repeat_length, length_firstn. lia.
Qed.

Lemma name_column_prefix (name : pystr) :
  firstn (Nat.min 20 (List.length name)) (name_column name) = firstn 20 name.
Proof.
  unfold name_column, ljust.
  rewrite <- (length_firstn 20 name), firstn_app, firstn_all, Nat.sub_diag.
  cbn [firstn]. now rewrite app_nil_r.
Qed.

Lemma all_images_with {A B} (f : A -> B) (P : A -> Prop) (l : list B) :
  Forall (fun y => exists x, y = f x /\ P x) l ->
  exists xs, l = map f xs /\ Forall P xs.
Proof.
  induction 1 as [|y t (x & -> & Hx) _ (xs & -> & Hxs)]; [now exists []|].
  exists (x :: xs). split; [reflexivity | now constructor].
Qed.

(** What [_processes] returns, whatever failed: the entries of at most 8
    processes whose detail read succeeded. *)
Lemma processes_at_most_8 (h : Host) (v : pyval) :
  _processes h = Ok v ->
  exists ps,
    v = PList (map (entry_of h) ps)
    /\ (List.length ps <= 8)%nat
    /\ Forall (fun p => detail_read_ok h p = true) ps.
Proof.
  unfold _processes. intros H.
  destruct (procs_loop h (process_iter h) []) as [procs|] eqn:E; [|discriminate].
  cbn [bind] in H.
  destruct (list_sort_reverse sort_key procs) as [sorted|] eqn:Es; [|discriminate].
  cbn [bind] in H.
  assert (v = PList (map PDict (firstn 8 sorted))) as -> by congruence.
  clear H. destruct (procs_loop_entries _ _ _ _ E) as (qs & -> & Hqs).
  apply list_sort_reverse_perm in Es.
  destruct (all_images_with (entry_dict h)
              (fun p => detail_read_ok h p = true) (firstn 8 sorted))
    as (ps & Hps & Hok).
  - apply Forall_forall. intros d Hd. apply In_firstn in Hd.
    apply (Permutation_in _ Es) in Hd. apply in_map_iff in Hd.
    destruct Hd as (p & <- & Hp). exists p. split; [reflexivity|].
    rewrite Forall_forall in Hqs. now apply Hqs.
  - exists ps. split; [|split; [|exact Hok]].
    + rewrite Hps, map_map. reflexivity.
    + rewrite <- (length_map (entry_dict h)), <- Hps. apply firstn_le_length.
Qed.

End RowFacts.
Import RowFacts.

(** X6: after a run of [collect] that returned, the users section of the
    text report is absent when no user is logged in; otherwise it is its
    header, the 40-dash rule and one line per session, in enumeration
    order, a missing origin host printed as "None". *)
Theorem users_section_after_collect (float_repr : Q -> pystr)
  (self self' : SystemReport) (h : Host) (snap : pyval) (us : list suser) :
  fst (run_collect self h) = Ok (self', snap) ->
  users h = Ok us ->
  users_lines float_repr self'
  = Ok match us with
       | [] => []
       | _ => [nl ++ u "АКТИВНЫЕ ПОЛЬЗОВАТЕЛИ:"; rule_dash] ++ map (user_row h) us
       end.
Proof.
  intros Hrun Hus.
  destruct (run_collect_inv _ _ _ _ Hrun)
    as (v1 & v2 & v3 & v4 & v5 & v6 & v7 & v8 & v9 & _ & _ & _ & _ & _ & _
        & E7 & _ & _ & -> & -> & _).
  unfold _users in E7. rewrite Hus in E7. cbn [bind] in E7.
  injection E7 as <-.
  unfold users_lines. cbn [info]. unfold snapshot_of.
  rewrite !(getitem_skip (u "users")) by reflexivity. rewrite getitem_here.
  cbn [bind]. destruct us as [|x rest]; [reflexivity|].
  change (truthy (PList (map _ (x :: rest)))) with true. cbv iota.
  cbn [iter bind]. rewrite user_rows. reflexivity.
Qed.

Lemma users_section_after_collect_witness :
  let self0 := __init__ demo_host (u "text") in
  users_lines repr_dyadic (collected self0 demo_host)
  = Ok [nl ++ u "АКТИВНЫЕ ПОЛЬЗОВАТЕЛИ:"; rule_dash; u "катя с None (с T+5)"].
Proof.
  cbv zeta.
  rewrite (users_section_after_collect repr_dyadic
             (__init__ demo_host (u "text"))
             (collected (__init__ demo_host (u "text")) demo_host) demo_host
             (info (collected (__init__ demo_host (u "text")) demo_host))
             [ {| user_name := u "катя"; user_host := None; started := 5 # 1 |} ]
             eq_refl eq_refl).
  reflexivity.
Defined.

(** X7: after a run of [collect] that returned, the snapshot shows at
    most 8 processes. If the name and the CPU percentage of each of them
    were read, the process table of the text report is its header, the
    40-dash rule and one row for each process, numbered from 1 in the
    snapshot's order; if one was not, the table raises [TypeError]. In
    every row the name column is exactly 20 characters wide: the first
    20 characters of the name, padded with spaces. *)
Theorem process_table_after_collect (float_repr : Q -> pystr)
  (self self' : SystemReport) (h : Host) (snap : pyval) :
  fst (run_collect self h) = Ok (self', snap) ->
  exists ps,
    getitem snap (u "processes") = Ok (PList (map (entry_of h) ps))
    /\ (List.length ps <= 8)%nat
    /\ processes_lines float_repr self'
       = (if forallb attributes_read ps
          then Ok ([nl ++ u "ТОП-8 ПРОЦЕССОВ:"; rule_dash] ++ rows_from 1 ps)
          else Raise TypeError)
    /\ List.length (rows_from 1 ps) = List.length ps
    /\ forall name, List.length (name_column name) = 20%nat
                    /\ firstn (Nat.min 20 (List.length name)) (name_column name)
                       = firstn 20 name.
Proof.
  intros Hrun.
  destruct (run_collect_inv _ _ _ _ Hrun)
    as (v1 & v2 & v3 & v4 & v5 & v6 & v7 & v8 & v9 & _ & _ & _ & _ & _ & E6
        & _ & _ & _ & -> & -> & _).
  destruct (processes_at_most_8 h v6 E6) as (ps & -> & Hlen & _).
  exists ps. split; [reflexivity|]. split; [exact Hlen|]. split; [|split].
  - apply (processes_lines_cases float_repr _ h ps). reflexivity.
  - apply rows_from_length.
  - intros name. split; [apply name_column_width | apply name_column_prefix].
Qed.

Lemma process_table_after_collect_witness :
  let self0 := __init__ demo_host (u "text") in
  let self1 := __init__ unnamed_process_host (u "text") in
  (exists ps,
     getitem (info (collected self0 demo_host)) (u "processes")
     = Ok (PList (map (entry_of demo_host) ps))
     /\ forallb attributes_read ps = true
     /\ processes_lines repr_dyadic (collected self0 demo_host)
        = Ok ([nl ++ u "ТОП-8 ПРОЦЕССОВ:"; rule_dash] ++ rows_from 1 ps))
  /\ (exists ps,
        getitem (info (collected self1 unnamed_process_host)) (u "processes")
        = Ok (PList (map (entry_of unnamed_process_host) ps))
        /\ forallb attributes_read ps = false
        /\ processes_lines repr_dyadic (collected self1 unnamed_process_host)
           = Raise TypeError).
Proof.
  cbv zeta. split.
  - destruct (process_table_after_collect repr_dyadic
                (__init__ demo_host (u "text"))
                (collected (__init__ demo_host (u "text")) demo_host) demo_host
                (info (collected (__init__ demo_host (u "text")) demo_host))
                eq_refl)
      as (ps & H1 & _ & H3 & _).
    exists ps. split; [exact H1|].
    destruct (forallb attributes_read ps) eqn:E.
    + split; [reflexivity | exact H3].
    + exfalso. vm_compute in H3. discriminate H3.
  - destruct (process_table_after_collect repr_dyadic
                (__init__ unnamed_process_host (u "text"))
                (collected (__init__ unnamed_process_host (u "text"))
                   unnamed_process_host)
                unnamed_process_host
                (info (collected (__init__ unnamed_process_host (u "text"))
                         unnamed_process_host))
                eq_refl)
      as (ps & H1 & _ & H3 & _).
    exists ps. split; [exact H1|].
    destruct (forallb attributes_read ps) eqn:E.
    + exfalso. vm_compute in H3. discriminate H3.
    + split; [reflexivity | exact H3].
Defined.

Example long_name_row :
  process_row 2 {| pid := 4;
                   proc_name := Some (u "a-very-long-process-name-indeed");
                   cpu_percent_of := Some (0 # 1); memory_percent := 3 # 2 |}
  = u "2. a-very-long-process- PID:     4 CPU:  0.0% MEM:  1.5%".
Proof. vm_compute. reflexivity. Qed.

(** X8: the text report never shows the sensors: two snapshots that
    differ only in their [sensors] field (or in the format the object was
    created with) give the same text report, or the same exception. The
    sensors reach the structured document only. *)
Theorem text_report_ignores_sensors (float_repr : Q -> pystr)
  (self : SystemReport) (fmt1 fmt2 : pystr)
  (platform cpu memory disks network processes users boot : pyval)
  (sensors1 sensors2 : pyval) :
  text_report float_repr
    {| fmt := fmt1;
       info := snapshot_of self platform cpu memory disks network processes
                 users boot sensors1;
       time := time self |}
  = text_report float_repr
      {| fmt := fmt2;
         info := snapshot_of self platform cpu memory disks network processes
                   users boot sensors2;
         time := time self |}.
Proof.
  unfold text_report, report_lines, banner_lines.
  unfold platform_lines, cpu_lines, memory_lines, disks_lines, network_lines,
    interfaces_lines, processes_lines, users_lines, closing_lines, field2, field.
  cbn [info time]. unfold snapshot_of.
  rewrite !(getitem_skip (u "platform")) by reflexivity.
  rewrite !(getitem_skip (u "cpu")) by reflexivity.
  rewrite !(getitem_skip (u "memory")) by reflexivity.
  rewrite !(getitem_skip (u "disks")) by reflexivity.
  rewrite !(getitem_skip (u "network")) by reflexivity.
  rewrite !(getitem_skip (u "processes")) by reflexivity.
  rewrite !(getitem_skip (u "users")) by reflexivity.
  rewrite !(getitem_skip (u "boot")) by reflexivity.
  rewrite !getitem_here. reflexivity.
Qed.

(** ** Files *)

Module FileFacts.

Lemma read_write_same (name text : pystr) (fs : files) :
  read_file name (write_file name text fs) = Some text.
Proof.
  induction fs as [|[n t] rest IH]; simpl.
  - now rewrite eqb_refl.
  - destruct (Str.eqb name n) eqn:E; simpl; rewrite E; [reflexivity | exact IH].
Qed.

Lemma read_write_other (name other text : pystr) (fs : files) :
  other <> name ->
  read_file other (write_file name text fs) = read_file other fs.
Proof.
  intros Hne. induction fs as [|[n t] rest IH]; simpl.
  - apply eqb_neq in Hne. now rewrite Hne.
  - destruct (Str.eqb name n) eqn:E; simpl.
    + apply eqb_eq in E. subst n. apply eqb_neq in Hne. now rewrite Hne.
    + destruct (Str.eqb other n); [reflexivity | exact IH].
Qed.

Lemma ascii_encodable (s : pystr) : is_ascii s -> encodable s = true.
Proof.
  unfold is_ascii, encodable. intros H. apply forallb_forall. intros c Hc.
  rewrite Forall_forall in H. specialize (H c Hc).
  unfold is_surrogate. destruct (N.leb_spec 55296 c); [lia | reflexivity].
Qed.

Section Save.
Variable float_repr : Q -> pystr.

(** [save], case by case. *)
Lemma save_cases (self : SystemReport) (env : Env) (fname : option pystr)
  (fs : files) :
  save float_repr self env fname fs
  = match render float_repr self with
    | Raise e => (Raise e, fs)
    | Ok content =>
        match open_w env (saved_name env self fname) with
        | Some e => (Raise e, fs)
        | None =>
            if encodable content
            then
              match write_w env (saved_name env self fname) content with
              | None =>
                  (Ok (saved_name env self fname),
                   write_file (saved_name env self fname) content
                     (write_file (saved_name env self fname) [] fs))
              | Some (e, rest) =>
                  (Raise e,
                   write_file (saved_name env self fname) rest
                     (write_file (saved_name env self fname) [] fs))
              end
            else (Raise ValueError, write_file (saved_name env self fname) [] fs)
        end
    end.
Proof.
  unfold save, saved_name. destruct fname as [[|c s]|]; reflexivity.
Qed.

Lemma collect_keeps_fmt (self self' : SystemReport) (h : Host) (snap : pyval) :
  fst (run_collect self h) = Ok (self', snap) -> fmt self' = fmt self.
Proof.
  intros Hrun.
  destruct (run_collect_inv _ _ _ _ Hrun)
    as (? & ? & ? & ? & ? & ? & ? & ? & ? & _ & _ & _ & _ & _ & _ & _ & _ & _
        & _ & -> & _).
  reflexivity.
Qed.

(** After a run of [collect] that returned, the text renderer returns
    when the name and the CPU percentage of every process shown were
    read, and raises [TypeError] otherwise. *)
Lemma text_report_after_collect (self self' : SystemReport) (h : Host)
  (snap : pyval) :
  fst (run_collect self h) = Ok (self', snap) ->
  exists ps,
    getitem snap (u "processes") = Ok (PList (map (entry_of h) ps))
    /\ (List.length ps <= 8)%nat
    /\ Forall (fun p => detail_read_ok h p = true) ps
    /\ if forallb attributes_read ps
       then exists text, text_report float_repr self' = Ok text
       else text_report float_repr self' = Raise TypeError.
Proof.
  intros Hrun.
  destruct (run_collect_inv _ _ _ _ Hrun)
    as (v1 & v2 & v3 & v4 & v5 & v6 & v7 & v8 & v9 & E1 & E2 & E3 & E4 & E5
        & E6 & E7 & E8 & _ & -> & -> & _).
  destruct (processes_at_most_8 h v6 E6) as (ps & -> & Hlen & Hin).
  exists ps. split; [reflexivity|]. split; [exact Hlen|]. split; [exact Hin|].
  set (self' := {| fmt := fmt self; info := _; time := time self |}).
  destruct (platform_lines_ok float_repr self' h v1 eq_refl E1) as [l1 H1].
  destruct (cpu_lines_ok float_repr self' h v2 eq_refl E2) as [l2 H2].
  destruct (memory_lines_ok float_repr self' h v3 eq_refl E3) as [l3 H3].
  destruct (disks_lines_ok float_repr self' h v4 eq_refl E4) as [l4 H4].
  destruct (network_lines_ok float_repr self' h v5 eq_refl E5)
    as [[l5 H5] [l6 H6]].
  pose proof (processes_lines_cases float_repr self' h ps eq_refl) as H7.
  destruct (users_lines_ok float_repr self' h v7 eq_refl E7) as [l8 H8].
  destruct (closing_lines_ok float_repr self' h v8 eq_refl E8) as [l9 H9].
  unfold text_report, report_lines.
  rewrite H1, H2, H3, H4, H5, H6, H7, H8, H9. cbn [bind].
  destruct (forallb attributes_read ps); cbn [bind]; eauto.
Qed.



End Save.

End FileFacts.
Import FileFacts.

(** X9: when [save] returns a name, that name is the name asked for (or
    "system_report_" and the clock when none or an empty one was given)
    followed by ".json" for the json format and ".txt" for any other,
    whether or not the name asked for already ends so. The file of that
    name then holds exactly the rendering of the format, and every other
    file is as it was. *)
Theorem save_writes_the_rendering (float_repr : Q -> pystr)
  (self : SystemReport) (env : Env) (fname : option pystr) (fs fs' : files)
  (name : pystr) :
  save float_repr self env fname fs = (Ok name, fs') ->
  name = saved_name env self fname
  /\ (exists content,
        render float_repr self = Ok content
        /\ read_file name fs' = Some content)
  /\ (forall other, other <> name -> read_file other fs' = read_file other fs).
Proof.
  rewrite save_cases.
  destruct (render float_repr self) as [content|e]; [|discriminate].
  destruct (open_w env (saved_name env self fname)); [discriminate|].
  destruct (encodable content); [|discriminate].
  destruct (write_w env (saved_name env self fname) content) as [[e rest]|];
    [discriminate|].
  intros H. injection H as <- <-.
  split; [reflexivity|]. split.
  - exists content. split; [reflexivity | apply read_write_same].
  - intros other Hne. now rewrite !read_write_other.
Qed.

Lemma save_writes_the_rendering_witness :
  let self1 := collected (__init__ demo_host (u "text")) demo_host in
  let fs := [(u "out.txt.txt", u "old"); (u "notes", u "keep")] in
  let out := save repr_dyadic self1 (sample_env (3000 # 1)) (Some (u "out.txt")) fs in
  fst out = Ok (u "out.txt.txt")
  /\ (exists content,
        render repr_dyadic self1 = Ok content
        /\ read_file (u "out.txt.txt") (snd out) = Some content)
  /\ read_file (u "notes") (snd out) = Some (u "keep").
Proof.
  cbv zeta. split; [vm_compute; reflexivity|].
  destruct (save_writes_the_rendering repr_dyadic
              (collected (__init__ demo_host (u "text")) demo_host)
              (sample_env (3000 # 1)) (Some (u "out.txt"))
              [(u "out.txt.txt", u "old"); (u "notes", u "keep")]
              (snd (save repr_dyadic
                      (collected (__init__ demo_host (u "text")) demo_host)
                      (sample_env (3000 # 1)) (Some (u "out.txt"))
                      [(u "out.txt.txt", u "old"); (u "notes", u "keep")]))
              (u "out.txt.txt")
              ltac:(vm_compute; reflexivity))
    as (_ & Hcontent & Hothers).
  split; [exact Hcontent|].
  rewrite Hothers; [reflexivity | discriminate].
Defined.

(** X10: when [save] raises, no file other than the one it names is
    touched, and: either the renderer raised or the file could not be
    opened, and then that file is untouched too (an earlier report of
    the same name is not emptied, because the report is rendered before
    the file is opened); or the text could not be encoded, the exception
    is a [ValueError] and the file is left empty; or writing or closing
    failed, after the text was encoded, and the file holds what got
    through in place of what it held. *)
Theorem save_failure_leaves_files (float_repr : Q -> pystr)
  (self : SystemReport) (env : Env) (fname : option pystr) (fs fs' : files)
  (e : exn) :
  save float_repr self env fname fs = (Raise e, fs') ->
  ((render float_repr self = Raise e /\ fs' = fs)
   \/ (open_w env (saved_name env self fname) = Some e /\ fs' = fs)
   \/ (e = ValueError
       /\ (exists content,
             render float_repr self = Ok content /\ encodable content = false)
       /\ open_w env (saved_name env self fname) = None
       /\ read_file (saved_name env self fname) fs' = Some [])
   \/ (exists content rest,
         render float_repr self = Ok content
         /\ encodable content = true
         /\ open_w env (saved_name env self fname) = None
         /\ write_w env (saved_name env self fname) content = Some (e, rest)
         /\ read_file (saved_name env self fname) fs' = Some rest))
  /\ (forall other, other <> saved_name env self fname ->
        read_file other fs' = read_file other fs).
Proof.
  rewrite save_cases.
  destruct (render float_repr self) as [content|e0].
  - destruct (open_w env (saved_name env self fname)) as [e1|] eqn:Eopen.
    + intros H. injection H as <- <-.
      split; [right; left; split; reflexivity | reflexivity].
    + destruct (encodable content) eqn:Eenc.
      * destruct (write_w env (saved_name env self fname) content)
          as [[e1 rest]|] eqn:Ew; [|discriminate].
        intros H. injection H as <- <-. split.
        -- right. right. right. exists content, rest.
           split; [reflexivity|]. split; [exact Eenc|].
           split; [reflexivity|]. split; [exact Ew | apply read_write_same].
        -- intros other Hne. now rewrite !read_write_other.
      * intros H. injection H as <- <-. split.
        -- right. right. left. split; [reflexivity|].
           split; [now exists content|].
           split; [reflexivity | apply read_write_same].
        -- intros other Hne. now rewrite read_write_other.
  - intros H. injection H as <- <-.
    split; [left; split; reflexivity | reflexivity].
Qed.

Lemma save_failure_leaves_files_witness :
  let self1 := collected (__init__ demo_host (u "text")) demo_host in
  let fs := [(u "report.txt", u "yesterday"); (u "notes", u "keep")] in
  let out := save repr_dyadic self1 full_disk_env (Some (u "report")) fs in
  fst out = Raise OSError
  /\ read_file (u "report.txt") (snd out) = Some []
  /\ read_file (u "notes") (snd out) = Some (u "keep").
Proof.
  cbv zeta.
  assert (save repr_dyadic (collected (__init__ demo_host (u "text")) demo_host)
            full_disk_env (Some (u "report"))
            [(u "report.txt", u "yesterday"); (u "notes", u "keep")]
          = (Raise OSError,
             snd (save repr_dyadic
                    (collected (__init__ demo_host (u "text")) demo_host)
                    full_disk_env (Some (u "report"))
                    [(u "report.txt", u "yesterday"); (u "notes", u "keep")])))
    as Hsave by (vm_compute; reflexivity).
  destruct (save_failure_leaves_files repr_dyadic _ _ _ _ _ _ Hsave)
    as [Hcases Hothers].
  split; [vm_compute; reflexivity|]. split.
  - vm_compute. reflexivity.
  - rewrite Hothers; [reflexivity | discriminate].
Defined.

(** An earlier report of the same name survives a [save] that cannot
    render. *)
Example save_renders_before_opening :
  save repr_dyadic (__init__ demo_host (u "text")) (sample_env (3000 # 1))
    (Some (u "report")) [(u "report.txt", u "yesterday")]
  = (Raise (KeyError (u "platform")), [(u "report.txt", u "yesterday")]).
Proof. vm_compute. reflexivity. Qed.

(** X11: in the json format [save] never fails on encoding, since the
    document is pure ASCII: whenever the file opens, [save] fails only
    if writing or closing the file does, with that exception, and
    otherwise returns the name and the file holds the document. This
    holds for any report object, also one on which [collect] never ran. *)
Theorem save_json_always_encodes (float_repr : Q -> pystr)
  (self : SystemReport) (env : Env) (fname : option pystr) (fs : files) :
  (forall q, is_ascii (float_repr q)) ->
  is_json (fmt self) = true ->
  open_w env (saved_name env self fname) = None ->
  exists doc fs',
    json_report float_repr self = Ok doc
    /\ is_ascii doc
    /\ encodable doc = true
    /\ match write_w env (saved_name env self fname) doc with
       | None =>
           save float_repr self env fname fs
           = (Ok (saved_name env self fname), fs')
           /\ read_file (saved_name env self fname) fs' = Some doc
       | Some (e, rest) =>
           save float_repr self env fname fs = (Raise e, fs')
           /\ read_file (saved_name env self fname) fs' = Some rest
       end
    /\ (forall other, other <> saved_name env self fname ->
          read_file other fs' = read_file other fs).
Proof.
  intros Hrepr Hjson Hopen.
  pose proof (encode_ascii float_repr (info self) Hrepr 0) as Hascii.
  exists (encode float_repr 0 (info self)).
  rewrite save_cases. unfold render. rewrite Hjson, Hopen.
  unfold json_report. rewrite (ascii_encodable _ Hascii).
  destruct (write_w env (saved_name env self fname) _) as [[e rest]|];
    eexists; (split; [reflexivity|]); (split; [exact Hascii|]);
    (split; [reflexivity|]);
    (split; [split; [reflexivity | apply read_write_same]|]);
    intros other Hne; now rewrite !read_write_other.
Qed.

Lemma save_json_always_encodes_witness :
  let fresh := __init__ demo_host (u "json") in
  (forall q, is_ascii (repr_dyadic q))
  /\ exists doc fs',
       json_report repr_dyadic fresh = Ok doc
       /\ save repr_dyadic fresh (sample_env (3000 # 1)) None []
          = (Ok (u "system_report_T+3000.json"), fs')
       /\ read_file (u "system_report_T+3000.json") fs' = Some doc.
Proof.
  cbv zeta. split; [exact repr_dyadic_ascii|].
  destruct (save_json_always_encodes repr_dyadic (__init__ demo_host (u "json"))
              (sample_env (3000 # 1)) None [] repr_dyadic_ascii eq_refl eq_refl)
    as (doc & fs' & Hdoc & _ & _ & Hsave & _).
  exists doc, fs'. split; [exact Hdoc|]. exact Hsave.
Defined.

(** ** The command line *)


(** On a standard output that is ASCII only, the error line cannot be
    printed, and the exception leaves [main]. *)
Example main_raises_on_ascii_stdout :
  main repr_dyadic
    {| args_format := u "json"; args_output := Some (u "out"); args_print := true |}
    unresolved_host ascii_stdout_env [(u "out.json", u "old")]
  = (Raise ValueError, [], [(u "out.json", u "old")]).
Proof. vm_compute. reflexivity. Qed.

Example main_reports_unresolved_host :
  main repr_dyadic
    {| args_format := u "json"; args_output := Some (u "out"); args_print := true |}
    unresolved_host (sample_env (3000 # 1)) [(u "out.json", u "old")]
  = (Ok tt, [error_line (sample_env (3000 # 1)) GaiError],
     [(u "out.json", u "old")]).
Proof. vm_compute. reflexivity. Qed.

(** X13: when [collect] returns, [main] goes on like this. If the
    rendering of the chosen format raises, or printing it does, it ends
    in its [except] clause with that exception, nothing printed and no
    file touched: a report that cannot be printed is not saved either.
    Otherwise, with [--print] the rendering is printed first. It saves
    unless [--print] was given without an output name (an empty name
    counts as none). No file but the one named is ever touched. If the
    file cannot be opened it is untouched; if the text cannot be
    encoded it is left empty; if the write fails it holds what got
    through; in each case [main] ends in its [except] clause, after the
    report already printed. A save that succeeds stores exactly the text
    that [--print] shows and is followed by the line naming the file. *)
Theorem main_prints_and_saves (float_repr : Q -> pystr) (args : Args)
  (h : Host) (env : Env) (fs : files) (self' : SystemReport) (snap : pyval) :
  fst (run_collect (__init__ h (args_format args)) h) = Ok (self', snap) ->
  let run := main float_repr args h env fs in
  let name := saved_name env self' (args_output args) in
  match render float_repr self' with
  | Raise e => run = handler env e [] fs
  | Ok text =>
      match (if args_print args then stdout_w env [] text else None) with
      | Some e => run = handler env e [] fs
      | None =>
          let printed := if args_print args then [text] else [] in
          if given (args_output args) || negb (args_print args) then
            match open_w env name with
            | Some e => run = handler env e printed fs
            | None =>
                exists fs',
                  (forall other, other <> name ->
                     read_file other fs' = read_file other fs)
                  /\ if encodable text then
                       match write_w env name text with
                       | Some (e, rest) =>
                           read_file name fs' = Some rest
                           /\ run = handler env e printed fs'
                       | None =>
                           read_file name fs' = Some text
                           /\ run
                              = match stdout_w env printed
                                        (u "Отчет сохранен: " ++ name) with
                                | None =>
                                    (Ok tt,
                                     printed ++ [u "Отчет сохранен: " ++ name],
                                     fs')
                                | Some e => handler env e printed fs'
                                end
                       end
                     else read_file name fs' = Some []
                          /\ run = handler env ValueError printed fs'
            end
          else run = (Ok tt, printed, fs)
      end
  end.
Proof.
  intros Hrun. cbv zeta.
  pose proof (collect_keeps_fmt _ _ _ _ Hrun) as Hfmt.
  cbn [fmt __init__] in Hfmt.
  unfold main. rewrite Hrun.
  assert ((if is_json (args_format args) then json_report float_repr self'
           else text_report float_repr self') = render float_repr self')
    as -> by (unfold render; now rewrite Hfmt).
  rewrite save_cases. unfold print.
  destruct (render float_repr self') as [text|e].
  - destruct (args_print args); cbn [negb bind].
    + destruct (stdout_w env [] text) as [e|]; [reflexivity|]. cbn [app].
      destruct (given (args_output args)); cbn [orb]; [|reflexivity].
      destruct (open_w env _); [reflexivity|].
      destruct (encodable text).
      * destruct (write_w env _ text) as [[e rest]|].
        -- eexists. split; [|split; [apply read_write_same | reflexivity]].
           intros other Hne. now rewrite !read_write_other.
        -- exists (write_file (saved_name env self' (args_output args)) text
                     (write_file (saved_name env self' (args_output args)) []
                        fs)).
           split; [|split; [apply read_write_same|]].
           ++ intros other Hne. now rewrite !read_write_other.
           ++ destruct (stdout_w env _ _); reflexivity.
      * eexists. split; [|split; [apply read_write_same | reflexivity]].
        intros other Hne. now rewrite read_write_other.
    + rewrite orb_true_r.
      destruct (open_w env _); [reflexivity|].
      destruct (encodable text).
      * destruct (write_w env _ text) as [[e rest]|].
        -- eexists. split; [|split; [apply read_write_same | reflexivity]].
           intros other Hne. now rewrite !read_write_other.
        -- exists (write_file (saved_name env self' (args_output args)) text
                     (write_file (saved_name env self' (args_output args)) []
                        fs)).
           split; [|split; [apply read_write_same|]].
           ++ intros other Hne. now rewrite !read_write_other.
           ++ destruct (stdout_w env _ _); reflexivity.
      * eexists. split; [|split; [apply read_write_same | reflexivity]].
        intros other Hne. now rewrite read_write_other.
  - destruct (args_print args); cbn [negb bind]; [reflexivity|].
    rewrite orb_true_r. reflexivity.
Qed.

Lemma main_prints_and_saves_witness :
  let args := {| args_format := u "text"; args_output := None; args_print := false |} in
  let self1 := collected (__init__ demo_host (u "text")) demo_host in
  exists text fs',
    text_report repr_dyadic self1 = Ok text
    /\ main repr_dyadic args demo_host (sample_env (3000 # 1)) []
       = (Ok tt, [u "Отчет сохранен: system_report_T+3000.txt"], fs')
    /\ read_file (u "system_report_T+3000.txt") fs' = Some text.
Proof.
  cbv zeta.
  pose proof (main_prints_and_saves repr_dyadic
                {| args_format := u "text"; args_output := None;
                   args_print := false |}
                demo_host (sample_env (3000 # 1)) []
                (collected (__init__ demo_host (u "text")) demo_host)
                (info (collected (__init__ demo_host (u "text")) demo_host))
                eq_refl)
    as Hmain.
  cbv zeta in Hmain.
  destruct (render repr_dyadic
              (collected (__init__ demo_host (u "text")) demo_host))
    as [text|e] eqn:Htext; [|vm_compute in Htext; discriminate Htext].
  cbn [args_output args_print given orb negb] in Hmain.
  change (open_w (sample_env (3000 # 1)) _) with (@None exn) in Hmain.
  cbv iota in Hmain.
  assert (encodable text = true) as Henc.
  { vm_compute in Htext. injection Htext as <-. vm_compute. reflexivity. }
  destruct Hmain as (fs' & _ & Hmain). rewrite Henc in Hmain.
  change (write_w (sample_env (3000 # 1)) _ text)
    with (@None (exn * pystr)) in Hmain.
  destruct Hmain as [Hread Hmain].
  exists text, fs'. split; [exact Htext|]. split; [|exact Hread].
  rewrite Hmain. vm_compute. reflexivity.
Defined.

(** A process whose name was denied: the text report cannot be
    rendered, so with the text format nothing is printed but the error
    line and nothing is saved. *)
Example main_unnamed_process :
  main repr_dyadic
    {| args_format := u "text"; args_output := Some (u "r"); args_print := true |}
    unnamed_process_host (sample_env (3000 # 1)) [(u "r.txt", u "old")]
  = (Ok tt, [error_line (sample_env (3000 # 1)) TypeError],
     [(u "r.txt", u "old")]).
Proof. vm_compute. reflexivity. Qed.

Example main_print_only_touches_no_file :
  snd (main repr_dyadic
         {| args_format := u "json"; args_output := Some []; args_print := true |}
         demo_host readonly_env [(u "keep", u "me")])
  = [(u "keep", u "me")]
  /\ List.length (snd (fst (main repr_dyadic
                              {| args_format := u "json"; args_output := Some [];
                                 args_print := true |}
                              demo_host readonly_env [(u "keep", u "me")])))
     = 1%nat.
Proof. split; vm_compute; reflexivity. Qed.

Example main_save_failure_after_print :
  List.length (snd (fst (main repr_dyadic
                           {| args_format := u "text"; args_output := Some (u "r");
                              args_print := true |}
                           demo_host readonly_env []))) = 2%nat
  /\ last (snd (fst (main repr_dyadic
                       {| args_format := u "text"; args_output := Some (u "r");
                          args_print := true |}
                       demo_host readonly_env []))) []
     = error_line readonly_env PermissionError.
Proof. split; vm_compute; reflexivity. Qed.

(** ** When the text report can be rendered *)

(** X18: after a run of [collect] that returned, the structured
    renderer returns. The snapshot shows at most 8 processes, each with
    its memory detail read, and the text renderer returns exactly when
    the name and the CPU percentage of every one of them were read;
    when one was not, it raises [TypeError]. Nothing else in a snapshot
    that [collect] assembled makes the text renderer raise: not a
    missing core count or origin host, not absent statistics or
    counters. *)
Theorem text_report_returns_iff_attributes_read (float_repr : Q -> pystr)
  (self self' : SystemReport) (h : Host) (snap : pyval) :
  fst (run_collect self h) = Ok (self', snap) ->
  exists ps,
    getitem snap (u "processes") = Ok (PList (map (entry_of h) ps))
    /\ (List.length ps <= 8)%nat
    /\ Forall (fun p => detail_read_ok h p = true) ps
    /\ ((exists text, text_report float_repr self' = Ok text)
        <-> forallb attributes_read ps = true)
    /\ (forallb attributes_read ps = false ->
        text_report float_repr self' = Raise TypeError)
    /\ (exists doc, json_report float_repr self' = Ok doc).
Proof.
  intros Hrun.
  destruct (text_report_after_collect float_repr _ _ _ _ Hrun)
    as (ps & Hps & Hlen & Hok & Htext).
  exists ps. split; [exact Hps|]. split; [exact Hlen|]. split; [exact Hok|].
  destruct (forallb attributes_read ps).
  - split; [tauto|]. split; [discriminate|]. eexists. reflexivity.
  - split; [|split; [intros _; exact Htext | eexists; reflexivity]].
    split; [|discriminate]. intros [text C]. rewrite Htext in C. discriminate C.
Qed.

Lemma text_report_returns_iff_attributes_read_witness :
  let self0 := __init__ demo_host (u "text") in
  exists ps,
    getitem (info (collected self0 demo_host)) (u "processes")
    = Ok (PList (map (entry_of demo_host) ps))
    /\ forallb attributes_read ps = true
    /\ exists text, text_report repr_dyadic (collected self0 demo_host) = Ok text.
Proof.
  cbv zeta.
  destruct (text_report_returns_iff_attributes_read repr_dyadic
              (__init__ demo_host (u "text"))
              (collected (__init__ demo_host (u "text")) demo_host) demo_host
              (info (collected (__init__ demo_host (u "text")) demo_host))
              eq_refl)
    as (ps & Hps & _ & _ & Hiff & Hraise & _).
  exists ps. split; [exact Hps|].
  destruct (forallb attributes_read ps).
  - split; [reflexivity|]. now apply Hiff.
  - exfalso. specialize (Hraise eq_refl). vm_compute in Hraise.
    discriminate Hraise.
Defined.

(** ** The frame of the text report *)

Module FrameFacts.

Lemma join_snoc (sep x : pystr) (l : list pystr) :
  l <> [] -> join sep (l ++ [x]) = join sep l ++ sep ++ x.
Proof.
  induction l as [|a rest IH]; [contradiction|]. intros _.
  destruct rest as [|b rest'].
  - reflexivity.
  - change (join sep ((a :: b :: rest') ++ [x]))
      with (a ++ sep ++ join sep ((b :: rest') ++ [x])).
    rewrite IH by discriminate.
    change (join sep (a :: b :: rest')) with (a ++ sep ++ join sep (b :: rest')).
    now rewrite <- !app_assoc.
Qed.

Lemma join_frame (sep a b c x y : pystr) (mid : list pystr) :
  mid <> [] ->
  join sep ([a; b; c] ++ mid ++ [x; y])
  = a ++ sep ++ b ++ sep ++ c ++ sep ++ join sep mid ++ sep ++ x ++ sep ++ y.
Proof.
  intros Hmid.
  replace (mid ++ [x; y]) with ((mid ++ [x]) ++ [y])
    by (rewrite <- app_assoc; reflexivity).
  cbn [app]. rewrite !join_cons.
  assert (join sep ((mid ++ [x]) ++ [y]) = join sep mid ++ sep ++ x ++ sep ++ y) as E.
  { rewrite join_snoc by (destruct mid; discriminate).
    rewrite join_snoc by exact Hmid. now rewrite <- !app_assoc. }
  destruct ((mid ++ [x]) ++ [y]) eqn:El; [destruct mid; discriminate|].
  rewrite E. reflexivity.
Qed.

Section Frame.
Variable float_repr : Q -> pystr.

Lemma platform_lines_nonempty (self : SystemReport) (l : list pystr) :
  platform_lines float_repr self = Ok l -> l <> [].
Proof.
  unfold platform_lines.
  destruct (field2 float_repr (info self) (u "platform") (u "system")); [|discriminate].
  destruct (field2 float_repr (info self) (u "platform") (u "release")); [|discriminate].
  destruct (field2 float_repr (info self) (u "platform") (u "version")); [|discriminate].
  destruct (field2 float_repr (info self) (u "platform") (u "host")); [|discriminate].
  destruct (field2 float_repr (info self) (u "platform") (u "ip")); [|discriminate].
  cbn [bind]. intros H E. subst l. discriminate H.
Qed.

(** The list [report]: the banner, the sections, the two closing lines. *)
Lemma report_lines_frame (self : SystemReport) (lines : list pystr) :
  report_lines float_repr self = Ok lines ->
  exists mid boot,
    mid <> []
    /\ lines = [rule_eq; u "СИСТЕМНЫЙ ОТЧЕТ - " ++ time self; rule_eq] ++ mid
               ++ [nl ++ u "ВРЕМЯ ЗАГРУЗКИ: " ++ boot; rule_eq].
Proof.
  unfold report_lines.
  destruct (platform_lines float_repr self) as [l1|] eqn:E1; [|discriminate].
  destruct (cpu_lines float_repr self) as [l2|]; [|discriminate].
  destruct (memory_lines float_repr self) as [l3|]; [|discriminate].
  destruct (disks_lines float_repr self) as [l4|]; [|discriminate].
  destruct (network_lines float_repr self) as [l5|]; [|discriminate].
  destruct (interfaces_lines float_repr self) as [l6|]; [|discriminate].
  destruct (processes_lines float_repr self) as [l7|]; [|discriminate].
  destruct (users_lines float_repr self) as [l8|]; [|discriminate].
  unfold closing_lines.
  destruct (field float_repr (info self) (u "boot")) as [boot|]; [|discriminate].
  cbn [bind]. intros H.
  exists (l1 ++ l2 ++ l3 ++ l4 ++ l5 ++ l6 ++ l7 ++ l8), boot. split.
  - apply platform_lines_nonempty in E1. destruct l1; [contradiction | discriminate].
  - assert (lines = banner_lines self ++ l1 ++ l2 ++ l3 ++ l4 ++ l5 ++ l6 ++ l7
                      ++ l8 ++ [nl ++ u "ВРЕМЯ ЗАГРУЗКИ: " ++ boot; rule_eq])
      as -> by congruence.
    unfold banner_lines. rewrite <- !app_assoc. reflexivity.
Qed.

End Frame.

End FrameFacts.
Import FrameFacts.

(** X14: whenever [text_report] returns, the text opens with the rule of
    60 "=" signs, the title line carrying the timestamp the object was
    created with, and the rule again, and it closes with the boot-time
    line followed by the same rule. *)
Theorem text_report_frame (float_repr : Q -> pystr) (self : SystemReport)
  (text : pystr) :
  text_report float_repr self = Ok text ->
  List.length rule_eq = 60%nat
  /\ exists body boot,
       text = rule_eq ++ nl ++ (u "СИСТЕМНЫЙ ОТЧЕТ - " ++ time self) ++ nl
                ++ rule_eq ++ nl ++ body ++ nl
                ++ (nl ++ u "ВРЕМЯ ЗАГРУЗКИ: " ++ boot) ++ nl ++ rule_eq.
Proof.
  intros H. split; [reflexivity|].
  unfold text_report in H.
  destruct (report_lines float_repr self) as [lines|] eqn:E; [|discriminate].
  cbn [bind] in H.
  destruct (report_lines_frame float_repr self lines E) as (mid & boot & Hmid & ->).
  exists (join nl mid), boot.
  assert (text = join nl ([rule_eq; u "СИСТЕМНЫЙ ОТЧЕТ - " ++ time self; rule_eq]
                            ++ mid ++ [nl ++ u "ВРЕМЯ ЗАГРУЗКИ: " ++ boot; rule_eq]))
    as -> by congruence.
  rewrite (join_frame nl _ _ _ _ _ mid Hmid). now rewrite <- !app_assoc.
Qed.

Lemma text_report_frame_witness :
  let self1 := collected (__init__ demo_host (u "text")) demo_host in
  returns (text_report repr_dyadic self1) = true
  /\ forall text, text_report repr_dyadic self1 = Ok text ->
       exists body boot,
         text = rule_eq ++ nl ++ (u "СИСТЕМНЫЙ ОТЧЕТ - " ++ u "T+1000") ++ nl
                  ++ rule_eq ++ nl ++ body ++ nl
                  ++ (nl ++ u "ВРЕМЯ ЗАГРУЗКИ: " ++ boot) ++ nl ++ rule_eq.
Proof.
  cbv zeta. split; [vm_compute; reflexivity|].
  intros text Htext.
  apply (text_report_frame repr_dyadic
           (collected (__init__ demo_host (u "text")) demo_host) text Htext).
Defined.

(** X15: the structured document is made of printable ASCII characters
    and newlines only, provided the float texts are printable (as
    [repr] gives them). Strings and keys are written without any newline
    or control character (a newline inside a name becomes the two
    characters backslash and n), so every newline of the document belongs
    to its layout. *)
Theorem json_document_is_printable (float_repr : Q -> pystr) (v : pyval) :
  (forall q, Forall printable (float_repr q)) ->
  (forall level, Forall document_char (encode float_repr level v))
  /\ (forall s, Forall printable (encode_basestring_ascii s))
  /\ (forall level s, Forall printable (encode float_repr level (PStr s))).
Proof.
  intros Hrepr. split; [|split].
  - induction v using pyval_nested_ind; intros level; cbn [encode].
    + apply printable_document, Forall_forall. intros c Hc.
      cbv in Hc. unfold printable. intuition (subst; lia).
    + apply printable_document, repr_int_printable.
    + apply printable_document, Hrepr.
    + apply printable_document, encode_basestring_printable.
    + apply wrap_document; [unfold printable; lia | unfold printable; lia |].
      apply Forall_map. eapply Forall_impl; [|eassumption].
      intros x Hx. apply Hx.
    + apply wrap_document; [unfold printable; lia | unfold printable; lia |].
      apply Forall_map. eapply Forall_impl; [|eassumption].
      intros [k x] Hx. cbn [fst snd] in *.
      apply Forall_app. split;
        [apply printable_document, encode_basestring_printable|].
      apply Forall_app. split; [|apply Hx].
      apply printable_document, Forall_forall. intros c Hc.
      cbv in Hc. unfold printable. intuition (subst; lia).
    + apply printable_document, encode_basestring_printable.
  - apply encode_basestring_printable.
  - intros level s. apply encode_basestring_printable.
Qed.


Lemma json_document_is_printable_witness :
  let self1 := collected (__init__ demo_host (u "json")) demo_host in
  (forall q, Forall printable (repr_dyadic q))
  /\ Forall document_char (encode repr_dyadic 0 (info self1)).
Proof.
  cbv zeta. split; [exact repr_dyadic_printable|].
  apply (json_document_is_printable repr_dyadic
           (info (collected (__init__ demo_host (u "json")) demo_host))
           repr_dyadic_printable).
Defined.

(** ** Escaping loses nothing *)

Module EscapeFacts.

Lemma unhex_hex_digit (d : N) : (d < 16)%N -> unhex (hex_digit d) = d.
Proof.
  intros H. unfold unhex, hex_digit.
  destruct (N.ltb_spec d 10).
  - destruct (N.ltb_spec (48 + d) 58); lia.
  - destruct (N.ltb_spec (87 + d) 58); lia.
Qed.

Lemma unhex4_hex4 (n : N) :
  (n < 65536)%N ->
  unhex4 (hex_digit (n / 4096 mod 16)) (hex_digit (n / 256 mod 16))
    (hex_digit (n / 16 mod 16)) (hex_digit (n mod 16)) = n.
Proof.
  intros H. unfold unhex4.
  rewrite !unhex_hex_digit by (apply N.mod_upper_bound; discriminate).
  replace (n / 256)%N with (n / 16 / 16)%N
    by (rewrite N.Div0.div_div; reflexivity).
  replace (n / 4096)%N with (n / 16 / 16 / 16)%N
    by (rewrite !N.Div0.div_div; reflexivity).
  pose proof (N.div_mod n 16 ltac:(discriminate)) as E0.
  pose proof (N.div_mod (n / 16) 16 ltac:(discriminate)) as E1.
  pose proof (N.div_mod (n / 16 / 16) 16 ltac:(discriminate)) as E2.
  pose proof (N.mod_upper_bound n 16 ltac:(discriminate)).
  pose proof (N.mod_upper_bound (n / 16) 16 ltac:(discriminate)).
  pose proof (N.mod_upper_bound (n / 16 / 16) 16 ltac:(discriminate)).
  assert (n / 16 / 16 / 16 < 16)%N as Hc.
  { rewrite !N.Div0.div_div. apply N.Div0.div_lt_upper_bound. simpl. lia. }
  rewrite (N.mod_small _ _ Hc). lia.
Qed.

Lemma unescape_u (a b c d : N) (rest : pystr) :
  ((55296 <=? unhex4 a b c d) && (unhex4 a b c d <=? 56319))%N = false ->
  unescape (backslash :: 117%N :: a :: b :: c :: d :: rest)
  = unhex4 a b c d :: unescape rest.
Proof.
  intros H. change (unescape (backslash :: 117%N :: a :: b :: c :: d :: rest))
    with (if ((55296 <=? unhex4 a b c d) && (unhex4 a b c d <=? 56319))%N
          then match rest with
               | _ :: _ :: a' :: b' :: c' :: d' :: rest3 =>
                   (65536 + (unhex4 a b c d - 55296) * 1024
                    + (unhex4 a' b' c' d' - 56320))%N :: unescape rest3
               | _ => unhex4 a b c d :: unescape rest
               end
          else unhex4 a b c d :: unescape rest).
  now rewrite H.
Qed.

Lemma unescape_pair (a b c d x y a' b' c' d' : N) (rest : pystr) :
  ((55296 <=? unhex4 a b c d) && (unhex4 a b c d <=? 56319))%N = true ->
  unescape (backslash :: 117%N :: a :: b :: c :: d
              :: x :: y :: a' :: b' :: c' :: d' :: rest)
  = (65536 + (unhex4 a b c d - 55296) * 1024
     + (unhex4 a' b' c' d' - 56320))%N :: unescape rest.
Proof.
  intros H.
  change (unescape (backslash :: 117%N :: a :: b :: c :: d
                      :: x :: y :: a' :: b' :: c' :: d' :: rest))
    with (if ((55296 <=? unhex4 a b c d) && (unhex4 a b c d <=? 56319))%N
          then (65536 + (unhex4 a b c d - 55296) * 1024
                + (unhex4 a' b' c' d' - 56320))%N :: unescape rest
          else unhex4 a b c d
                 :: unescape (x :: y :: a' :: b' :: c' :: d' :: rest)).
  now rewrite H.
Qed.

Lemma unescape_plain (c : N) (rest : pystr) :
  c <> backslash -> unescape (c :: rest) = c :: unescape rest.
Proof.
  intros H. change (unescape (c :: rest))
    with (if (c =? backslash)%N
          then match rest with
               | [] => [c]
               | x :: rest1 =>
                   if (x =? 117)%N then
                     match rest1 with
                     | a :: b :: c1 :: d :: rest2 =>
                         let hi := unhex4 a b c1 d in
                         if ((55296 <=? hi) && (hi <=? 56319))%N then
                           match rest2 with
                           | _ :: _ :: a' :: b' :: c' :: d' :: rest3 =>
                               (65536 + (hi - 55296) * 1024
                                + (unhex4 a' b' c' d' - 56320))%N :: unescape rest3
                           | _ => hi :: unescape rest2
                           end
                         else hi :: unescape rest2
                     | _ => [c]
                     end
                   else unescape_simple x :: unescape rest1
               end
          else c :: unescape rest).
  destruct (N.eqb_spec c backslash); [contradiction | reflexivity].
Qed.

(** Reading back the escape of one scalar value gives the value. *)
Lemma unescape_escape_char (c : N) (r : pystr) :
  (c < 1114112)%N -> is_surrogate c = false ->
  unescape (escape_char c ++ r) = c :: unescape r.
Proof.
  intros Hc Hs. unfold escape_char.
  destruct (N.eqb_spec c backslash) as [->|Hb]; [reflexivity|].
  destruct (N.eqb_spec c dquote) as [->|Hq]; [reflexivity|].
  destruct ((32 <=? c) && (c <=? 126))%N eqn:Hp.
  { cbn [app]. now apply unescape_plain. }
  destruct (N.eqb_spec c 8) as [->|]; [reflexivity|].
  destruct (N.eqb_spec c 12) as [->|]; [reflexivity|].
  destruct (N.eqb_spec c 10) as [->|]; [reflexivity|].
  destruct (N.eqb_spec c 13) as [->|]; [reflexivity|].
  destruct (N.eqb_spec c 9) as [->|]; [reflexivity|].
  unfold is_surrogate in Hs.
  destruct (N.ltb_spec c 65536) as [Hlt|Hge].
  - unfold hex4. cbn [app].
    rewrite unescape_u; rewrite unhex4_hex4 by assumption; [reflexivity|].
    destruct (N.leb_spec 55296 c); [|reflexivity].
    destruct (N.leb_spec c 57343); [discriminate|].
    cbn [andb]. apply N.leb_gt. lia.
  - set (m := (c - 65536)%N).
    assert (m < 1048576)%N as Hm by (unfold m; lia).
    assert (m / 1024 < 1024)%N as Hq1
      by (apply N.Div0.div_lt_upper_bound; simpl; lia).
    rewrite (N.mod_small _ _ Hq1).
    pose proof (N.mod_upper_bound m 1024 ltac:(discriminate)) as Hr.
    unfold hex4. cbn [app].
    rewrite unescape_pair; rewrite !unhex4_hex4 by lia.
    + f_equal. pose proof (N.div_mod m 1024 ltac:(discriminate)) as Hdm.
      assert (c = m + 65536)%N as Ec by (unfold m; lia).
      clearbody m. clear Hq1 Hr.
      generalize dependent (m / 1024)%N. generalize dependent (m mod 1024)%N.
      intros. lia.
    + clear Hr. clearbody m. generalize dependent (m / 1024)%N. intros q Hq1.
      apply andb_true_iff. split; apply N.leb_le; lia.
Qed.

Lemma unescape_escaped (s r : pystr) :
  well_formed s = true ->
  unescape (flat_map escape_char s ++ r) = s ++ unescape r.
Proof.
  unfold well_formed. induction s as [|c t IH]; [reflexivity|].
  cbn [forallb flat_map]. intros H. apply andb_true_iff in H.
  destruct H as [Hc Ht]. apply andb_true_iff in Hc. destruct Hc as [Hlt Hs].
  apply N.ltb_lt in Hlt. apply negb_true_iff in Hs.
  rewrite <- app_assoc, unescape_escape_char by assumption.
  cbn [app]. now rewrite IH.
Qed.

End EscapeFacts.
Import EscapeFacts.

(** X16: escaping loses nothing on well-formed text. Two strings of
    Unicode scalar values (no surrogate code points) that the structured
    renderer writes the same way are the same string, so distinct names
    stay distinct in the document. *)
Theorem escaping_is_injective (s1 s2 : pystr) :
  well_formed s1 = true ->
  well_formed s2 = true ->
  encode_basestring_ascii s1 = encode_basestring_ascii s2 ->
  s1 = s2.
Proof.
  intros H1 H2 E. unfold encode_basestring_ascii in E.
  injection E as E.
  apply (f_equal unescape) in E.
  rewrite !unescape_escaped in E by assumption.
  now apply app_inv_tail in E.
Qed.

Lemma escaping_is_injective_witness :
  encode_basestring_ascii (u "файлы \\ [1]")
  = dquote :: u "\u0444\u0430\u0439\u043b\u044b \\\\ [1]" ++ [dquote]
  /\ u "файлы \\ [1]" = u "файлы \\ [1]".
Proof.
  split; [vm_compute; reflexivity|].
  apply (escaping_is_injective (u "файлы \\ [1]") (u "файлы \\ [1]"));
    reflexivity.
Defined.

(** Without well-formedness the property fails: a pair of surrogate code
    points is written like the character the pair encodes. *)
Example surrogate_pair_collides :
  encode_basestring_ascii [55357%N; 56832%N] = encode_basestring_ascii [128512%N]
  /\ well_formed [55357%N; 56832%N] = false.
Proof. split; vm_compute; reflexivity. Qed.

(** X17: every entry [_disks] returns is complete: it holds the seven
    base fields in order, followed by both counter fields or by neither
    (never by one of them), which is what lets the text renderer read
    [write_bytes] whenever it finds [read_bytes]; the renderer prints
    such an entry in 4 lines with counters and 3 without. *)
Theorem disk_entries_are_complete (float_repr : Q -> pystr) (h : Host)
  (v : pyval) :
  _disks h = Ok v ->
  exists ds, v = PList ds /\ Forall (complete_disk_entry float_repr) ds.
Proof.
  intros Hv. destruct (disks_shape h v Hv) as (ps & ds & -> & Hall).
  exists ds. split; [reflexivity|].
  clear Hv.
  induction Hall as [|p d ps' ds' (use & _ & ->) _ IH]; [constructor|].
  constructor; [|exact IH].
  unfold io_extra.
  destruct (disk_io_counters h p) as [counters|];
    [destruct (lookup_io (io_key p) counters)|];
    (eexists; split; [reflexivity|]; split; [|split; [reflexivity|]];
     [(now left) || (now right) | intros i; eexists; split; reflexivity]).
Qed.

Lemma disk_entries_are_complete_witness :
  exists ds,
    _disks demo_host = Ok (PList ds)
    /\ List.length ds = 2%nat
    /\ Forall (complete_disk_entry repr_dyadic) ds.
Proof.
  destruct (disk_entries_are_complete repr_dyadic demo_host
              (match _disks demo_host with Ok v => v | Raise _ => PNone end)
              ltac:(vm_compute; reflexivity))
    as (ds & Hds & Hall).
  exists ds. split; [|split; [|exact Hall]].
  - rewrite <- Hds. vm_compute. reflexivity.
  - vm_compute in Hds. injection Hds as <-. reflexivity.
Defined.
